(** * Pokerhands: the equity engine of [PokerOddsCalculator.py]

    A shallow embedding of the card parser, the deterministic hand
    classifier, the Monte Carlo simulators and the pre-flop cache of
    [src/PokerOddsCalculator.py], with the properties of the design
    specification stated and settled over it.

    Python strings are modelled by [string] over the code points 0..255
    (the character [ascii] n stands for code point n); Python integers by
    [Z]; a raised exception by the [Raise] branch of [result]; a dict by
    [gmap], and by an association list where its order is observed
    ([Counter]); the random shuffles of the simulators by a function from
    the trial number to the shuffled deck.  A percentage, which Python
    computes as the float nearest to a quotient of integers, is modelled
    by the exact quotient, and only what rounding to the nearest float
    keeps (bounds, being zero) is stated of it without saying so; the
    float itself is modelled by a primitive float where its rounding
    matters. *)

From Stdlib Require Import ZArith QArith String Ascii List Lia.
From Stdlib Require PrimFloat Uint63.
From stdpp Require Import base tactics option list sorting strings gmap.

Local Open Scope string_scope.
Local Open Scope Z_scope.

(** ** Python run-time model *)

Module Py.

(** The exception classes the program can meet.  All but
    [KeyboardInterrupt] derive from Python's [Exception]. *)
Inductive exn : Set :=
| IndexError | KeyError | ValueError | TypeError
| ZeroDivisionError | OSError | EOFError | UnpicklingError | PicklingError
| Exception
| KeyboardInterrupt.

(** [isinstance(e, Exception)]: what an [except Exception] clause
    catches. *)
Definition is_Exception (e : exn) : bool :=
  match e with KeyboardInterrupt => false | _ => true end.

Inductive result (A : Type) : Type :=
| Ok (a : A)
| Raise (e : exn).
Arguments Ok {A} a.
Arguments Raise {A} e.

#[global] Instance exn_eq_dec : EqDecision exn.
Proof. solve_decision. Defined.
#[global] Instance result_eq_dec {A} `{EqDecision A} : EqDecision (result A).
Proof. solve_decision. Defined.

Definition bind {A B} (m : result A) (k : A -> result B) : result B :=
  match m with Ok a => k a | Raise e => Raise e end.

(** [[f(x) for x in l]] where [f] may raise: elements are evaluated left
    to right and the first exception stops the comprehension. *)
Fixpoint for_each {A B} (f : A -> result B) (l : list A) : result (list B) :=
  match l with
  | [] => Ok []
  | x :: t => bind (f x) (fun y => bind (for_each f t) (fun ys => Ok (y :: ys)))
  end.

(** [s[i]] on a string. *)
Definition index (s : string) (i : nat) : result ascii :=
  match String.get i s with Some c => Ok c | None => Raise IndexError end.

(** [len(l)] *)
Definition len {A} (l : list A) : Z := Z.of_nat (length l).

Definition code (c : ascii) : Z := Z.of_N (N_of_ascii c).

(** [str.isspace] on one character: TAB..CR, FS..US, space, NEL, NBSP. *)
Definition isspace (c : ascii) : bool :=
  let n := code c in
  ((9 <=? n) && (n <=? 13)) || ((28 <=? n) && (n <=? 32))
  || (n =? 133) || (n =? 160).

Definition of_code (n : Z) : ascii := ascii_of_N (Z.to_N n).

(** [str.lower] on one character: A-Z and the Latin-1 capitals
    U+00C0..U+00DE (without the multiplication sign U+00D7). *)
Definition lower_char (c : ascii) : ascii :=
  let n := code c in
  if ((65 <=? n) && (n <=? 90))
     || ((192 <=? n) && (n <=? 222) && negb (n =? 215))
  then of_code (n + 32) else c.

(** [str.upper] on one character, as the key under which the program
    looks the result up in its tables of ranks.  For every character but
    three it is the one character that Python answers.  For U+00DF, U+00B5
    and U+00FF Python answers "SS", U+039C and U+0178, which are not one
    character of the alphabet 0..255; no table of the program has them as
    a key, and the character itself, which is no key either, stands for
    them here.  Where the upper-cased character is part of what the
    program shows (in [card_label_html]), [upper_codes] is used. *)
Definition upper_char (c : ascii) : ascii :=
  let n := code c in
  if ((97 <=? n) && (n <=? 122))
     || ((224 <=? n) && (n <=? 254) && negb (n =? 247))
  then of_code (n - 32) else c.

(** [c.upper()] for a one-character string [c], as the code points of the
    result: "SS" for U+00DF, U+039C for U+00B5, U+0178 for U+00FF, and
    one character of the alphabet for every other [c]. *)
Definition upper_codes (c : ascii) : list Z :=
  let n := code c in
  if n =? 223 then [83; 83]
  else if n =? 181 then [924]
  else if n =? 255 then [376]
  else [code (upper_char c)].

(** A string that the program builds for display, as its code points:
    upper-casing can leave the alphabet of the inputs. *)
Definition text : Type := list Z.
Definition text_of (s : string) : text := code <$> list_ascii_of_string s.

Fixpoint lower (s : string) : string :=
  match s with
  | EmptyString => EmptyString
  | String c t => String (lower_char c) (lower t)
  end.

Fixpoint lstrip_chars (l : list ascii) : list ascii :=
  match l with
  | [] => []
  | c :: t => if isspace c then lstrip_chars t else l
  end.

(** [str.strip()]: leading and trailing white space removed. *)
Definition strip (s : string) : string :=
  string_of_list_ascii
    (rev (lstrip_chars (rev (lstrip_chars (list_ascii_of_string s))))).

(** [sorted(l, reverse=True)] on integers, by insertion. *)
Fixpoint insert_desc (x : Z) (l : list Z) : list Z :=
  match l with
  | [] => [x]
  | y :: t => if x <? y then y :: insert_desc x t else x :: l
  end.

Definition sorted_reverse (l : list Z) : list Z := foldr insert_desc [] l.

(** [sorted(l)] on strings; the order is Python's, by code point. *)
Fixpoint insert_str (x : string) (l : list string) : list string :=
  match l with
  | [] => [x]
  | y :: t => if String.ltb y x then y :: insert_str x t else x :: l
  end.

Definition sorted_str (l : list string) : list string := foldr insert_str [] l.

(** [collections.Counter(l)]: a dict from element to multiplicity, its
    keys in order of first occurrence (which [items()] and [values()]
    follow). *)
Section Counter.
Context {K : Type} `{EqDecision K}.

Fixpoint counter_incr (k : K) (c : list (K * Z)) : list (K * Z) :=
  match c with
  | [] => [(k, 1)]
  | (k', n) :: t =>
      if decide (k = k') then (k', n + 1) :: t else (k', n) :: counter_incr k t
  end.

Definition Counter (l : list K) : list (K * Z) :=
  foldl (fun c k => counter_incr k c) [] l.

Definition values (c : list (K * Z)) : list Z := map snd c.

(** [c[k]]: the multiplicity a counter holds for a key, 0 for a key it
    does not have. *)
Fixpoint cget (k : K) (c : list (K * Z)) : Z :=
  match c with
  | [] => 0
  | (k', n) :: t => if decide (k = k') then n else cget k t
  end.

(** [l.count(k)] *)
Definition count (k : K) (l : list K) : Z :=
  Z.of_nat (length (filter (fun x => x = k) l)).
End Counter.

(** [min(l)] on integers; [ValueError] on the empty list. *)
Definition min_list (l : list Z) : result Z :=
  match l with
  | [] => Raise ValueError
  | x :: t => Ok (foldl Z.min x t)
  end.

(** [for i in range(n): s = body(i, s)], counting from [i]. *)
Fixpoint for_range {St} (n i : nat) (body : nat -> St -> result St) (s : St)
  : result St :=
  match n with
  | O => Ok s
  | S n' => bind (body i s) (for_range n' (S i) body)
  end.

(** [max(l, key=f)]: the first element whose key is maximal;
    [ValueError] on the empty list. *)
Fixpoint max_from {A} (f : A -> Z) (best : A) (l : list A) : A :=
  match l with
  | [] => best
  | x :: t => max_from f (if f best <? f x then x else best) t
  end.

Definition max_by {A} (f : A -> Z) (l : list A) : result A :=
  match l with
  | [] => Raise ValueError
  | x :: t => Ok (max_from f x t)
  end.

End Py.

Import Py.

#[global] Instance result_ret : MRet result := @Ok.
#[global] Instance result_bind : MBind result := fun A B k m => Py.bind m k.

(** ** Module constants (lines 15-35) *)

Definition RANKS : string := "23456789TJQKA".
Definition SUITS : string := "shdc".
Definition SUIT_ORDER : string := "cdhs".

(** [enumerate(l, start)] *)
Fixpoint enumerate {A} (l : list A) (start : Z) : list (Z * A) :=
  match l with
  | [] => []
  | x :: t => (start, x) :: enumerate t (start + 1)
  end.

(** [RANK_TO_VALUE = {r: i for i, r in enumerate(RANKS, 2)}] *)
Definition RANK_TO_VALUE : gmap ascii Z :=
  foldl (fun m '(i, r) => <[r := i]> m) ∅
        (enumerate (list_ascii_of_string RANKS) 2).

(** [RANK_TO_VALUE[r]] *)
Definition rank_value (r : ascii) : result Z :=
  match RANK_TO_VALUE !! r with Some v => Ok v | None => Raise KeyError end.

(** The codes of [CARD_OPTIONS]: [f'{r}{s}' for s in SUIT_ORDER for r in RANKS]. *)
Definition CARD_CODES : list string :=
  s ← list_ascii_of_string SUIT_ORDER;
  r ← list_ascii_of_string RANKS;
  [String r (String s EmptyString)].

(** ** Card parsing (lines 19, 37-41) *)

(** A character class of the pattern under [re.IGNORECASE]. *)
Definition class_ignorecase (cls : string) (c : ascii) : bool :=
  existsb (fun k => bool_decide (lower_char k = lower_char c))
          (list_ascii_of_string cls).

(** [CARD_PATTERN.match(s)] for [^[2-9TJQKA][shdc]$] with IGNORECASE, as a
    truth value.  [$] matches at the end of the string and also just
    before a final newline. *)
Definition CARD_PATTERN_match (s : string) : bool :=
  match s with
  | String r (String u rest) =>
      class_ignorecase "23456789TJQKA" r && class_ignorecase "shdc" u
      && (bool_decide (rest = EmptyString)
          || bool_decide (rest = String "010"%char EmptyString))
  | _ => false
  end.

Definition parse_card (card : string) : option string :=
  let card := lower (strip card) in
  if CARD_PATTERN_match card then Some card else None.

(** ** The deterministic classifier (lines 44-105) *)

Definition NOT_ENOUGH : string := "Not enough cards for hand analysis.".

(** The wheel test [set(['A','2','3','4','5']).issubset(set(ranks_list))]. *)
Definition has_wheel (ranks_list : list ascii) : bool :=
  forallb (fun r => bool_decide (r ∈ ranks_list))
          (list_ascii_of_string "A2345").

(** The loop [for i in range(len(values) - 4)] of [get_straight], on the
    suffix of [values] that starts at index [i]. *)
Fixpoint straight_scan (values : list Z) : bool * option Z :=
  match values with
  | [] => (false, None)
  | v :: t =>
      match t !! 3%nat with
      | Some w => if v - w =? 4 then (true, Some v) else straight_scan t
      | None => (false, None)
      end
  end.

Definition get_straight (ranks_list : list ascii) : result (bool * option Z) :=
  vs ← for_each rank_value ranks_list;
  let values := sorted_reverse (remove_dups vs) in
  let values := if has_wheel ranks_list then (values ++ [1])%list else values in
  Ok (straight_scan values).

(** The loop over [suit_counts.items()] that picks [flush_suit]. *)
Definition find_flush_suit (suit_counts : list (ascii * Z)) : option ascii :=
  fst <$> find (fun '(_, count) => 5 <=? count) suit_counts.

(** [c[0].upper()] and [c[1].lower()] *)
Definition rank_of (c : string) : result ascii :=
  r ← index c 0; Ok (upper_char r).
Definition suit_of (c : string) : result ascii :=
  s ← index c 1; Ok (lower_char s).

Definition analyze_hand (cards : list string) : result string :=
  if len cards <? 5 then Ok NOT_ENOUGH else
  ranks ← for_each rank_of cards;
  suits ← for_each suit_of cards;
  let rank_counts := Counter ranks in
  let suit_counts := Counter suits in
  unique_ranks ← for_each rank_value (remove_dups ranks);
  let flush_suit := find_flush_suit suit_counts in
  let flush_cards :=
    match flush_suit with
    | Some fs => filter (fun c => String.get 1 c = Some fs) cards
    | None => []
    end in
  flush_ranks ← for_each rank_of flush_cards;
  sf ← (if bool_decide (is_Some flush_suit) && (5 <=? len flush_ranks)
        then get_straight flush_ranks else Ok (false, None));
  match sf with
  | (true, high_sf) =>
      if bool_decide (high_sf = Some 14) then Ok "Royal Flush" else Ok "Straight Flush"
  | (false, _) =>
  if bool_decide (4 ∈ values rank_counts) then Ok "Four of a Kind" else
  if bool_decide (3 ∈ values rank_counts) && bool_decide (2 ∈ values rank_counts)
  then Ok "Full House" else
  if bool_decide (is_Some flush_suit) then Ok "Flush" else
  st ← get_straight ranks;
  if fst (st : bool * option Z) then Ok "Straight" else
  if bool_decide (3 ∈ values rank_counts) then Ok "Three of a Kind" else
  if 2 <=? len (filter (fun n : Z => n = 2) (values rank_counts))
  then Ok "Two Pair" else
  if bool_decide (2 ∈ values rank_counts) then Ok "Pair" else
  high ← max_by (fun r => default 0 (RANK_TO_VALUE !! r)) ranks;
  Ok (String.append "High Card: " (String high EmptyString))
  end.

(** ** The deuces library, as far as the program calls it (line 11)

    [deuces] is a dependency, not a file of the repository.  The
    definitions below follow the package's own sources: [Card.new]
    (card.py), [Deck.draw] and the full deck (deck.py),
    [Evaluator.get_rank_class] and [class_to_string] (evaluator.py) with
    the constants [MAX_...] and [RANK_CLASS_TO_STRING] (lookup.py).  The
    hand-ranking tables behind [Evaluator.evaluate] stay abstract (a
    section variable below).  [Deck()] shuffles the full deck: the deck of
    a trial is any permutation of [FULL_DECK]. *)

Module Deuces.

(** A card is the library's integer encoding. *)
Definition card : Type := Z.

Definition STR_RANKS : string := "23456789TJQKA".
Definition PRIMES : list Z := [2; 3; 5; 7; 11; 13; 17; 19; 23; 29; 31; 37; 41].

Definition CHAR_RANK_TO_INT_RANK : gmap ascii Z :=
  list_to_map (zip (list_ascii_of_string STR_RANKS) (seqZ 0 13)).

Definition CHAR_SUIT_TO_INT_SUIT : gmap ascii Z :=
  list_to_map [("s"%char, 1); ("h"%char, 2); ("d"%char, 4); ("c"%char, 8)].

Definition getitem {K V} `{Countable K} (m : gmap K V) (k : K) : result V :=
  match m !! k with Some v => Ok v | None => Raise KeyError end.

(** [Card.new(string)] *)
Definition Card_new (s : string) : result card :=
  rank_char ← index s 0;
  suit_char ← index s 1;
  rank_int ← getitem CHAR_RANK_TO_INT_RANK rank_char;
  suit_int ← getitem CHAR_SUIT_TO_INT_SUIT suit_char;
  rank_prime ← match PRIMES !! Z.to_nat rank_int with
               | Some p => Ok p | None => Raise IndexError end;
  let bitrank := Z.shiftl (Z.shiftl 1 rank_int) 16 in
  let suit := Z.shiftl suit_int 12 in
  let rank := Z.shiftl rank_int 8 in
  Ok (Z.lor (Z.lor (Z.lor bitrank suit) rank) rank_prime).

(** [Deck.GetFullDeck()]: every rank with every suit. *)
Definition FULL_DECK : list card :=
  Eval vm_compute in
    (r ← list_ascii_of_string STR_RANKS;
     u ← list_ascii_of_string "shdc";
     match Card_new (String r (String u EmptyString)) with
     | Ok c => [c] | Raise _ => [] end).

(** Code that draws from a deck threads the list [deck.cards] and may
    raise. *)
Definition DeckM (A : Type) : Type := list card -> result (A * list card).

Definition ret {A} (a : A) : DeckM A := fun d => Ok (a, d).
Definition bindD {A B} (m : DeckM A) (k : A -> DeckM B) : DeckM B :=
  fun d => match m d with Ok (a, d') => k a d' | Raise e => Raise e end.
Definition lift {A} (r : result A) : DeckM A :=
  fun d => match r with Ok a => Ok (a, d) | Raise e => Raise e end.

(** [deck.draw(1)], that is [self.cards.pop(0)]. *)
Definition draw : DeckM card :=
  fun d => match d with [] => Raise IndexError | c :: t => Ok (c, t) end.

(** [list.remove(x)]: the first occurrence, [ValueError] if there is none. *)
Fixpoint list_remove (x : card) (l : list card) : result (list card) :=
  match l with
  | [] => Raise ValueError
  | y :: t =>
      if decide (x = y) then Ok t
      else match list_remove x t with
           | Ok t' => Ok (y :: t') | Raise e => Raise e end
  end.

(** [deck.cards.remove(x)] *)
Definition remove (x : card) : DeckM unit :=
  fun d => match list_remove x d with
           | Ok d' => Ok (tt, d') | Raise e => Raise e end.

(** [[m for _ in range(n)]] *)
Fixpoint replicateD {A} (n : nat) (m : DeckM A) : DeckM (list A) :=
  match n with
  | O => ret []
  | S n' => bindD m (fun a => bindD (replicateD n' m) (fun t => ret (a :: t)))
  end.

(** [for x in l: body(x)] *)
Fixpoint forD {A} (l : list A) (body : A -> DeckM unit) : DeckM unit :=
  match l with
  | [] => ret tt
  | x :: t => bindD (body x) (fun _ => forD t body)
  end.

Definition MAX_STRAIGHT_FLUSH : Z := 10.
Definition MAX_FOUR_OF_A_KIND : Z := 166.
Definition MAX_FULL_HOUSE : Z := 322.
Definition MAX_FLUSH : Z := 1599.
Definition MAX_STRAIGHT : Z := 1609.
Definition MAX_THREE_OF_A_KIND : Z := 2467.
Definition MAX_TWO_PAIR : Z := 3325.
Definition MAX_PAIR : Z := 6185.
Definition MAX_HIGH_CARD : Z := 7462.

(** [Evaluator.get_rank_class(hr)] *)
Definition get_rank_class (hr : Z) : result Z :=
  if (0 <=? hr) && (hr <=? MAX_STRAIGHT_FLUSH) then Ok 1
  else if hr <=? MAX_FOUR_OF_A_KIND then Ok 2
  else if hr <=? MAX_FULL_HOUSE then Ok 3
  else if hr <=? MAX_FLUSH then Ok 4
  else if hr <=? MAX_STRAIGHT then Ok 5
  else if hr <=? MAX_THREE_OF_A_KIND then Ok 6
  else if hr <=? MAX_TWO_PAIR then Ok 7
  else if hr <=? MAX_PAIR then Ok 8
  else if hr <=? MAX_HIGH_CARD then Ok 9
  else Raise Exception.

Definition RANK_CLASS_TO_STRING : gmap Z string :=
  list_to_map
    [(1, "Straight Flush"); (2, "Four of a Kind"); (3, "Full House");
     (4, "Flush"); (5, "Straight"); (6, "Three of a Kind");
     (7, "Two Pair"); (8, "Pair"); (9, "High Card")].

(** [Evaluator.class_to_string(class_int)] *)
Definition class_to_string (class_int : Z) : result string :=
  getitem RANK_CLASS_TO_STRING class_int.

End Deuces.

Import Deuces.

Notation "x ←ᵈ m ; k" := (Deuces.bindD m (fun x => k))
  (at level 20, m at level 100, k at level 200, only parsing).

(** ** Conversion to the library's cards (lines 108-110) *)

Definition to_deuces (card : string) : result Deuces.card :=
  r ← index card 0;
  u ← index card 1;
  Card_new (String (upper_char r) (String (lower_char u) EmptyString)).

(** ** The Monte Carlo simulators (lines 113-219) *)

Inductive outcome : Set := Win | Tie | Loss.

#[global] Instance outcome_eq_dec : EqDecision outcome.
Proof. solve_decision. Defined.

(** The [if]/[elif]/[else] that ends a trial (lines 146-151); a lower
    score is a stronger hand. *)
Definition compare_scores (hero_score strongest_opp : Z) : outcome :=
  if hero_score <? strongest_opp then Win
  else if hero_score =? strongest_opp then Tie
  else Loss.

(** [{i: 0 for i in range(1, 10)}] *)
Definition zero_counts : gmap Z Z :=
  list_to_map ((fun i => (i, 0)) <$> seqZ 1 9).

(** [counts[k] += 1] *)
Definition incr (counts : gmap Z Z) (k : Z) : result (gmap Z Z) :=
  n ← getitem counts k; Ok (<[k := n + 1]> counts).

(** [sum(counts.values())] *)
Definition sum_values (counts : gmap Z Z) : Z :=
  map_fold (fun _ n acc => n + acc) 0 counts.

Section Simulation.

(** The rank the library's tables give to five, six or seven distinct
    cards (1 is the strongest, 7462 the weakest). *)
Variable evaluate_cards : list card -> Z.

(** [Evaluator.evaluate(cards, board)]: the concatenation is looked up in
    [hand_size_map], which has the keys 5, 6 and 7. *)
Definition evaluate (cards board : list card) : result Z :=
  let all_cards := (cards ++ board)%list in
  if (5 <=? len all_cards) && (len all_cards <=? 7)
  then Ok (evaluate_cards all_cards) else Raise KeyError.

(** Lines 132-134: the known cards leave the fresh deck. *)
Definition remove_known (codes : list string) : DeckM unit :=
  forD codes (fun c => k ←ᵈ lift (to_deuces c); remove k).

(** Lines 136-137: the board is completed to five cards. *)
Definition complete_board (board : list card) : DeckM (list card) :=
  let needed := 5 - len board in
  if 0 <? needed
  then drawn ←ᵈ replicateD (Z.to_nat needed) draw; ret (board ++ drawn)%list
  else ret board.

(** Lines 139-142: two cards for each opponent. *)
Definition deal_opponents (num_players : Z) : DeckM (list (list card)) :=
  replicateD (Z.to_nat (num_players - 1))
             (a ←ᵈ draw; b ←ᵈ draw; ret [a; b]).

(** Lines 144-151: the showdown. *)
Definition showdown (sim_board hand : list card) (opp_hands : list (list card))
  : result outcome :=
  hero_score ← evaluate sim_board hand;
  opp_scores ← for_each (fun opp => evaluate sim_board opp) opp_hands;
  strongest ← min_list opp_scores;
  Ok (compare_scores hero_score strongest).

(** One iteration of the loop of [monte_carlo_odds], on the shuffled
    deck that [Deck()] built for it. *)
Definition odds_trial (hand_cards board_cards : list string)
           (hand board : list card) (num_players : Z) : DeckM outcome :=
  _ ←ᵈ remove_known (hand_cards ++ board_cards)%list;
  sim_board ←ᵈ complete_board board;
  opp_hands ←ᵈ deal_opponents num_players;
  lift (showdown sim_board hand opp_hands).

Definition tally (o : outcome) (c : Z * Z * Z) : Z * Z * Z :=
  let '(wins, ties, losses) := c in
  match o with
  | Win => (wins + 1, ties, losses)
  | Tie => (wins, ties + 1, losses)
  | Loss => (wins, ties, losses + 1)
  end.

(** The counters [wins], [ties], [losses] when the loop of
    [monte_carlo_odds] ends; [shuffle i] is the deck of trial [i]. *)
Definition monte_carlo_counts (hand_cards board_cards : list string)
           (num_players num_trials : Z) (shuffle : nat -> list card)
  : result (Z * Z * Z) :=
  hand ← for_each to_deuces hand_cards;
  board ← for_each to_deuces board_cards;
  for_range (Z.to_nat num_trials) 0
    (fun i c =>
       r ← odds_trial hand_cards board_cards hand board num_players (shuffle i);
       Ok (tally r.1 c))
    (0, 0, 0).

(** [100 * count / num_trials] (lines 152-153).  Python's true division
    of two integers gives the float nearest to their exact quotient;
    [percent] is that exact quotient. *)
Definition percent (count num_trials : Z) : result Q :=
  if num_trials =? 0 then Raise ZeroDivisionError
  else Ok (inject_Z (100 * count) / inject_Z num_trials)%Q.


Definition monte_carlo_odds (hand_cards board_cards : list string)
           (num_players num_trials : Z) (shuffle : nat -> list card)
  : result (Q * Q) :=
  c ← monte_carlo_counts hand_cards board_cards num_players num_trials shuffle;
  let '(wins, ties, losses) := c in
  win_pct ← percent wins num_trials;
  tie_pct ← percent ties num_trials;
  Ok (win_pct, tie_pct).

(** [monte_carlo_hand_distribution] (lines 164-178). *)
Definition distribution_trial (hand_cards board_cards : list string)
           (hand board : list card) : DeckM Z :=
  _ ←ᵈ remove_known (hand_cards ++ board_cards)%list;
  sim_board ←ᵈ complete_board board;
  rank ←ᵈ lift (evaluate sim_board hand);
  lift (get_rank_class rank).

Definition monte_carlo_hand_distribution (hand_cards board_cards : list string)
           (num_trials : Z) (shuffle : nat -> list card) : result (gmap Z Z) :=
  hand ← for_each to_deuces hand_cards;
  board ← for_each to_deuces board_cards;
  for_range (Z.to_nat num_trials) 0
    (fun i hand_type_counts =>
       r ← distribution_trial hand_cards board_cards hand board (shuffle i);
       incr hand_type_counts r.1)
    zero_counts.

(** The value [monte_carlo_preflop_distributions] returns, which is also
    what the cache stores. *)
Record entry : Type := Entry {
  flop_counts : gmap Z Z;
  turn_counts : gmap Z Z;
  river_counts : gmap Z Z;
  win : Z;
  tie : Z
}.

(** One iteration of the loop of [monte_carlo_preflop_distributions]
    (lines 190-218), from the tallies [e] so far. *)
Definition preflop_trial (hand_cards : list string) (hand : list card)
           (num_players : Z) (e : entry) : DeckM entry :=
  _ ←ᵈ remove_known hand_cards;
  flop ←ᵈ replicateD 3 draw;
  flop_rank ←ᵈ lift (evaluate flop hand);
  flop_class ←ᵈ lift (get_rank_class flop_rank);
  fc ←ᵈ lift (incr (flop_counts e) flop_class);
  c ←ᵈ draw;
  let turn := (flop ++ [c])%list in
  turn_rank ←ᵈ lift (evaluate turn hand);
  turn_class ←ᵈ lift (get_rank_class turn_rank);
  tc ←ᵈ lift (incr (turn_counts e) turn_class);
  c ←ᵈ draw;
  let river := (turn ++ [c])%list in
  river_rank ←ᵈ lift (evaluate river hand);
  river_class ←ᵈ lift (get_rank_class river_rank);
  rc ←ᵈ lift (incr (river_counts e) river_class);
  opp_hands ←ᵈ deal_opponents num_players;
  opp_scores ←ᵈ lift (for_each (fun opp => evaluate river opp) opp_hands);
  strongest ←ᵈ lift (min_list opp_scores);
  ret (match compare_scores river_rank strongest with
       | Win => Entry fc tc rc (win e + 1) (tie e)
       | Tie => Entry fc tc rc (win e) (tie e + 1)
       | Loss => Entry fc tc rc (win e) (tie e)
       end).

Definition monte_carlo_preflop_distributions (hand_cards : list string)
           (num_players num_trials : Z) (shuffle : nat -> list card)
  : result entry :=
  hand ← for_each to_deuces hand_cards;
  for_range (Z.to_nat num_trials) 0
    (fun i e =>
       r ← preflop_trial hand_cards hand num_players e (shuffle i);
       Ok r.1)
    (Entry zero_counts zero_counts zero_counts 0 0).

(** *** The pre-flop cache (lines 404-418, 483-490) *)

(** [key = tuple(sorted(hand)) + (players,)] *)
Definition cache_key (hand : list string) (players : Z) : list string * Z :=
  (sorted_str hand, players).

(** What [pickle.load] can give back.  The file holds whatever object was
    pickled into it: a dict from keys to tuples of tallies when the
    program wrote it, and any other object when something else did or the
    file was damaged in a way that still unpickles.  Of the other objects
    these are modelled: [None], an integer, a string and a list of
    integers. *)
Inductive pyobject : Type :=
| PyDict (d : gmap (list string * Z) entry)
| PyNone
| PyInt (n : Z)
| PyStr (s : string)
| PyList (l : list Z).

(** What the file system answers to the two accesses of [CACHE_FILE]. *)
Record storage : Type := Storage {
  (** [os.path.exists(CACHE_FILE)] *)
  path_exists : bool;
  (** [with open(CACHE_FILE, 'rb') as f: pickle.load(f)] *)
  read_pickle : result pyobject;
  (** [with open(CACHE_FILE, 'wb') as f: pickle.dump(cache, f)] *)
  write_pickle : gmap (list string * Z) entry -> result unit
}.

(** [try: body except Exception: handler] *)
Definition try_except {A} (body : result A) (handler : result A) : result A :=
  match body with
  | Ok a => Ok a
  | Raise e => if is_Exception e then handler else Raise e
  end.


Definition save_preflop_cache (fs : storage)
           (preflop_cache : gmap (list string * Z) entry) : result unit :=
  try_except (write_pickle fs preflop_cache) (Ok tt).

(** Lines 484-490 of [calculate_odds]: the tallies for a pre-flop query
    and the cache after it.  The program passes [num_trials = 500000]. *)
Definition preflop_lookup (fs : storage)
           (preflop_cache : gmap (list string * Z) entry)
           (hand : list string) (players num_trials : Z)
           (shuffle : nat -> list card)
  : result (entry * gmap (list string * Z) entry) :=
  let key := cache_key hand players in
  match preflop_cache !! key with
  | Some e => Ok (e, preflop_cache)
  | None =>
      e ← monte_carlo_preflop_distributions hand players num_trials shuffle;
      let preflop_cache := <[key := e]> preflop_cache in
      _ ← save_preflop_cache fs preflop_cache;
      Ok (e, preflop_cache)
  end.


Definition PREFLOP_TRIALS : Z := 500000.

(** *** The table of the pre-flop view (lines 222-237, 499-505) *)

(** [100 * counts.get(i, 0) / total if total else 0]: like [percent], the
    exact quotient of which Python computes the nearest float. *)
Definition share (counts : gmap Z Z) (i total : Z) : Q :=
  let count := default 0 (counts !! i) in
  if total =? 0 then 0%Q
  else (inject_Z (100 * count) / inject_Z total)%Q.

End Simulation.

Definition HAND_CLASS_NAMES : list string :=
  ["High Card"; "Pair"; "Two Pair"; "Three of a Kind"; "Straight"; "Flush";
   "Full House"; "Four of a Kind"; "Straight Flush"].

(** [HAND_TYPE_EXAMPLES]: for each key the cards its lambda renders with
    [card_label_html], in order. *)
Definition HAND_TYPE_EXAMPLES : gmap Z (list string) :=
  list_to_map
    [(1, ["As"]);
     (2, ["As"; "Ah"]);
     (3, ["As"; "Ah"; "Ks"; "Kh"]);
     (4, ["As"; "Ah"; "Ad"]);
     (5, (fun r => String r "s") <$> list_ascii_of_string "AKQJT");
     (6, (fun r => String r "s") <$> list_ascii_of_string "AJ842");
     (7, ["As"; "Ah"; "Ad"; "Ks"; "Kh"]);
     (8, ["As"; "Ah"; "Ad"; "Ac"]);
     (9, (fun r => String r "s") <$> list_ascii_of_string "AKQJT")].

(** One row of the table built by the loop at lines 499-505: the example
    cards, the name next to them and the three percentages. *)
Definition preflop_row (e : entry) (i : Z)
  : result (list string * string * (Q * Q * Q)) :=
  name ← class_to_string i;
  example ← getitem HAND_TYPE_EXAMPLES i;
  Ok (example, name,
      (share (flop_counts e) i (sum_values (flop_counts e)),
       share (turn_counts e) i (sum_values (turn_counts e)),
       share (river_counts e) i (sum_values (river_counts e)))).

(** ** Vocabulary of the properties *)

(** A two-character card code: a rank character then a suit character,
    in either case. *)
Definition rank_char (r : ascii) : Prop :=
  r ∈ list_ascii_of_string "23456789TJQKAtjqka".
Definition suit_char (u : ascii) : Prop :=
  u ∈ list_ascii_of_string "shdcSHDC".
Definition card_code (s : string) : Prop :=
  ∃ r u, s = String r (String u EmptyString) ∧ rank_char r ∧ suit_char u.

(** The 52 cards as [parse_card] returns them: the codes of the card
    menus in lower case. *)
Definition CANONICAL_CARDS : list string := lower <$> CARD_CODES.

(** The inputs of the simulators: two hole cards and a board of 0, 3, 4 or
    5 cards, all taken from the card menus, no card twice. *)
Definition deal_ok (hand_cards board_cards : list string) : Prop :=
  length hand_cards = 2%nat ∧
  length board_cards ∈ [0; 3; 4; 5]%nat ∧
  Forall (fun c => c ∈ CARD_CODES) (hand_cards ++ board_cards) ∧
  NoDup (hand_cards ++ board_cards).

(** The number of cards a trial of [monte_carlo_odds] draws, and the
    number left in its deck once the known cards are out. *)
Definition cards_drawn (board_cards : list string) (opponents : Z) : Z :=
  (5 - len board_cards) + 2 * opponents.
Definition cards_remaining (hand_cards board_cards : list string) : Z :=
  len FULL_DECK - len hand_cards - len board_cards.

(** A tally that has the nine keys of [zero_counts]. *)
Definition counts_ok (counts : gmap Z Z) : Prop :=
  ∀ k, 1 <= k <= 9 → is_Some (counts !! k).

(** At most one suit occurs five times or more among the cards. *)
Definition suit_count (u : ascii) (cards : list string) : Z :=
  len (filter (fun c => suit_of c = Ok u) cards).
Definition one_flush_suit (cards : list string) : Prop :=
  ∀ u1 u2, 5 <= suit_count u1 cards → 5 <= suit_count u2 cards → u1 = u2.

(** An evaluator for the examples: the sum of the card codes folded into
    the library's range of ranks. *)
Definition sum_evaluator (l : list card) : Z := foldr Z.add 0 l `mod` 7462 + 1.

(** An evaluator that ranks every hand as the weakest high card. *)
Definition worst_evaluator (l : list card) : Z := MAX_HIGH_CARD.

(** The card of a menu code. *)
Definition card_of (c : string) : card :=
  match to_deuces c with Ok k => k | Raise _ => 0 end.

#[global] Instance deal_ok_dec hand_cards board_cards :
  Decision (deal_ok hand_cards board_cards).
Proof. unfold deal_ok. apply _. Defined.

(** [raises_only P r]: the computation [r] returns, or raises an
    exception that satisfies [P]. *)
Definition raises_only {A} (P : exn → Prop) (r : result A) : Prop :=
  ∀ e, r = Raise e → P e.

(** The order of a list sorted with [reverse=True]. *)
Definition descending : relation Z := fun a b => b <= a.

(** The ranks that are keys of [RANK_TO_VALUE], and their values. *)
Definition has_value (r : ascii) : Prop := is_Some (RANK_TO_VALUE !! r).
Definition value_of (r : ascii) : Z := default 0 (RANK_TO_VALUE !! r).

(** The cards that have a first and a second character, and the rank and
    suit the classifier reads from them. *)
Definition has_rank (c : string) : Prop := is_Some (String.get 0 c).
Definition has_suit (c : string) : Prop := is_Some (String.get 1 c).
Definition rank_char_of (c : string) : ascii :=
  upper_char (default "000"%char (String.get 0 c)).
Definition suit_char_of (c : string) : ascii :=
  lower_char (default "000"%char (String.get 1 c)).

(** ** Rendering of a card (lines 28-33, 157-161) *)

(** The double quote of the HTML attributes. *)
Definition DQ : string := String "034"%char EmptyString.

Definition SUIT_HTML : gmap ascii string :=
  list_to_map
    [("s"%char, "<font color=" +:+ DQ +:+ "#fff" +:+ DQ +:+ ">&#9824;</font>");
     ("h"%char, "<font color=" +:+ DQ +:+ "red" +:+ DQ +:+ ">&#9829;</font>");
     ("d"%char, "<font color=" +:+ DQ +:+ "red" +:+ DQ +:+ ">&#9830;</font>");
     ("c"%char, "<font color=" +:+ DQ +:+ "#fff" +:+ DQ +:+ ">&#9831;</font>")].

Definition card_label_html (card : string) : result text :=
  if bool_decide (card = EmptyString) then Ok [] else
  r ← index card 0;
  s ← index card 1;
  html ← getitem SUIT_HTML (lower_char s);
  Ok (upper_codes r ++ text_of html)%list.

(** [''.join(l)] *)
Definition join (l : list text) : text := concat l.

(** [HAND_TYPE_EXAMPLES[i]()]: the labels of the example cards, put
    together. *)
Definition render_example (i : Z) : result text :=
  cards ← getitem HAND_TYPE_EXAMPLES i;
  labels ← for_each card_label_html cards;
  Ok (join labels).

(** ** The calculation behind the button (lines 113-119, 420-534) *)

(** What the widgets hold when the button is pressed: the seven card
    menus ([_get_card] gives the code of the chosen entry, or the empty
    string) and the spin box. *)
Record inputs : Type := Inputs {
  hand1_input : string;
  hand2_input : string;
  flop1_input : string;
  flop2_input : string;
  flop3_input : string;
  turn_input : string;
  river_input : string;
  players_spin : Z
}.

(** What the method puts in the results area.  The numbers it formats
    with [:.1f] are kept as numbers. *)
Inductive view : Type :=
| ErrorText (errors : list string)
| PreflopHtml (hand_html : list text) (players : Z) (win_pct tie_pct : Q)
              (rows : list (text * string * (Q * Q * Q)))
| ResultHtml (hand_html board_html : list text) (players : Z)
             (hand_analysis deuces_strength : string)
             (odds : option (Q * Q)) (hand_dist : list (string * Q)).

(** The shuffled decks of the three simulations a calculation may run. *)
Record randomness : Type := Randomness {
  odds_decks : nat -> list card;
  distribution_decks : nat -> list card;
  preflop_decks : nat -> list card
}.

Definition invalid_card_message (card : string) : string :=
  "Invalid card: '" +:+ card +:+ "' (use e.g. As, Td, 9h)".
Definition DUPLICATE_MESSAGE : string := "Duplicate cards detected!".
Definition NO_DEUCES : string := "(Not enough cards for Deuces evaluation)".
Definition ODDS_TRIALS : Z := 75000.

(** The loop of lines 432-439 over the card inputs. *)
Fixpoint parse_inputs (card_inputs parsed_cards errors : list string)
  : list string * list string :=
  match card_inputs with
  | [] => (parsed_cards, errors)
  | card :: rest =>
      if bool_decide (strip card = EmptyString)
      then parse_inputs rest parsed_cards errors
      else match parse_card card with
           | None =>
               parse_inputs rest parsed_cards
                            (errors ++ [invalid_card_message card])%list
           | Some parsed =>
               parse_inputs rest (parsed_cards ++ [parsed])%list errors
           end
  end.

(** Lines 430-443: the list [errors]. *)
Definition validate (card_inputs : list string) : list string :=
  let '(parsed_cards, errors) := parse_inputs card_inputs [] [] in
  if bool_decide (length parsed_cards ≠ length (remove_dups parsed_cards))
  then (errors ++ [DUPLICATE_MESSAGE])%list else errors.

(** [[c for c in l if c]] *)
Definition chosen (l : list string) : list string :=
  filter (fun c => c ≠ EmptyString) l.

Section Application.

Variable evaluate_cards : list card -> Z.

(** [deuces_hand_strength] (lines 113-119). *)
Definition deuces_hand_strength (hand_cards board_cards : list string)
  : result string :=
  hand ← for_each to_deuces hand_cards;
  board ← for_each to_deuces board_cards;
  rank ← evaluate evaluate_cards board hand;
  rank_class ← get_rank_class rank;
  class_to_string rank_class.

(** Lines 474-477: one line of the distribution. *)
Definition distribution_line (hand_type_counts : gmap Z Z) (total i : Z)
  : result (string * Q) :=
  name ← class_to_string i;
  Ok (name, share hand_type_counts i total).

(** Lines 499-505: one row of the pre-flop table. *)
Definition table_row (e : entry) (i : Z) : result (text * string * (Q * Q * Q)) :=
  name ← class_to_string i;
  example ← render_example i;
  Ok (example, name,
      (share (flop_counts e) i (sum_values (flop_counts e)),
       share (turn_counts e) i (sum_values (turn_counts e)),
       share (river_counts e) i (sum_values (river_counts e)))).

(** [calculate_odds] (lines 420-534), from the state of the widgets, the
    file system, the decks of the simulations and [self.preflop_cache]; it
    gives what is shown and the cache afterwards. *)
Definition calculate_odds (ui : inputs) (fs : storage) (rng : randomness)
           (preflop_cache : gmap (list string * Z) entry)
  : result (view * gmap (list string * Z) entry) :=
  let hand_inputs := [hand1_input ui; hand2_input ui] in
  let community :=
    [flop1_input ui; flop2_input ui; flop3_input ui;
     turn_input ui; river_input ui] in
  let players := players_spin ui in
  let errors := validate (hand_inputs ++ community) in
  if bool_decide (errors ≠ []) then Ok (ErrorText errors, preflop_cache) else
  let hand := chosen hand_inputs in
  let board := chosen community in
  let all_cards := (hand ++ board)%list in
  hand_analysis ← analyze_hand all_cards;
  let enough := bool_decide (len hand = 2) && (5 <=? len all_cards) in
  deuces_strength ←
    (if enough then deuces_hand_strength hand board else Ok NO_DEUCES);
  simulated ←
    (if enough then
       odds ← monte_carlo_odds evaluate_cards hand board players ODDS_TRIALS
                               (odds_decks rng);
       hand_type_counts ←
         monte_carlo_hand_distribution evaluate_cards hand board ODDS_TRIALS
                                       (distribution_decks rng);
       let total := sum_values hand_type_counts in
       hand_dist ← for_each (distribution_line hand_type_counts total)
                            (seqZ 1 9);
       Ok (Some odds, hand_dist)
     else Ok (None, []));
  if bool_decide (len hand = 2)
     && forallb (fun c => bool_decide (c = EmptyString)) board
  then
    r ← preflop_lookup evaluate_cards fs preflop_cache hand players
                       PREFLOP_TRIALS (preflop_decks rng);
    let e := r.1 in
    let win_pct := (inject_Z (100 * win e) / inject_Z PREFLOP_TRIALS)%Q in
    let tie_pct := (inject_Z (100 * tie e) / inject_Z PREFLOP_TRIALS)%Q in
    rows ← for_each (table_row e) (seqZ 1 9);
    hand_html ← for_each card_label_html hand;
    Ok (PreflopHtml hand_html players win_pct tie_pct rows, r.2)
  else
    hand_html ← for_each card_label_html hand;
    board_html ← for_each card_label_html board;
    Ok (ResultHtml hand_html board_html players hand_analysis deuces_strength
                   simulated.1 simulated.2, preflop_cache).

End Application.

(** The part of [analyze_hand] that follows the reading of ranks and
    suits (lines 50-105), as a function of the three lists. *)
Definition classify (cards : list string) (ranks suits : list ascii)
  : result string :=
  let rank_counts := Counter ranks in
  let suit_counts := Counter suits in
  unique_ranks ← for_each rank_value (remove_dups ranks);
  let flush_suit := find_flush_suit suit_counts in
  let flush_cards :=
    match flush_suit with
    | Some fs => filter (fun c => String.get 1 c = Some fs) cards
    | None => []
    end in
  flush_ranks ← for_each rank_of flush_cards;
  sf ← (if bool_decide (is_Some flush_suit) && (5 <=? len flush_ranks)
        then get_straight flush_ranks else Ok (false, None));
  match sf with
  | (true, high_sf) =>
      if bool_decide (high_sf = Some 14) then Ok "Royal Flush" else Ok "Straight Flush"
  | (false, _) =>
  if bool_decide (4 ∈ values rank_counts) then Ok "Four of a Kind" else
  if bool_decide (3 ∈ values rank_counts) && bool_decide (2 ∈ values rank_counts)
  then Ok "Full House" else
  if bool_decide (is_Some flush_suit) then Ok "Flush" else
  st ← get_straight ranks;
  if fst (st : bool * option Z) then Ok "Straight" else
  if bool_decide (3 ∈ values rank_counts) then Ok "Three of a Kind" else
  if 2 <=? len (filter (fun n : Z => n = 2) (values rank_counts))
  then Ok "Two Pair" else
  if bool_decide (2 ∈ values rank_counts) then Ok "Pair" else
  high ← max_by (fun r => default 0 (RANK_TO_VALUE !! r)) ranks;
  Ok (String.append "High Card: " (String high EmptyString))
  end.

(** The list [values] that [get_straight] scans, for ranks that are keys
    of [RANK_TO_VALUE]. *)
Definition straight_values (ranks_list : list ascii) : list Z :=
  let values := sorted_reverse (remove_dups (value_of <$> ranks_list)) in
  if has_wheel ranks_list then (values ++ [1])%list else values.

(** A card string too short to have a suit character, and one whose first
    character is a rank in either case. *)
Definition short (c : string) : Prop := (String.length c < 2)%nat.
Definition first_is_rank (c : string) : Prop :=
  ∃ r rest, c = String r rest ∧ rank_char r.

(** The labels [analyze_hand] can return for five cards or more. *)
Definition CATEGORY_LABELS : list string :=
  ["Royal Flush"; "Straight Flush"; "Four of a Kind"; "Full House"; "Flush";
   "Straight"; "Three of a Kind"; "Two Pair"; "Pair"].
Definition hand_label (label : string) : Prop :=
  label ∈ CATEGORY_LABELS ∨
  ∃ r, r ∈ list_ascii_of_string RANKS ∧
       label = String.append "High Card: " (String r EmptyString).

(** A value that [get_straight] sees among the ranks: the value of one of
    them, or 1 when ace, two, three, four and five are all there. *)
Definition present (ranks_list : list ascii) (v : Z) : Prop :=
  (∃ r, r ∈ ranks_list ∧ RANK_TO_VALUE !! r = Some v) ∨
  (v = 1 ∧ Forall (fun r => r ∈ ranks_list) (list_ascii_of_string "A2345")).

(** Five consecutive values down from [h]. *)
Definition run_from (ranks_list : list ascii) (h : Z) : Prop :=
  ∀ k, 0 <= k <= 4 → present ranks_list (h - k).
Definition run_in (l : list Z) (h : Z) : Prop :=
  ∀ k, 0 <= k <= 4 → h - k ∈ l.
Definition strictly_descending (l : list Z) : Prop :=
  StronglySorted (fun a b => b < a) l.

(** Patterns of a hand: a rank that occurs [n] times, a suit with five
    cards or more, five consecutive values. *)
Definition rank_occurs (cards : list string) (n : Z) : Prop :=
  ∃ r, r ∈ rank_char_of <$> cards ∧ count r (rank_char_of <$> cards) = n.
Definition flush_present (cards : list string) : Prop :=
  ∃ u, 5 <= suit_count u cards.
Definition straight_present (cards : list string) : Prop :=
  ∃ h, run_from (rank_char_of <$> cards) h.

(** Two card strings that [analyze_hand] reads alike: the same first
    character up to case, the same second character. *)
Definition same_reading (c c' : string) : Prop :=
  rank_of c = rank_of c' ∧ String.get 1 c = String.get 1 c'.

(** A card string whose suit character is not in lower case. *)
Definition suit_not_lower (c : string) : Prop :=
  ∀ u, String.get 1 c = Some u → lower_char u ≠ u.

(** A string whose first two characters are a rank and a suit, in either
    case, and the menu code of the card it denotes. *)
Definition starts_with_card (c : string) : Prop :=
  ∃ r u rest, c = String r (String u rest) ∧ rank_char r ∧ suit_char u.
Definition menu_code (c : string) : string :=
  String (upper_char (default "000"%char (String.get 0 c)))
         (String (lower_char (default "000"%char (String.get 1 c))) EmptyString).

(** The library's card of a string that starts with a card. *)
Definition deuces_card (c : string) : card := card_of (menu_code c).

(** An evaluator whose ranks lie in the library's range. *)
Definition ranks_in_range (ev : list card → Z) : Prop :=
  ∀ l, 0 <= ev l <= MAX_HIGH_CARD.

(** A tally with exactly the keys 1 to 9 and no negative count. *)
Definition tally_ok (counts : gmap Z Z) : Prop :=
  (∀ k, is_Some (counts !! k) ↔ 1 <= k <= 9) ∧
  (∀ k n, counts !! k = Some n → 0 <= n).

(** Pre-flop tallies after [n] trials: each street's tally has the keys 1
    to 9, no negative count and [n] entries, and wins and ties are counts
    of distinct trials. *)
Definition entry_ok (n : Z) (e : entry) : Prop :=
  (tally_ok (flop_counts e) ∧ sum_values (flop_counts e) = n) ∧
  (tally_ok (turn_counts e) ∧ sum_values (turn_counts e) = n) ∧
  (tally_ok (river_counts e) ∧ sum_values (river_counts e) = n) ∧
  0 <= win e ∧ 0 <= tie e ∧ win e + tie e <= n.

(** The card inputs of a calculation, in the order of line 422, and what
    the validation loop of lines 432-439 collects from a list of inputs:
    the parsed cards of the inputs that are not blank, and the inputs that
    are neither blank nor a card. *)
Definition card_inputs (ui : inputs) : list string :=
  [hand1_input ui; hand2_input ui; flop1_input ui; flop2_input ui;
   flop3_input ui; turn_input ui; river_input ui].
Definition parsed_cards_of (l : list string) : list string :=
  omap (fun c => if bool_decide (strip c = EmptyString) then None
                 else parse_card c) l.
Definition invalid_inputs (l : list string) : list string :=
  filter (fun c => strip c ≠ EmptyString ∧ parse_card c = None) l.

(** What a card menu can hold: the empty entry or one of the 52 codes. *)
Definition menu_input (c : string) : Prop := c = EmptyString ∨ c ∈ CARD_CODES.

(** The cards chosen in the two hole-card menus and in the five community
    menus (lines 450-455). *)
Definition hole_cards (ui : inputs) : list string :=
  chosen [hand1_input ui; hand2_input ui].
Definition community_cards (ui : inputs) : list string :=
  chosen [flop1_input ui; flop2_input ui; flop3_input ui;
          turn_input ui; river_input ui].

(** Every deck of the three simulations is a shuffled full deck. *)
Definition decks_shuffled (rng : randomness) : Prop :=
  (∀ i, odds_decks rng i ≡ₚ FULL_DECK) ∧
  (∀ i, distribution_decks rng i ≡ₚ FULL_DECK) ∧
  (∀ i, preflop_decks rng i ≡ₚ FULL_DECK).

(** Writing the cache file fails only with instances of [Exception]. *)
Definition write_failures_caught (fs : storage) : Prop :=
  ∀ c e, write_pickle fs c = Raise e → is_Exception e = true.

(** The nine percentages that the views show for a tally (lines 474-477
    and 499-505), and the sum of a list of rationals. *)
Definition shares (counts : gmap Z Z) : list Q :=
  (fun i => share counts i (sum_values counts)) <$> seqZ 1 9.
Definition sum_Q (l : list Q) : Q := foldr Qplus 0%Q l.

(** An evaluator that ranks a set of cards, whatever their order. *)
Definition order_blind (ev : list card → Z) : Prop :=
  ∀ l l', l ≡ₚ l' → ev l = ev l'.



(** ** Properties *)

(** *** The classifier on fixed hands *)

(** C2 (as the code has it): the five cards As Ks Qs Js Ts, in whatever
    order they are given, are labelled "Royal Flush", which is not one of
    the nine names of [HAND_CLASS_NAMES]. *)
Theorem analyze_hand_royal_flush :
  analyze_hand ["As"; "Ks"; "Qs"; "Js"; "Ts"] = Ok "Royal Flush" ∧
  (∀ cards, cards ≡ₚ ["As"; "Ks"; "Qs"; "Js"; "Ts"] →
            analyze_hand cards = Ok "Royal Flush") ∧
  ("Royal Flush" ∉ HAND_CLASS_NAMES) ∧
  length HAND_CLASS_NAMES = 9%nat.
Proof.
  split_and!; [by vm_compute| | |done].
  - intros cards Hp.
    assert (Forall (fun l => analyze_hand l = Ok "Royal Flush")
                   (permutations ["As"; "Ks"; "Qs"; "Js"; "Ts"])) as Hall
      by (apply (bool_decide_unpack _); by vm_compute).
    rewrite Forall_forall in Hall. apply Hall.
    apply permutations_Permutation. by symmetry.
  - apply (bool_decide_unpack _). by vm_compute.
Qed.

(** C2 fails as stated: the label of As Ks Qs Js Ts is not
    "Straight Flush". *)
Lemma analyze_hand_royal_not_straight_flush :
  analyze_hand ["As"; "Ks"; "Qs"; "Js"; "Ts"] ≠ Ok "Straight Flush".
Proof. by vm_compute. Qed.

(** C5: the wheel As 2h 3d 4c 5s is a Straight whose high card is the
    five; the ace has the value 14 and also closes the ace-high straight. *)
Theorem analyze_hand_wheel :
  analyze_hand ["As"; "2h"; "3d"; "4c"; "5s"] = Ok "Straight" ∧
  get_straight (list_ascii_of_string "A2345") = Ok (true, Some 5) ∧
  rank_value "A" = Ok 14 ∧
  get_straight (list_ascii_of_string "AKQJT") = Ok (true, Some 14) ∧
  analyze_hand ["As"; "Kh"; "Qd"; "Jc"; "Ts"] = Ok "Straight".
Proof. split_and!; by vm_compute. Qed.

(** C9: fewer than five cards give the message of line 46, whatever the
    strings are, and the message is none of the category names. *)
Theorem analyze_hand_not_enough (cards : list string) :
  (length cards < 5)%nat →
  analyze_hand cards = Ok NOT_ENOUGH ∧
  NOT_ENOUGH = "Not enough cards for hand analysis." ∧
  NOT_ENOUGH ∉ ("Royal Flush" :: HAND_CLASS_NAMES).
Proof.
  intros Hlen. split_and!; [|done|].
  - unfold analyze_hand, len.
    destruct (Z.ltb_spec (Z.of_nat (length cards)) 5) as [_|?]; [done|lia].
  - apply (bool_decide_unpack _). by vm_compute.
Qed.

Lemma analyze_hand_not_enough_witness :
  analyze_hand ["As"; "Kd"; ""; "zz"] = Ok NOT_ENOUGH ∧
  NOT_ENOUGH = "Not enough cards for hand analysis." ∧
  NOT_ENOUGH ∉ ("Royal Flush" :: HAND_CLASS_NAMES).
Proof. apply (analyze_hand_not_enough ["As"; "Kd"; ""; "zz"]). simpl. lia. Defined.

(** *** The ordinals of the pre-flop table *)

(** C3 (what the code does): the names next to the examples and the keys
    of the tallies follow the library's rank classes, where 1 is Straight
    Flush and 9 is High Card, while [HAND_CLASS_NAMES] and
    [HAND_TYPE_EXAMPLES] count from High Card at 1.  So row 1 shows the
    single ace of the High Card example under the name "Straight Flush",
    row 2 a pair of aces under "Four of a Kind", row 8 four aces (which
    pass the classifier's own four-of-a-kind test) under "Pair"; only row
    5 agrees with [HAND_CLASS_NAMES]; and a run in which every hand is a
    high card tallies all its trials under key 9 and none under key 1. *)
Theorem preflop_table_ordinals_reversed :
  (∀ e, ∃ pcts, preflop_row e 1 = Ok (["As"], "Straight Flush", pcts)) ∧
  (∀ e, ∃ pcts, preflop_row e 2 = Ok (["As"; "Ah"], "Four of a Kind", pcts)) ∧
  (∀ e, ∃ pcts,
     preflop_row e 8 = Ok (["As"; "Ah"; "Ad"; "Ac"], "Pair", pcts) ∧
     4 ∈ values (Counter (list_ascii_of_string "AAAA"))) ∧
  HAND_CLASS_NAMES !! 0%nat = Some "High Card" ∧
  HAND_CLASS_NAMES !! 8%nat = Some "Straight Flush" ∧
  (∀ i, i ∈ seqZ 1 9 →
     (class_to_string i = Ok (default "" (HAND_CLASS_NAMES !! Z.to_nat (i - 1)))
      ↔ i = 5)) ∧
  get_rank_class MAX_HIGH_CARD = Ok 9 ∧
  get_rank_class 1 = Ok 1 ∧
  (∃ counts,
     monte_carlo_hand_distribution worst_evaluator ["As"; "Kd"] [] 3
       (fun _ => FULL_DECK) = Ok counts ∧
     counts !! 9 = Some 3 ∧ counts !! 1 = Some 0).
Proof.
  split_and!; try (intros e; eexists; by vm_compute); try by vm_compute.
  - intros e. eexists. split; [by vm_compute|].
    apply (bool_decide_unpack _). by vm_compute.
  - intros i Hi. revert i Hi. apply Forall_forall.
    repeat (apply Forall_cons; split;
            [split; intros H; first [done | by vm_compute | by vm_compute in H]|]).
    constructor.
  - eexists. split_and!; by vm_compute.
Qed.

(** *** The cache *)




(** Python's [<] on strings is a strict total order. *)
Lemma ltb_asym (a b : string) : String.ltb a b = true → String.ltb b a = false.
Proof.
  unfold String.ltb. rewrite (String.compare_antisym a b).
  by destruct (String.compare b a).
Qed.

Lemma ltb_total (a b : string) :
  String.ltb a b = false → String.ltb b a = false → a = b.
Proof.
  unfold String.ltb. rewrite (String.compare_antisym a b).
  destruct (String.compare b a) eqn:E; try done.
  intros _ _. symmetry. by apply String.compare_eq_iff.
Qed.

Lemma sorted_str_pair (a b : string) : sorted_str [a; b] = sorted_str [b; a].
Proof.
  cbn. destruct (String.ltb b a) eqn:Hba, (String.ltb a b) eqn:Hab; try done.
  - by rewrite (ltb_asym _ _ Hba) in Hab.
  - by rewrite (ltb_total _ _ Hab Hba).
Qed.

Lemma sorted_str_pair_spec (a b : string) :
  ∃ x y, sorted_str [a; b] = [x; y] ∧ [x; y] ≡ₚ [a; b] ∧
         String.ltb y x = false.
Proof.
  cbn. destruct (String.ltb b a) eqn:Hba.
  - exists b, a. split_and!; [done|apply Permutation_swap|by apply ltb_asym].
  - by exists a, b.
Qed.

Lemma sorted_str_pair_inj (a b c d : string) :
  sorted_str [c; d] = sorted_str [a; b] ↔ [c; d] ≡ₚ [a; b].
Proof.
  split.
  - intros E.
    destruct (sorted_str_pair_spec a b) as (x & y & Hab & Hp & _).
    destruct (sorted_str_pair_spec c d) as (x' & y' & Hcd & Hp' & _).
    by rewrite <-Hp, <-Hp', <-Hab, <-Hcd, E.
  - intros [[-> ->]|[-> ->]]%Permutation_length_2; [done|].
    apply sorted_str_pair.
Qed.

(** C6: the key of a pre-flop query is the pair of hole cards in
    ascending order with the player count: it is a rearrangement of the
    two cards, the same for both orders of the hole cards, and different
    for any other pair of cards or player count.  Once a query has
    returned, the query with the hole cards in the other order returns the
    same stored tallies and leaves the cache as it is, for every storage,
    trial count and sequence of shuffled decks that the second query is
    given: it does not run the simulation. *)
Theorem preflop_cache_order_independent
    (ev : list card → Z) (fs : storage)
    (cache : gmap (list string * Z) entry) (a b : string) (players n : Z)
    (shuffle : nat → list card) (e : entry)
    (cache1 : gmap (list string * Z) entry) :
  preflop_lookup ev fs cache [a; b] players n shuffle = Ok (e, cache1) →
  cache_key [a; b] players = (sorted_str [a; b], players) ∧
  (∃ x y, sorted_str [a; b] = [x; y] ∧ [x; y] ≡ₚ [a; b] ∧
          String.ltb y x = false) ∧
  cache_key [a; b] players = cache_key [b; a] players ∧
  (∀ c d players',
     cache_key [c; d] players' = cache_key [a; b] players ↔
     [c; d] ≡ₚ [a; b] ∧ players' = players) ∧
  cache1 !! cache_key [b; a] players = Some e ∧
  ∀ fs' n' shuffle',
    preflop_lookup ev fs' cache1 [b; a] players n' shuffle' = Ok (e, cache1).
Proof.
  intros H.
  assert (Hk : cache_key [a; b] players = cache_key [b; a] players).
  { unfold cache_key. by rewrite sorted_str_pair. }
  assert (Hc : cache1 !! cache_key [b; a] players = Some e).
  { rewrite <-Hk. unfold preflop_lookup in H.
    destruct (cache !! cache_key [a; b] players) as [e0|] eqn:E.
    - by simplify_eq.
    - destruct (monte_carlo_preflop_distributions _ _ _ _ _) as [e0|]; [|done].
      cbn in H. destruct (save_preflop_cache _ _); [|done].
      cbn in H. simplify_eq. apply lookup_insert_eq. }
  split_and!; [done|apply sorted_str_pair_spec|done| |done|].
  - intros c d players'. unfold cache_key. split.
    + intros [= E ->]. split; [|done]. by apply sorted_str_pair_inj.
    + intros [Hp ->]. f_equal. by apply sorted_str_pair_inj.
  - intros fs' n' shuffle'. unfold preflop_lookup. by rewrite Hc.
Qed.

Lemma preflop_cache_order_independent_witness :
  ∃ e cache1,
    preflop_lookup sum_evaluator (Storage false (Ok (PyDict ∅)) (fun _ => Ok tt)) ∅
                   ["As"; "Kh"] 2 2 (fun i => rotate i FULL_DECK)
    = Ok (e, cache1) ∧
    preflop_lookup sum_evaluator
                   (Storage true (Raise OSError) (fun _ => Raise OSError))
                   cache1 ["Kh"; "As"] 2 PREFLOP_TRIALS (fun _ => [])
    = Ok (e, cache1).
Proof.
  destruct (preflop_lookup sum_evaluator (Storage false (Ok (PyDict ∅)) (fun _ => Ok tt))
              ∅ ["As"; "Kh"] 2 2 (fun i => rotate i FULL_DECK))
    as [[e c]|x] eqn:E.
  - exists e, c. split; [reflexivity|].
    apply (preflop_cache_order_independent _ _ _ _ _ _ _ _ _ _ E).
  - vm_compute in E. discriminate E.
Defined.

(** *** The parser *)

Ltac ascii_cases c := destruct c as [[] [] [] [] [] [] [] []].

Lemma rank_class_spec (c : ascii) :
  class_ignorecase "23456789TJQKA" (lower_char c) = bool_decide (rank_char c).
Proof. ascii_cases c; by vm_compute. Qed.

Lemma suit_class_spec (c : ascii) :
  class_ignorecase "shdc" (lower_char c) = bool_decide (suit_char c).
Proof. ascii_cases c; by vm_compute. Qed.

Lemma isspace_lower_char (c : ascii) : isspace (lower_char c) = isspace c.
Proof. ascii_cases c; by vm_compute. Qed.

Lemma lstrip_chars_head (l : list ascii) c t :
  lstrip_chars l = c :: t → isspace c = false.
Proof.
  induction l as [|a l IH]; simpl; [done|].
  destruct (isspace a) eqn:E; [done|]. by intros [= <- _].
Qed.

(** A stripped string does not end in white space. *)
Lemma strip_last (s : string) l c :
  list_ascii_of_string (strip s) = (l ++ [c])%list → isspace c = false.
Proof.
  unfold strip. rewrite list_ascii_of_string_of_list_ascii. intros H.
  apply (f_equal (@rev ascii)) in H.
  rewrite rev_involutive, rev_app_distr in H. simpl in H.
  by eapply lstrip_chars_head.
Qed.

Lemma lower_empty (s : string) : lower s = EmptyString → s = EmptyString.
Proof. by destruct s. Qed.

Lemma parse_card_iff (s c : string) :
  parse_card s = Some c ↔ card_code (strip s) ∧ c = lower (strip s).
Proof.
  unfold parse_card, card_code.
  pose proof (strip_last s) as Hlast.
  destruct (strip s) as [|r [|u rest]]; simpl.
  - split; [done|]. by intros [(? & ? & ? & _) _].
  - split; [done|]. by intros [(? & ? & ? & _) _].
  - rewrite rank_class_spec, suit_class_spec.
    split.
    + destruct (bool_decide (rank_char r)) eqn:Hr; [|done].
      destruct (bool_decide (suit_char u)) eqn:Hu; [|done].
      apply bool_decide_eq_true in Hr, Hu. simpl.
      destruct (bool_decide (lower rest = EmptyString)) eqn:He; simpl.
      * apply bool_decide_eq_true, lower_empty in He. subst rest.
        intros [= <-]. split; [by exists r, u|done].
      * destruct (bool_decide (lower rest = String "010"%char EmptyString))
          eqn:Hn; [|done].
        apply bool_decide_eq_true in Hn.
        destruct rest as [|d [|? ?]]; [done| |done].
        injection Hn as Hd.
        specialize (Hlast [r; u] d eq_refl).
        rewrite <-isspace_lower_char, Hd in Hlast. by vm_compute in Hlast.
    + intros [(r' & u' & [= -> -> ->] & Hr & Hu) ->].
      by rewrite (bool_decide_eq_true_2 _ Hr), (bool_decide_eq_true_2 _ Hu).
Qed.

Lemma canonical_of_chars :
  Forall (fun r => Forall (fun u =>
            String (lower_char r) (String (lower_char u) EmptyString)
            ∈ CANONICAL_CARDS)
          (list_ascii_of_string "shdcSHDC"))
         (list_ascii_of_string "23456789TJQKAtjqka").
Proof. apply (bool_decide_unpack _). by vm_compute. Qed.

Lemma canonical_fixed : Forall (fun c => parse_card c = Some c) CANONICAL_CARDS.
Proof. apply (bool_decide_unpack _). by vm_compute. Qed.

(** C4 (as the code has it): [parse_card] accepts a string exactly when,
    with the white space around it removed, it is a two-character card
    code; it then returns that code in lower case, which is one of 52
    distinct cards, and it returns each of these 52 for itself. *)
Theorem parse_card_spec :
  (∀ s c, parse_card s = Some c ↔ card_code (strip s) ∧ c = lower (strip s)) ∧
  (∀ s, parse_card s = None ↔ ¬ card_code (strip s)) ∧
  (∀ s c, parse_card s = Some c → c ∈ CANONICAL_CARDS) ∧
  (∀ c, c ∈ CANONICAL_CARDS → parse_card c = Some c) ∧
  NoDup CANONICAL_CARDS ∧ length CANONICAL_CARDS = 52%nat.
Proof.
  split_and!.
  - apply parse_card_iff.
  - intros s. split.
    + intros Hn Hc.
      assert (parse_card s = Some (lower (strip s))) as E
        by (by apply parse_card_iff).
      congruence.
    + intros Hn. destruct (parse_card s) as [c|] eqn:E; [|done].
      apply parse_card_iff in E as [? _]. done.
  - intros s c [(r & u & -> & Hr & Hu) ->]%parse_card_iff. simpl.
    pose proof canonical_of_chars as H.
    rewrite Forall_forall in H. specialize (H r Hr).
    rewrite Forall_forall in H. by apply H.
  - apply Forall_forall, canonical_fixed.
  - apply (bool_decide_unpack _). by vm_compute.
  - done.
Qed.

(** C4 fails as stated: a code with a space before it is accepted, and it
    is not a two-character card code. *)
Lemma parse_card_accepts_padding :
  parse_card " As" = Some "as" ∧ ¬ card_code " As".
Proof.
  split; [by vm_compute|].
  by intros (r & u & ? & _).
Qed.

(** *** Decks and draws *)

Lemma for_each_fmap {A B} (f : A → result B) (g : A → B) (l : list A) :
  Forall (fun x => f x = Ok (g x)) l → for_each f l = Ok (g <$> l).
Proof.
  induction 1 as [|x l Hx _ IH]; [done|].
  cbn. by rewrite Hx, IH.
Qed.

Lemma to_deuces_menu (c : string) :
  c ∈ CARD_CODES → to_deuces c = Ok (card_of c) ∧ card_of c ∈ FULL_DECK.
Proof.
  revert c. apply Forall_forall.
  apply (bool_decide_unpack _). by vm_compute.
Qed.

Lemma card_of_menu_NoDup : NoDup (card_of <$> CARD_CODES).
Proof. apply (bool_decide_unpack _). by vm_compute. Qed.

Lemma NoDup_fmap_inj_on {A B} (f : A → B) (l : list A) x y :
  NoDup (f <$> l) → x ∈ l → y ∈ l → f x = f y → x = y.
Proof.
  induction l as [|a l IH]; [by intros _ ?%elem_of_nil|].
  rewrite fmap_cons, NoDup_cons, !elem_of_cons.
  intros [Ha Hl] [->|Hx] [->|Hy] E; [done| | |by apply IH].
  - destruct Ha. rewrite E. by apply list_elem_of_fmap_2.
  - destruct Ha. rewrite <-E. by apply list_elem_of_fmap_2.
Qed.

(** Distinct menu codes are distinct cards of the full deck. *)
Lemma known_cards (codes : list string) :
  Forall (fun c => c ∈ CARD_CODES) codes → NoDup codes →
  for_each to_deuces codes = Ok (card_of <$> codes) ∧
  NoDup (card_of <$> codes) ∧
  Forall (fun k => k ∈ FULL_DECK) (card_of <$> codes).
Proof.
  intros Hc Hn. split_and!.
  - apply for_each_fmap. eapply Forall_impl; [done|].
    intros c Hin. by apply to_deuces_menu.
  - apply NoDup_fmap_2_strong; [|done].
    rewrite Forall_forall in Hc.
    intros x y Hx Hy. apply (NoDup_fmap_inj_on _ CARD_CODES); auto.
    apply card_of_menu_NoDup.
  - apply Forall_fmap. eapply Forall_impl; [done|].
    intros c Hin. by apply to_deuces_menu.
Qed.

Lemma list_remove_elem (x : card) (d : list card) :
  x ∈ d → ∃ d', list_remove x d = Ok d' ∧ d ≡ₚ x :: d'.
Proof.
  induction d as [|y d IH]; [by intros ?%elem_of_nil|].
  intros Hx. simpl. destruct (decide (x = y)) as [->|Hne].
  - by exists d.
  - apply elem_of_cons in Hx as [?|Hx]; [done|].
    destruct (IH Hx) as (d' & -> & Hp). exists (y :: d'). split; [done|].
    rewrite Hp. apply Permutation_swap.
Qed.

(** Removing known cards that are distinct and in the deck succeeds and
    leaves the other cards. *)
Lemma remove_known_ok (codes : list string) (d : list card) :
  Forall (fun c => to_deuces c = Ok (card_of c)) codes →
  NoDup (card_of <$> codes) →
  Forall (fun k => k ∈ d) (card_of <$> codes) →
  ∃ d', remove_known codes d = Ok (tt, d') ∧
        d ≡ₚ ((card_of <$> codes) ++ d')%list.
Proof.
  unfold remove_known. revert d.
  induction codes as [|c codes IH]; intros d Hc Hn Hin.
  - by exists d.
  - apply Forall_cons in Hc as [Hc Hcs].
    rewrite fmap_cons in Hn, Hin.
    apply NoDup_cons in Hn as [Hk Hn]. apply Forall_cons in Hin as [Hkd Hin].
    destruct (list_remove_elem _ _ Hkd) as (d1 & Hr & Hp).
    destruct (IH d1 Hcs Hn) as (d' & Hrest & Hp').
    { rewrite Forall_forall in Hin |- *. intros k Hks.
      specialize (Hin k Hks). rewrite Hp in Hin.
      apply elem_of_cons in Hin as [->|?]; [done|done]. }
    exists d'. split.
    + cbn. unfold bindD at 1 2, lift, remove. rewrite Hc, Hr. exact Hrest.
    + rewrite Hp, Hp'. done.
Qed.

Lemma replicateD_S {A} (n : nat) (m : DeckM A) (d : list card) :
  replicateD (S n) m d
  = match m d with
    | Ok (a, d') =>
        match replicateD n m d' with
        | Ok (t, d'') => Ok (a :: t, d'')
        | Raise e => Raise e
        end
    | Raise e => Raise e
    end.
Proof. cbn. unfold bindD. by destruct (m d) as [[a d']|e]. Qed.

Lemma replicateD_draw (n : nat) (d : list card) :
  (n ≤ length d)%nat → replicateD n draw d = Ok (take n d, drop n d).
Proof.
  revert d. induction n as [|n IH]; intros d Hn; [done|].
  destruct d as [|c d]; simpl in Hn; [lia|].
  rewrite replicateD_S. cbn. rewrite IH by lia. done.
Qed.

Lemma deal_opponents_ok (num_players : Z) (d : list card) :
  (2 * Z.to_nat (num_players - 1) ≤ length d)%nat →
  ∃ opp_hands,
    deal_opponents num_players d
    = Ok (opp_hands, drop (2 * Z.to_nat (num_players - 1)) d) ∧
    length opp_hands = Z.to_nat (num_players - 1) ∧
    Forall (fun h => length h = 2%nat) opp_hands.
Proof.
  unfold deal_opponents. generalize (Z.to_nat (num_players - 1)) as n.
  set (two := bindD draw (fun a => bindD draw (fun b => ret [a; b]))).
  intros n. revert d. induction n as [|n IH]; intros d Hn.
  - exists []. by rewrite Nat.mul_0_r.
  - destruct d as [|a [|b d]]; simpl in Hn; [lia..|].
    destruct (IH d) as (hs & Hd & Hl & Hf); [lia|].
    exists ([a; b] :: hs). split_and!.
    + rewrite replicateD_S.
      assert (two (a :: b :: d) = Ok ([a; b], d)) as -> by done.
      rewrite Hd.
      replace (2 * S n)%nat with (S (S (2 * n))) by lia. done.
    + simpl. by rewrite Hl.
    + by constructor.
Qed.

Lemma evaluate_ok ev (cards board : list card) :
  (5 ≤ length cards + length board ≤ 7)%nat →
  evaluate ev cards board = Ok (ev (cards ++ board)%list).
Proof.
  intros H. unfold evaluate, len. rewrite length_app.
  destruct (Z.leb_spec 5 (Z.of_nat (length cards + length board))); [|lia].
  destruct (Z.leb_spec (Z.of_nat (length cards + length board)) 7); [done|lia].
Qed.

Lemma foldl_min_spec (x : Z) (l : list Z) :
  foldl Z.min x l ∈ x :: l ∧ Forall (fun y => foldl Z.min x l <= y) (x :: l).
Proof.
  revert x. induction l as [|y l IH]; intros x; simpl.
  - split; [by left|]. by repeat constructor.
  - destruct (IH (Z.min x y)) as [Hin Hle].
    apply Forall_cons in Hle as [Hm Hle]. split.
    + apply elem_of_cons in Hin as [->|?].
      * destruct (Z.min_spec x y) as [[_ ->]|[_ ->]];
          [by left|by right; left].
      * by right; right.
    + repeat constructor; [lia|lia|done].
Qed.

(** [min] returns an element below all the others. *)
Lemma min_list_spec (l : list Z) :
  l ≠ [] → ∃ m, min_list l = Ok m ∧ m ∈ l ∧ Forall (fun y => m <= y) l.
Proof.
  destruct l as [|x l]; [done|]. intros _.
  exists (foldl Z.min x l). split; [done|]. apply foldl_min_spec.
Qed.

Lemma complete_board_ok (board d : list card) :
  (length board ≤ 5)%nat → (5 - length board ≤ length d)%nat →
  ∃ sim_board,
    complete_board board d = Ok (sim_board, drop (5 - length board) d) ∧
    length sim_board = 5%nat.
Proof.
  intros Hb Hd. unfold complete_board, len.
  destruct (Z.ltb_spec 0 (5 - Z.of_nat (length board))) as [Hpos|Hneg].
  - replace (Z.to_nat (5 - Z.of_nat (length board)))
      with (5 - length board)%nat by lia.
    unfold bindD. rewrite replicateD_draw by done.
    eexists. split; [done|].
    rewrite length_app, length_take_le by done. lia.
  - replace (5 - length board)%nat with 0%nat by lia.
    exists board. split; [done|lia].
Qed.

(** The deck of a trial after the known cards have left it. *)
Lemma deck_after_known (codes : list string) (deck : list card) :
  Forall (fun c => c ∈ CARD_CODES) codes → NoDup codes →
  deck ≡ₚ FULL_DECK →
  ∃ d, remove_known codes deck = Ok (tt, d) ∧
       (length d + length codes = 52)%nat.
Proof.
  intros Hc Hn Hp.
  destruct (known_cards codes Hc Hn) as (_ & Hnd & Hin).
  destruct (remove_known_ok codes deck) as (d & Hr & Hpd); [|done| |].
  - eapply Forall_impl; [done|]. intros c ?. by apply to_deuces_menu.
  - eapply Forall_impl; [done|]. intros k ?. by rewrite Hp.
  - exists d. split; [done|].
    apply Permutation_length in Hpd, Hp.
    rewrite length_app, length_fmap in Hpd.
    change (length FULL_DECK) with 52%nat in Hp. lia.
Qed.

Lemma deal_ok_sizes (hand_cards board_cards : list string) :
  deal_ok hand_cards board_cards →
  length hand_cards = 2%nat ∧ (length board_cards ≤ 5)%nat ∧
  length (hand_cards ++ board_cards) = (2 + length board_cards)%nat.
Proof.
  intros (Hh & Hb & _). rewrite length_app, Hh. split_and!; [done| |done].
  set_unfold in Hb. lia.
Qed.

(** A trial of [monte_carlo_odds] with up to 22 opponents runs to its
    end: the board is completed to five cards, every opponent gets two,
    and the outcome compares the hero's rank with the least opponent
    rank. *)
Lemma odds_trial_ok ev hand_cards board_cards num_players deck :
  deal_ok hand_cards board_cards → 2 <= num_players <= 23 →
  deck ≡ₚ FULL_DECK →
  ∃ sim_board opp_hands strongest rest,
    odds_trial ev hand_cards board_cards
               (card_of <$> hand_cards) (card_of <$> board_cards)
               num_players deck
    = Ok (compare_scores (ev (sim_board ++ (card_of <$> hand_cards))%list)
                         strongest, rest) ∧
    len rest = 45 - 2 * (num_players - 1) ∧
    length sim_board = 5%nat ∧
    len opp_hands = num_players - 1 ∧
    Forall (fun h => length h = 2%nat) opp_hands ∧
    strongest ∈ (fun opp => ev (sim_board ++ opp)%list) <$> opp_hands ∧
    Forall (fun s => strongest <= s)
           ((fun opp => ev (sim_board ++ opp)%list) <$> opp_hands).
Proof.
  intros Hok Hnp Hp.
  destruct (deal_ok_sizes _ _ Hok) as (Hh & Hb & Hlen).
  destruct Hok as (_ & _ & Hc & Hn).
  destruct (deck_after_known _ _ Hc Hn Hp) as (d1 & Hr & Hl1).
  pose proof (complete_board_ok (card_of <$> board_cards) d1) as Hcb.
  rewrite length_fmap in Hcb.
  destruct Hcb as (sim_board & Hcb & Hsb); [done|lia|].
  set (d2 := drop (5 - length board_cards) d1) in *.
  assert (length d2 = 45%nat) as Hl2 by (unfold d2; rewrite length_drop; lia).
  destruct (deal_opponents_ok num_players d2) as (opps & Hdo & Hlo & Hfo);
    [lia|].
  set (scores := (fun opp => ev (sim_board ++ opp)%list) <$> opps).
  destruct (min_list_spec scores) as (m & Hm & Hmin & Hmle).
  { intros E. apply (f_equal length) in E. unfold scores in E.
    rewrite length_fmap in E. simpl in E. lia. }
  exists sim_board, opps, m, (drop (2 * Z.to_nat (num_players - 1)) d2).
  split_and!; [|unfold len; rewrite length_drop; lia|done|unfold len; lia
               |done..].
  unfold odds_trial, bindD. rewrite Hr, Hcb, Hdo. unfold lift, showdown.
  rewrite evaluate_ok by (rewrite length_fmap; lia). cbn.
  rewrite (for_each_fmap _ (fun opp => ev (sim_board ++ opp)%list)).
  - cbn. fold scores. by rewrite Hm.
  - eapply Forall_impl; [done|]. intros h Hh2. cbn in Hh2.
    apply evaluate_ok. lia.
Qed.

Lemma get_rank_class_raise (hr : Z) e :
  get_rank_class hr = Raise e → e = Exception.
Proof.
  unfold get_rank_class.
  repeat (case_match; [done|]). congruence.
Qed.

Lemma get_rank_class_range (hr : Z) :
  0 <= hr <= MAX_HIGH_CARD → ∃ k, get_rank_class hr = Ok k ∧ 1 <= k <= 9.
Proof.
  intros H. unfold get_rank_class.
  repeat (case_match; [eexists; split; [done|lia]|]).
  unfold MAX_HIGH_CARD in *. lia.
Qed.

Lemma incr_raise (counts : gmap Z Z) k e : incr counts k = Raise e → e = KeyError.
Proof. unfold incr, getitem. destruct (counts !! k); cbn; congruence. Qed.

Lemma incr_ok (counts : gmap Z Z) k :
  counts_ok counts → 1 <= k <= 9 →
  ∃ counts', incr counts k = Ok counts' ∧ counts_ok counts'.
Proof.
  intros Hc Hk. unfold incr, getitem.
  destruct (Hc k Hk) as [n ->]. cbn. eexists. split; [done|].
  intros j Hj. destruct (decide (k = j)) as [->|?].
  - rewrite lookup_insert_eq. by eexists.
  - rewrite lookup_insert_ne by done. by apply Hc.
Qed.

Lemma raises_only_Ok {A} P (a : A) : raises_only P (Ok a).
Proof. by intros e. Qed.

Lemma raises_only_bind {A B} P (m : DeckM A) (k : A → DeckM B) d a d' :
  m d = Ok (a, d') → raises_only P (k a d') → raises_only P (bindD m k d).
Proof. intros Hm Hk. unfold bindD. by rewrite Hm. Qed.

Lemma raises_only_lift {A B} P (r : result A) (k : A → DeckM B) d :
  raises_only P r → (∀ a, r = Ok a → raises_only P (k a d)) →
  raises_only P (bindD (lift r) k d).
Proof.
  intros Hr Hk. unfold bindD, lift. destruct r as [a|e]; [by apply Hk|].
  intros e' [= <-]. by apply Hr.
Qed.

Lemma raises_only_never {A} (r : result A) :
  raises_only (fun _ => False) r → ∃ a, r = Ok a.
Proof. destruct r as [a|e]; [by eexists|]. intros H. destruct (H e eq_refl). Qed.

(** A trial of [monte_carlo_preflop_distributions] with up to 22
    opponents makes all its draws: whatever it raises is raised by
    [get_rank_class] or by the increment of a tally. *)
Lemma preflop_trial_raises P ev hand_cards num_players e deck :
  deal_ok hand_cards [] → 2 <= num_players <= 23 → deck ≡ₚ FULL_DECK →
  (∀ l, raises_only P (get_rank_class (ev l))) →
  (∀ l k counts,
     get_rank_class (ev l) = Ok k →
     counts = flop_counts e ∨ counts = turn_counts e
     ∨ counts = river_counts e →
     raises_only P (incr counts k)) →
  raises_only P
    (preflop_trial ev hand_cards (card_of <$> hand_cards) num_players e deck).
Proof.
  intros Hok Hnp Hp Hclass Hincr.
  destruct (deal_ok_sizes _ _ Hok) as (Hh & _ & _).
  destruct Hok as (_ & _ & Hc & Hn). rewrite app_nil_r in Hc, Hn.
  destruct (deck_after_known _ _ Hc Hn Hp) as (d1 & Hr & Hl1).
  destruct d1 as [|c1 [|c2 [|c3 [|c4 [|c5 d2]]]]]; simpl in Hl1; try lia.
  destruct (deal_opponents_ok num_players d2) as (opps & Hdo & Hlo & Hfo);
    [lia|].
  assert (Hev : ∀ cards, (3 ≤ length cards ≤ 5)%nat →
            evaluate ev cards (card_of <$> hand_cards)
            = Ok (ev (cards ++ (card_of <$> hand_cards))%list)).
  { intros cards ?. apply evaluate_ok. rewrite length_fmap. lia. }
  unfold preflop_trial.
  eapply raises_only_bind; [exact Hr|].
  eapply raises_only_bind; [reflexivity|].
  rewrite Hev by (simpl; lia).
  apply raises_only_lift; [apply raises_only_Ok|]. intros ? [= <-].
  apply raises_only_lift; [apply Hclass|]. intros k1 Hk1.
  apply raises_only_lift; [eapply Hincr; [done|tauto]|]. intros fc _.
  eapply raises_only_bind; [reflexivity|].
  rewrite Hev by (simpl; lia).
  apply raises_only_lift; [apply raises_only_Ok|]. intros ? [= <-].
  apply raises_only_lift; [apply Hclass|]. intros k2 Hk2.
  apply raises_only_lift; [eapply Hincr; [done|tauto]|]. intros tc _.
  eapply raises_only_bind; [reflexivity|].
  rewrite Hev by (simpl; lia).
  apply raises_only_lift; [apply raises_only_Ok|]. intros ? [= <-].
  apply raises_only_lift; [apply Hclass|]. intros k3 Hk3.
  apply raises_only_lift; [eapply Hincr; [done|tauto]|]. intros rc _.
  eapply raises_only_bind; [exact Hdo|].
  set (river := (([c1; c2; c3] ++ [c4]) ++ [c5])%list).
  rewrite (for_each_fmap _ (fun opp => ev (river ++ opp)%list)).
  2:{ eapply Forall_impl; [done|]. intros h Hh2. cbn in Hh2.
      apply evaluate_ok. simpl. lia. }
  apply raises_only_lift; [apply raises_only_Ok|]. intros ? [= <-].
  match goal with
  | |- context [min_list ?L] => destruct (min_list_spec L) as (m & Hm & _)
  end.
  { intros E. apply (f_equal length) in E.
    rewrite length_fmap in E. simpl in E. lia. }
  rewrite Hm.
  apply raises_only_lift; [apply raises_only_Ok|]. intros ? [= <-].
  apply raises_only_Ok.
Qed.

(** C8: with one to nine opponents a trial draws no more cards than its
    deck holds once the known cards are out, so no draw meets an empty
    deck: a trial of [monte_carlo_odds] returns its outcome, a trial of
    [monte_carlo_preflop_distributions] never raises the [IndexError] of
    an empty deck, and it returns new tallies when the evaluator's ranks
    lie in the library's range and the tallies have their nine keys. *)
Theorem deck_never_exhausted
    ev (hand_cards board_cards : list string) (opponents : Z)
    (deck : list card) :
  deal_ok hand_cards board_cards → 1 <= opponents <= 9 →
  deck ≡ₚ FULL_DECK →
  cards_drawn board_cards opponents <= cards_remaining hand_cards board_cards ∧
  (∃ o rest,
     odds_trial ev hand_cards board_cards
                (card_of <$> hand_cards) (card_of <$> board_cards)
                (opponents + 1) deck = Ok (o, rest) ∧
     len rest = cards_remaining hand_cards board_cards
                - cards_drawn board_cards opponents) ∧
  (board_cards = [] →
   ∀ e,
     preflop_trial ev hand_cards (card_of <$> hand_cards) (opponents + 1) e deck
     ≠ Raise IndexError ∧
     ((∀ l, 0 <= ev l <= MAX_HIGH_CARD) →
      counts_ok (flop_counts e) → counts_ok (turn_counts e) →
      counts_ok (river_counts e) →
      ∃ e' rest,
        preflop_trial ev hand_cards (card_of <$> hand_cards) (opponents + 1)
                      e deck = Ok (e', rest))).
Proof.
  intros Hok Hopp Hp.
  destruct (deal_ok_sizes _ _ Hok) as (Hh & Hb & Hlen).
  split_and!.
  - unfold cards_drawn, cards_remaining, len. rewrite Hh.
    change (length FULL_DECK) with 52%nat. lia.
  - destruct (odds_trial_ok ev hand_cards board_cards (opponents + 1) deck)
      as (sb & opps & m & rest & Ht & Hrest & _); [done|lia|done|].
    exists (compare_scores (ev (sb ++ (card_of <$> hand_cards))%list) m), rest.
    split; [done|].
    rewrite Hrest. unfold cards_drawn, cards_remaining, len. rewrite Hh.
    change (length FULL_DECK) with 52%nat. lia.
  - intros -> e. split.
    + intros E.
      apply (preflop_trial_raises (fun x => x = Exception ∨ x = KeyError))
        in E as [?|?]; [done|done|done|lia|done| |].
      * intros l x ?%get_rank_class_raise. by left.
      * intros l k c _ _ x ?%incr_raise. by right.
    + intros Hev Hf Ht Hr. 
      destruct (raises_only_never
        (preflop_trial ev hand_cards (card_of <$> hand_cards) (opponents + 1)
                       e deck)) as [[e' rest] E]; [|by eauto].
      apply preflop_trial_raises; [done|lia|done| |].
      * intros l x E. destruct (get_rank_class_range (ev l) (Hev l)) as (k & Hk & _).
        congruence.
      * intros l k c Hk Hc x E.
        destruct (get_rank_class_range (ev l) (Hev l)) as (k' & Hk' & Hr9).
        assert (k' = k) as -> by congruence.
        destruct (incr_ok c k) as (c' & Hc' & _); [|done|congruence].
        destruct Hc as [-> | [-> | ->]]; done.
Qed.

Lemma deck_never_exhausted_witness :
  deal_ok ["As"; "Kd"] [] ∧
  (∃ o rest,
     odds_trial sum_evaluator ["As"; "Kd"] []
                (card_of <$> ["As"; "Kd"]) (card_of <$> []) (9 + 1) FULL_DECK
     = Ok (o, rest) ∧
     len rest = cards_remaining ["As"; "Kd"] [] - cards_drawn [] 9).
Proof.
  assert (deal_ok ["As"; "Kd"] []) as Hok
    by (apply (bool_decide_unpack _); vm_compute; reflexivity).
  split; [exact Hok|].
  assert (1 <= 9 <= 9) as Hopp by lia.
  exact (proj1 (proj2 (deck_never_exhausted sum_evaluator ["As"; "Kd"] [] 9
                         FULL_DECK Hok Hopp (Permutation_refl _)))).
Defined.

(** *** The counters of [monte_carlo_odds] *)

Lemma for_range_invariant {St} (P : nat → St → Prop)
    (body : nat → St → result St) (n i : nat) (s : St) :
  P i s →
  (∀ j s, P j s → ∃ s', body j s = Ok s' ∧ P (S j) s') →
  ∃ s', for_range n i body s = Ok s' ∧ P (i + n)%nat s'.
Proof.
  intros Hs Hstep. revert i s Hs.
  induction n as [|n IH]; intros i s Hs.
  - exists s. by rewrite Nat.add_0_r.
  - destruct (Hstep i s Hs) as (s1 & Hb & Hs1).
    destruct (IH (S i) s1 Hs1) as (s' & Hf & Hs').
    exists s'. cbn. rewrite Hb. cbn. split; [done|].
    by replace (i + S n)%nat with (S i + n)%nat by lia.
Qed.


Lemma percent_ok (count num_trials : Z) :
  1 <= num_trials →
  percent count num_trials
  = Ok (inject_Z (100 * count) / inject_Z num_trials)%Q.
Proof.
  intros H. unfold percent.
  destruct (Z.eqb_spec num_trials 0); [lia|done].
Qed.

Lemma percent_bounds (count num_trials : Z) :
  1 <= num_trials → 0 <= count <= num_trials →
  (0 <= inject_Z (100 * count) / inject_Z num_trials <= 100)%Q.
Proof.
  intros Hn Hc.
  assert (0 < inject_Z num_trials)%Q as Hpos.
  { change 0%Q with (inject_Z 0). rewrite <-Zlt_Qlt. lia. }
  split.
  - apply Qle_shift_div_l; [done|]. rewrite Qmult_0_l.
    change 0%Q with (inject_Z 0). rewrite <-Zle_Qle. lia.
  - apply Qle_shift_div_r; [done|].
    change 100%Q with (inject_Z 100). rewrite <-inject_Z_mult, <-Zle_Qle. lia.
Qed.





Lemma rotate_shuffle {A} (n : nat) (l : list A) : rotate n l ≡ₚ l.
Proof. unfold rotate. by rewrite Permutation_app_comm, take_drop. Qed.


(** *** Counters *)

Section CounterFacts.
Context {K : Type} `{EqDecision K}.

Lemma counter_incr_keys (k : K) (c : list (K * Z)) :
  (counter_incr k c).*1 = if decide (k ∈ c.*1) then c.*1 else (c.*1 ++ [k])%list.
Proof.
  induction c as [|[k' n] c IH]; [done|].
  cbn [counter_incr]. destruct (decide (k = k')) as [->|Hne].
  - rewrite !fmap_cons. cbn [fst]. rewrite decide_True by left. done.
  - rewrite !fmap_cons. cbn [fst]. rewrite IH.
    destruct (decide (k ∈ c.*1)) as [Hin|Hin].
    + rewrite decide_True by (by right). done.
    + rewrite decide_False; [done|]. by intros [?|?]%elem_of_cons.
Qed.

Lemma cget_incr (k k' : K) (c : list (K * Z)) :
  cget k' (counter_incr k c) = cget k' c + (if decide (k' = k) then 1 else 0).
Proof.
  induction c as [|[k0 n] c IH]; simpl.
  - destruct (decide (k' = k)); lia.
  - destruct (decide (k = k0)) as [->|Hne]; simpl.
    + destruct (decide (k' = k0)); lia.
    + destruct (decide (k' = k0)) as [->|?]; [|done].
      rewrite decide_False by done. lia.
Qed.

Lemma Counter_snoc (l : list K) (k : K) :
  Counter (l ++ [k]) = counter_incr k (Counter l).
Proof. unfold Counter. by rewrite foldl_app. Qed.

Lemma Counter_keys (l : list K) :
  NoDup (Counter l).*1 ∧ ∀ k, k ∈ (Counter l).*1 ↔ k ∈ l.
Proof.
  induction l as [|x l [IHn IHk]] using rev_ind.
  - split; [constructor|]. intros k. cbn. done.
  - rewrite Counter_snoc, counter_incr_keys.
    destruct (decide (x ∈ (Counter l).*1)) as [Hin|Hin].
    + split; [done|]. intros k. rewrite elem_of_app, list_elem_of_singleton, IHk.
      split; [by left|]. intros [?| ->]; [done|]. by apply IHk.
    + split.
      * apply NoDup_app. split_and!; [done| |apply NoDup_singleton].
        intros k Hk ->%list_elem_of_singleton. done.
      * intros k. rewrite !elem_of_app, IHk. done.
Qed.

Lemma count_snoc (k x : K) (l : list K) :
  count k (l ++ [x]) = count k l + (if decide (k = x) then 1 else 0).
Proof.
  unfold count, len. rewrite filter_app, length_app.
  rewrite filter_cons, filter_nil.
  destruct (decide (x = k)) as [->|?].
  - rewrite decide_True by done. simpl. lia.
  - rewrite decide_False by done. simpl. lia.
Qed.

Lemma cget_Counter (l : list K) (k : K) : cget k (Counter l) = count k l.
Proof.
  induction l as [|x l IH] using rev_ind; [done|].
  by rewrite Counter_snoc, cget_incr, count_snoc, IH.
Qed.

Lemma snd_cget (c : list (K * Z)) :
  NoDup c.*1 → values c = (fun k => cget k c) <$> c.*1.
Proof.
  unfold values. induction c as [|[k n] c IH]; [done|].
  rewrite fmap_cons, NoDup_cons. intros [Hk Hn]. cbn.
  rewrite decide_True by done. f_equal.
  rewrite IH by done. apply list_fmap_ext. intros i k' Hk'.
  rewrite decide_False; [done|]. intros ->.
  apply Hk. by eapply list_elem_of_lookup_2.
Qed.

(** The values of a counter are the multiplicities of its keys. *)
Lemma Counter_values (l : list K) :
  values (Counter l) = (fun k => count k l) <$> (Counter l).*1.
Proof.
  rewrite snd_cget by apply Counter_keys.
  apply list_fmap_ext. intros i k _. apply cget_Counter.
Qed.

Lemma count_Permutation (k : K) (l l' : list K) :
  l ≡ₚ l' → count k l = count k l'.
Proof. intros Hp. unfold count, len. by rewrite Hp. Qed.

Lemma values_Counter_Permutation (l l' : list K) :
  l ≡ₚ l' → values (Counter l) ≡ₚ values (Counter l').
Proof.
  intros Hp. rewrite !Counter_values.
  destruct (Counter_keys l) as [Hn Hk], (Counter_keys l') as [Hn' Hk'].
  assert ((Counter l).*1 ≡ₚ (Counter l').*1) as ->.
  { apply NoDup_Permutation; [done..|]. intros k. by rewrite Hk, Hk', Hp. }
  erewrite list_fmap_ext; [done|].
  intros i k _. by apply count_Permutation.
Qed.

Lemma Counter_elem (l : list K) (k : K) (n : Z) :
  (k, n) ∈ Counter l → k ∈ l ∧ n = count k l.
Proof.
  intros Hin. destruct (Counter_keys l) as [Hn Hk]. split.
  - apply Hk. apply list_elem_of_fmap. by exists (k, n).
  - rewrite <-cget_Counter.
    assert (n ∈ values (Counter l)) as Hv
      by (apply list_elem_of_fmap; by exists (k, n)).
    clear Hk. induction (Counter l) as [|[k' n'] c IH]; [by apply elem_of_nil in Hin|].
    rewrite fmap_cons in Hn. apply NoDup_cons in Hn as [Hk' Hn]. cbn.
    apply elem_of_cons in Hin as [[= -> ->]|Hin].
    + by rewrite decide_True.
    + rewrite decide_False.
      * apply IH; [done..|]. apply list_elem_of_fmap. by exists (k, n).
      * intros ->. apply Hk'. apply list_elem_of_fmap. by exists (k', n).
Qed.

Lemma Counter_elem_of (l : list K) (k : K) :
  k ∈ l → (k, count k l) ∈ Counter l.
Proof.
  intros Hin. destruct (Counter_keys l) as [_ Hk].
  apply Hk, list_elem_of_fmap in Hin as ([k' n] & -> & Hin).
  cbn. by destruct (Counter_elem _ _ _ Hin) as [_ <-].
Qed.

End CounterFacts.

(** *** Sorting *)

#[local] Instance descending_trans : Transitive descending.
Proof. unfold descending. intros a b c ??. lia. Qed.
#[local] Instance descending_antisym : AntiSymm (=) descending.
Proof. unfold descending. intros a b ??. lia. Qed.

Lemma insert_desc_Permutation (x : Z) (l : list Z) : insert_desc x l ≡ₚ x :: l.
Proof.
  induction l as [|y l IH]; [done|]. simpl.
  destruct (x <? y); [|done]. rewrite IH. apply Permutation_swap.
Qed.

Lemma sorted_reverse_Permutation (l : list Z) : sorted_reverse l ≡ₚ l.
Proof.
  induction l as [|x l IH]; [done|].
  cbn. by rewrite insert_desc_Permutation, IH.
Qed.

Lemma insert_desc_Sorted (x : Z) (l : list Z) :
  Sorted descending l → Sorted descending (insert_desc x l).
Proof.
  induction 1 as [|y l Hs IH Hhd]; simpl.
  - by repeat constructor.
  - destruct (Z.ltb_spec x y) as [Hlt|Hge].
    + constructor; [done|].
      destruct l as [|z l]; simpl in *.
      * constructor. unfold descending. lia.
      * destruct (Z.ltb_spec x z).
        -- constructor. by inv Hhd.
        -- constructor. unfold descending. lia.
    + constructor; [by constructor|]. constructor. done.
Qed.

Lemma sorted_reverse_Sorted (l : list Z) : Sorted descending (sorted_reverse l).
Proof.
  induction l as [|x l IH]; [constructor|].
  cbn. by apply insert_desc_Sorted.
Qed.

(** [sorted] depends on the elements only, not on their order. *)
Lemma sorted_reverse_unique (l l' : list Z) :
  l ≡ₚ l' → sorted_reverse l = sorted_reverse l'.
Proof.
  intros Hp. apply (Sorted_unique descending);
    [apply sorted_reverse_Sorted..|].
  by rewrite !sorted_reverse_Permutation.
Qed.

Lemma remove_dups_Permutation {A} `{EqDecision A} (l l' : list A) :
  l ≡ₚ l' → remove_dups l ≡ₚ remove_dups l'.
Proof.
  intros Hp. apply NoDup_Permutation; [apply NoDup_remove_dups..|].
  intros x. by rewrite !elem_of_remove_dups, Hp.
Qed.

(** *** Comprehensions that may raise *)

(** When every failure of [f] is the same exception, the comprehension
    raises it exactly when some element fails. *)
Lemma for_each_total {A B} (f : A → result B) (g : A → B) (e0 : exn)
    (P : A → Prop) `{∀ x, Decision (P x)} (l : list A) :
  (∀ x, P x → f x = Ok (g x)) → (∀ x, ¬ P x → f x = Raise e0) →
  for_each f l = if bool_decide (Forall P l) then Ok (g <$> l) else Raise e0.
Proof.
  intros Hok Hno. induction l as [|x l IH]; [done|].
  cbn. destruct (decide (P x)) as [Hx|Hx].
  - rewrite (Hok x Hx), IH. cbn.
    destruct (decide (Forall P l)) as [Hl|Hl].
    + rewrite !bool_decide_eq_true_2; [done|by constructor|done].
    + rewrite !bool_decide_eq_false_2; [done| |done].
      by intros [_ ?]%Forall_cons.
  - rewrite (Hno x Hx). cbn.
    rewrite bool_decide_eq_false_2; [done|]. by intros [? _]%Forall_cons.
Qed.

Lemma Forall_Permutation_iff {A} (P : A → Prop) (l l' : list A) :
  l ≡ₚ l' → Forall P l ↔ Forall P l'.
Proof. intros Hp. by rewrite Hp. Qed.

(** *** Ranks *)

Lemma rank_value_Some (r : ascii) : has_value r → rank_value r = Ok (value_of r).
Proof. unfold has_value, rank_value, value_of. by intros [v ->]. Qed.

Lemma rank_value_None (r : ascii) : ¬ has_value r → rank_value r = Raise KeyError.
Proof.
  unfold has_value, rank_value. destruct (RANK_TO_VALUE !! r); [|done].
  intros []. by eexists.
Qed.

(** [RANK_TO_VALUE] gives distinct ranks distinct values. *)
Lemma value_of_inj (r1 r2 : ascii) :
  has_value r1 → has_value r2 → value_of r1 = value_of r2 → r1 = r2.
Proof.
  assert (∀ r, has_value r →
            String.get (Z.to_nat (value_of r - 2)) RANKS = Some r) as H.
  { intros r [v Hv]. unfold value_of. rewrite Hv. cbn.
    revert Hv. ascii_cases r; vm_compute; intros [= <-]; reflexivity. }
  intros H1 H2 E. pose proof (H _ H1) as G1. pose proof (H _ H2) as G2.
  rewrite E in G1. congruence.
Qed.

Lemma has_wheel_Permutation (l l' : list ascii) :
  l ≡ₚ l' → has_wheel l = has_wheel l'.
Proof.
  intros Hp. unfold has_wheel.
  induction (list_ascii_of_string "A2345") as [|r rs IH]; [done|].
  cbn. rewrite IH. f_equal. apply bool_decide_ext. by rewrite Hp.
Qed.

(** [get_straight] depends on the ranks only, not on their order. *)
Lemma get_straight_Permutation (l l' : list ascii) :
  l ≡ₚ l' → get_straight l = get_straight l'.
Proof.
  intros Hp. unfold get_straight.
  rewrite !(for_each_total rank_value value_of KeyError has_value)
    by auto using rank_value_Some, rank_value_None.
  rewrite (bool_decide_ext _ _ (Forall_Permutation_iff has_value _ _ Hp)).
  destruct (bool_decide (Forall has_value l')); [|done].
  cbn -[has_wheel sorted_reverse remove_dups straight_scan].
  rewrite (has_wheel_Permutation _ _ Hp).
  rewrite (sorted_reverse_unique (remove_dups (value_of <$> l))
                                 (remove_dups (value_of <$> l'))); [done|].
  apply remove_dups_Permutation. by rewrite Hp.
Qed.

Lemma max_from_spec {A} (f : A → Z) (x : A) (l : list A) :
  max_from f x l ∈ x :: l ∧ ∀ y, y ∈ x :: l → f y <= f (max_from f x l).
Proof.
  revert x. induction l as [|a l IH]; intros x.
  - split; [by left|]. by intros y ->%list_elem_of_singleton.
  - cbn. destruct (IH (if f x <? f a then a else x)) as [Hin Hmax]. split.
    + apply elem_of_cons in Hin as [-> |Hin].
      * destruct (f x <? f a); [by right; left|by left].
      * by right; right.
    + intros y Hy.
      assert (f x <= f (if f x <? f a then a else x)
              ∧ f a <= f (if f x <? f a then a else x)) as [Hx Ha]
        by (destruct (Z.ltb_spec (f x) (f a)); lia).
      pose proof (Hmax _ (list_elem_of_here _ _)) as H0.
      apply elem_of_cons in Hy as [-> |Hy]; [lia|].
      apply elem_of_cons in Hy as [-> |Hy]; [lia|].
      apply Hmax. by right.
Qed.

(** [max] with a key that tells the elements apart depends on the
    elements only. *)
Lemma max_by_Permutation {A} (f : A → Z) (l l' : list A) :
  l ≡ₚ l' → (∀ a b, a ∈ l → b ∈ l → f a = f b → a = b) →
  max_by f l = max_by f l'.
Proof.
  intros Hp Hinj. destruct l as [|x l], l' as [|x' l'].
  - done.
  - by apply Permutation_nil_l in Hp.
  - by apply Permutation_nil_r in Hp.
  - cbn. f_equal.
    destruct (max_from_spec f x l) as [Hin Hmax].
    destruct (max_from_spec f x' l') as [Hin' Hmax'].
    rewrite <-Hp in Hin'. apply Hinj; [done..|].
    apply Z.le_antisymm; [|by apply Hmax].
    apply Hmax'. by rewrite <-Hp.
Qed.

(** *** The flush suit *)

Lemma find_flush_suit_Some (l : list ascii) (u : ascii) :
  find_flush_suit (Counter l) = Some u → u ∈ l ∧ 5 <= count u l.
Proof.
  unfold find_flush_suit.
  destruct (find _ (Counter l)) as [[k n]|] eqn:E; [|done].
  intros [= <-]. apply find_some in E as [Hin Hn].
  apply list_elem_of_In, Counter_elem in Hin as [? ->].
  split; [done|]. by apply Z.leb_le.
Qed.

Lemma find_flush_suit_None (l : list ascii) (u : ascii) :
  find_flush_suit (Counter l) = None → u ∈ l → count u l < 5.
Proof.
  unfold find_flush_suit.
  destruct (find _ (Counter l)) as [[k n]|] eqn:E; [done|].
  intros _ Hu. apply Counter_elem_of, list_elem_of_In in Hu.
  pose proof (find_none _ _ E _ Hu) as Hn. cbn in Hn.
  by apply Z.leb_gt.
Qed.

(** With at most one suit of five cards or more, the suit the loop picks
    does not depend on the order of the cards. *)
Lemma find_flush_suit_Permutation (l l' : list ascii) :
  l ≡ₚ l' →
  (∀ u1 u2, 5 <= count u1 l → 5 <= count u2 l → u1 = u2) →
  find_flush_suit (Counter l) = find_flush_suit (Counter l').
Proof.
  intros Hp Huniq.
  destruct (find_flush_suit (Counter l)) as [u|] eqn:E,
           (find_flush_suit (Counter l')) as [u'|] eqn:E'; [| | |done].
  - apply find_flush_suit_Some in E as [_ H], E' as [_ H'].
    rewrite <-(count_Permutation _ _ _ Hp) in H'. f_equal. by apply Huniq.
  - apply find_flush_suit_Some in E as [Hu H].
    rewrite Hp in Hu. pose proof (find_flush_suit_None _ u E' Hu) as H'.
    rewrite <-(count_Permutation _ _ _ Hp) in H'. lia.
  - apply find_flush_suit_Some in E' as [Hu H].
    rewrite <-Hp in Hu. pose proof (find_flush_suit_None _ u' E Hu) as H'.
    rewrite (count_Permutation _ _ _ Hp) in H'. lia.
Qed.

(** *** Ranks and suits of the cards *)

Lemma rank_of_Some c : has_rank c → rank_of c = Ok (rank_char_of c).
Proof. unfold has_rank, rank_of, rank_char_of, index. by intros [r ->]. Qed.
Lemma rank_of_None c : ¬ has_rank c → rank_of c = Raise IndexError.
Proof.
  unfold has_rank, rank_of, index. destruct (String.get 0 c); [|done].
  intros []. by eexists.
Qed.
Lemma suit_of_Some c : has_suit c → suit_of c = Ok (suit_char_of c).
Proof. unfold has_suit, suit_of, suit_char_of, index. by intros [r ->]. Qed.
Lemma suit_of_None c : ¬ has_suit c → suit_of c = Raise IndexError.
Proof.
  unfold has_suit, suit_of, index. destruct (String.get 1 c); [|done].
  intros []. by eexists.
Qed.

Lemma count_suits (cards : list string) (u : ascii) :
  Forall has_suit cards →
  count u (suit_char_of <$> cards) = suit_count u cards.
Proof.
  unfold count, suit_count, len. induction 1 as [|c cards Hc _ IH]; [done|].
  rewrite fmap_cons, !filter_cons, (suit_of_Some c Hc).
  destruct (decide (suit_char_of c = u)) as [->|Hne].
  - rewrite decide_True by done. simpl. lia.
  - rewrite decide_False by congruence. done.
Qed.

Lemma mbind_Ok {A B} (a : A) (k : A → result B) : mbind k (Ok a) = k a.
Proof. done. Qed.

(** C10 (within the classifier's design range): when at most one suit
    occurs five times or more, as in every input of at most nine cards,
    [analyze_hand] gives the same result, label or exception, on every
    reordering of the cards. *)
Theorem analyze_hand_permutation (cards cards' : list string) :
  one_flush_suit cards → cards ≡ₚ cards' →
  analyze_hand cards = analyze_hand cards'.
Proof.
  intros Huniq Hp. unfold analyze_hand.
  replace (len cards') with (len cards) by (unfold len; by rewrite Hp).
  destruct (len cards <? 5); [done|].
  rewrite !(for_each_total rank_of rank_char_of IndexError has_rank)
    by auto using rank_of_Some, rank_of_None.
  rewrite <-(bool_decide_ext _ _ (Forall_Permutation_iff has_rank _ _ Hp)).
  destruct (bool_decide (Forall has_rank cards)) eqn:Hrank; [|done].
  apply bool_decide_eq_true in Hrank.
  rewrite !mbind_Ok. cbv beta.
  rewrite !(for_each_total suit_of suit_char_of IndexError has_suit)
    by auto using suit_of_Some, suit_of_None.
  rewrite <-(bool_decide_ext _ _ (Forall_Permutation_iff has_suit _ _ Hp)).
  destruct (bool_decide (Forall has_suit cards)) eqn:Hsuit; [|done].
  apply bool_decide_eq_true in Hsuit.
  rewrite !mbind_Ok. cbv beta zeta.
  change (fun r : ascii => default 0 (RANK_TO_VALUE !! r)) with value_of.
  set (ranks := rank_char_of <$> cards).
  set (ranks' := rank_char_of <$> cards').
  set (suits := suit_char_of <$> cards).
  set (suits' := suit_char_of <$> cards').
  assert (ranks ≡ₚ ranks') as Hr by (by apply fmap_Permutation).
  assert (suits ≡ₚ suits') as Hs by (by apply fmap_Permutation).
  rewrite !(for_each_total rank_value value_of KeyError has_value)
    by auto using rank_value_Some, rank_value_None.
  rewrite <-(bool_decide_ext _ _
    (Forall_Permutation_iff has_value _ _ (remove_dups_Permutation _ _ Hr))).
  destruct (bool_decide (Forall has_value (remove_dups ranks))) eqn:Hval;
    [|done].
  apply bool_decide_eq_true in Hval.
  rewrite !mbind_Ok. cbv beta.
  rewrite <-(find_flush_suit_Permutation suits suits' Hs).
  2:{ intros u1 u2. unfold suits. rewrite !count_suits by done.
      apply Huniq. }
  assert (values (Counter ranks) ≡ₚ values (Counter ranks')) as Hv
    by (by apply values_Counter_Permutation).
  assert (∀ n, bool_decide (n ∈ values (Counter ranks'))
               = bool_decide (n ∈ values (Counter ranks))) as Hmem
    by (intros n; apply bool_decide_ext; by rewrite Hv).
  rewrite !Hmem.
  replace (len (filter (fun n : Z => n = 2) (values (Counter ranks'))))
    with (len (filter (fun n : Z => n = 2) (values (Counter ranks))))
    by (unfold len; by rewrite Hv).
  rewrite <-(get_straight_Permutation ranks ranks' Hr).
  rewrite <-(max_by_Permutation value_of ranks ranks' Hr).
  2:{ intros a b Ha Hb. rewrite Forall_forall in Hval.
      apply value_of_inj; apply Hval; by apply elem_of_remove_dups. }
  destruct (find_flush_suit (Counter suits)) as [fs|]; [|done].
  set (flush := fun c : string => String.get 1 c = Some fs).
  assert (∀ l, Forall has_rank l →
            for_each rank_of (filter flush l)
            = Ok (rank_char_of <$> filter flush l)) as Hfl.
  { intros l Hl. apply for_each_fmap.
    apply list.Forall_forall. intros c [_ Hc]%list_elem_of_filter.
    rewrite Forall_forall in Hl. by apply rank_of_Some, Hl. }
  rewrite !Hfl by (done || by rewrite <-Hp).
  rewrite !mbind_Ok. cbv beta.
  assert (rank_char_of <$> filter flush cards
          ≡ₚ rank_char_of <$> filter flush cards') as Hf
    by (by rewrite Hp).
  replace (len (rank_char_of <$> filter flush cards'))
    with (len (rank_char_of <$> filter flush cards))
    by (unfold len; by rewrite Hf).
  by rewrite <-(get_straight_Permutation _ _ Hf).
Qed.

Lemma suit_count_disjoint (u1 u2 : ascii) (cards : list string) :
  u1 ≠ u2 → suit_count u1 cards + suit_count u2 cards <= len cards.
Proof.
  intros Hne. unfold suit_count, len.
  induction cards as [|c cards IH]; [done|].
  rewrite !filter_cons.
  destruct (decide (suit_of c = Ok u1)) as [E1|?],
           (decide (suit_of c = Ok u2)) as [E2|?]; simpl; try lia.
  congruence.
Qed.

(** Nine cards or fewer hold at most one suit five times. *)
Lemma one_flush_suit_small (cards : list string) :
  (length cards ≤ 9)%nat → one_flush_suit cards.
Proof.
  intros Hlen u1 u2 H1 H2. destruct (decide (u1 = u2)) as [|Hne]; [done|].
  pose proof (suit_count_disjoint u1 u2 cards Hne) as H. unfold len in H. lia.
Qed.

Lemma analyze_hand_permutation_witness :
  analyze_hand ["As"; "2h"; "3d"; "4c"; "5s"]
  = analyze_hand (rev ["As"; "2h"; "3d"; "4c"; "5s"]).
Proof.
  apply (analyze_hand_permutation ["As"; "2h"; "3d"; "4c"; "5s"]).
  - apply one_flush_suit_small. simpl. lia.
  - apply Permutation_rev.
Defined.

(** C10 fails as stated: among ten cards two suits can occur five times,
    and the loop keeps the one it meets first.  The royal flush in spades
    followed by five hearts is a "Royal Flush"; the same cards with the
    hearts first are a "Flush". *)
Lemma analyze_hand_order_matters :
  (["As"; "Ks"; "Qs"; "Js"; "Ts"] ++ ["2h"; "4h"; "6h"; "8h"; "9h"])%list
  ≡ₚ (["2h"; "4h"; "6h"; "8h"; "9h"] ++ ["As"; "Ks"; "Qs"; "Js"; "Ts"])%list ∧
  analyze_hand ["As"; "Ks"; "Qs"; "Js"; "Ts"; "2h"; "4h"; "6h"; "8h"; "9h"]
  = Ok "Royal Flush" ∧
  analyze_hand ["2h"; "4h"; "6h"; "8h"; "9h"; "As"; "Ks"; "Qs"; "Js"; "Ts"]
  = Ok "Flush".
Proof.
  split_and!; [apply Permutation_app_comm|by vm_compute|by vm_compute].
Qed.


(** *** Results and errors of the classifier *)

Lemma analyze_hand_classify (cards : list string) :
  analyze_hand cards
  = if len cards <? 5 then Ok NOT_ENOUGH else
      ranks ← for_each rank_of cards;
      suits ← for_each suit_of cards;
      classify cards ranks suits.
Proof. reflexivity. Qed.

Lemma has_rank_length (c : string) : has_rank c ↔ (1 ≤ String.length c)%nat.
Proof.
  unfold has_rank. destruct c as [|r rest]; simpl.
  - split; [by intros [? ?]|lia].
  - split; [lia|by eexists].
Qed.

Lemma has_suit_length (c : string) : has_suit c ↔ ¬ short c.
Proof.
  unfold has_suit, short. destruct c as [|r [|u rest]]; simpl.
  - split; [by intros [? ?]|lia].
  - split; [by intros [? ?]|lia].
  - split; [lia|by eexists].
Qed.

Lemma has_value_upper (r : ascii) :
  bool_decide (has_value (upper_char r)) = bool_decide (rank_char r).
Proof. ascii_cases r; by vm_compute. Qed.

Lemma has_value_RANKS (r : ascii) :
  bool_decide (has_value r) = bool_decide (r ∈ list_ascii_of_string RANKS).
Proof. ascii_cases r; by vm_compute. Qed.

Lemma first_is_rank_value (c : string) :
  has_rank c → (first_is_rank c ↔ has_value (rank_char_of c)).
Proof.
  unfold first_is_rank, rank_char_of. destruct c as [|r rest]; simpl.
  { by intros [? ?]. }
  intros _. rewrite <-(bool_decide_spec (has_value _)), has_value_upper,
    bool_decide_spec.
  split; [by intros (? & ? & [= <- <-] & ?)|by exists r, rest].
Qed.

Lemma get_straight_valid (l : list ascii) :
  Forall has_value l → get_straight l = Ok (straight_scan (straight_values l)).
Proof.
  intros Hl. unfold get_straight, straight_values.
  rewrite (for_each_total rank_value value_of KeyError has_value)
    by auto using rank_value_Some, rank_value_None.
  by rewrite bool_decide_eq_true_2.
Qed.

Lemma straight_scan_shape (l : list Z) :
  straight_scan l = (false, None) ∨ ∃ h, straight_scan l = (true, Some h).
Proof.
  induction l as [|v t IH]; [by left|]. cbn.
  destruct (t !! 3%nat); [|by left].
  destruct (v - z =? 4); [right; by eexists|done].
Qed.

Lemma max_from_elem {A} (f : A → Z) (x : A) (l : list A) :
  max_from f x l ∈ x :: l.
Proof. apply max_from_spec. Qed.

Lemma for_each_rank_value (l : list ascii) :
  Forall has_value l → for_each rank_value l = Ok (value_of <$> l).
Proof.
  intros H. apply for_each_fmap. eapply Forall_impl; [done|].
  apply rank_value_Some.
Qed.

Lemma for_each_rank_of (l : list string) :
  Forall has_rank l → for_each rank_of l = Ok (rank_char_of <$> l).
Proof.
  intros H. apply for_each_fmap. eapply Forall_impl; [done|].
  apply rank_of_Some.
Qed.

Lemma for_each_suit_of (l : list string) :
  Forall has_suit l → for_each suit_of l = Ok (suit_char_of <$> l).
Proof.
  intros H. apply for_each_fmap. eapply Forall_impl; [done|].
  apply suit_of_Some.
Qed.

Lemma Forall_filter_keep {A} (P Q : A → Prop) `{∀ x, Decision (Q x)}
    (l : list A) :
  Forall P l → Forall P (filter Q l).
Proof.
  rewrite !Forall_forall. intros Hl x [_ Hx]%list_elem_of_filter. by apply Hl.
Qed.

Lemma max_by_valid (ranks : list ascii) :
  ranks ≠ [] → Forall has_value ranks →
  ∃ r, max_by (fun r => default 0 (RANK_TO_VALUE !! r)) ranks = Ok r ∧
       r ∈ ranks ∧ r ∈ list_ascii_of_string RANKS.
Proof.
  intros Hne Hv. destruct ranks as [|x t]; [done|].
  eexists. split; [done|].
  pose proof (max_from_elem (fun r => default 0 (RANK_TO_VALUE !! r)) x t) as Hin.
  split; [done|].
  rewrite Forall_forall in Hv. specialize (Hv _ Hin).
  apply (bool_decide_eq_true_1 (_ ∈ list_ascii_of_string RANKS)).
  rewrite <-has_value_RANKS. by apply bool_decide_eq_true_2.
Qed.

(** The classifier on cards that have a known rank returns one of its
    labels. *)
Lemma classify_label (cards : list string) (suits : list ascii) :
  cards ≠ [] → Forall has_rank cards →
  Forall has_value (rank_char_of <$> cards) →
  ∃ label,
    classify cards (rank_char_of <$> cards) suits = Ok label ∧ hand_label label.
Proof.
  intros Hne Hrank Hval. unfold classify.
  rewrite for_each_rank_value.
  2:{ rewrite Forall_forall in Hval |- *. intros r Hr.
      by apply Hval, elem_of_remove_dups. }
  rewrite mbind_Ok. cbv beta zeta.
  set (flush_cards := match find_flush_suit (Counter suits) with
                      | Some fs => filter (fun c => String.get 1 c = Some fs) cards
                      | None => []
                      end).
  assert (Forall has_rank flush_cards ∧
          Forall has_value (rank_char_of <$> flush_cards)) as [Hfr Hfv].
  { unfold flush_cards. destruct (find_flush_suit (Counter suits)).
    - split; [by apply Forall_filter_keep|].
      apply Forall_fmap, Forall_filter_keep. by apply Forall_fmap.
    - by split. }
  rewrite (for_each_rank_of flush_cards) by done.
  rewrite mbind_Ok. cbv beta.
  rewrite !get_straight_valid by done.
  assert (∀ l, bool_decide (l ∈ CATEGORY_LABELS) = true →
            ∃ label : string, Ok l = Ok label ∧ hand_label label) as Hfixed.
  { intros l Hl%bool_decide_eq_true_1. exists l. split; [done|by left]. }
  destruct (max_by_valid (rank_char_of <$> cards)) as (r & Hmax & _ & Hr);
    [by destruct cards|done|].
  assert (∃ label,
    (high ← max_by (fun r => default 0 (RANK_TO_VALUE !! r))
                   (rank_char_of <$> cards);
     Ok (String.append "High Card: " (String high EmptyString))) = Ok label ∧
    hand_label label) as Hhigh.
  { rewrite Hmax, mbind_Ok. eexists. split; [done|]. right. by exists r. }
  destruct (bool_decide _ && (5 <=? _)).
  - rewrite mbind_Ok.
    destruct (straight_scan_shape (straight_values (rank_char_of <$> flush_cards)))
      as [-> |[h ->]].
    + repeat (case_match; [by apply Hfixed|]).
      rewrite mbind_Ok.
      destruct (straight_scan (straight_values (rank_char_of <$> cards)))
        as [[] ?]; cbn [fst]; [by apply Hfixed|].
      repeat (case_match; [by apply Hfixed|]).
      exact Hhigh.
    + case_match; by apply Hfixed.
  - rewrite mbind_Ok.
    repeat (case_match; [by apply Hfixed|]).
    rewrite mbind_Ok.
    destruct (straight_scan (straight_values (rank_char_of <$> cards)))
      as [[] ?]; cbn [fst]; [by apply Hfixed|].
    repeat (case_match; [by apply Hfixed|]).
    exact Hhigh.
Qed.

Lemma not_short_has (cards : list string) :
  Forall (fun c => ¬ short c) cards → Forall has_rank cards ∧ Forall has_suit cards.
Proof.
  intros H. split; (eapply Forall_impl; [done|]); intros c Hc; cbn in Hc.
  - apply has_rank_length. unfold short in Hc. lia.
  - by apply has_suit_length.
Qed.

(** X1: on five cards or more [analyze_hand] raises [IndexError] when a
    card string has fewer than two characters, otherwise [KeyError] when
    the first character of a card is not a rank (in either case), and
    otherwise returns one of nine fixed labels or "High Card: " followed by
    a rank.  The suit character is never checked. *)
Theorem analyze_hand_outcome (cards : list string) :
  5 <= len cards →
  (Exists short cards → analyze_hand cards = Raise IndexError) ∧
  (Forall (fun c => ¬ short c) cards →
   Exists (fun c => ¬ first_is_rank c) cards →
   analyze_hand cards = Raise KeyError) ∧
  (Forall (fun c => ¬ short c) cards → Forall first_is_rank cards →
   ∃ label, analyze_hand cards = Ok label ∧ hand_label label).
Proof.
  intros Hlen. rewrite analyze_hand_classify.
  destruct (Z.ltb_spec (len cards) 5) as [?|_]; [lia|].
  assert (cards ≠ []) as Hne by (intros ->; unfold len in Hlen; simpl in Hlen; lia).
  rewrite (for_each_total rank_of rank_char_of IndexError has_rank)
    by auto using rank_of_Some, rank_of_None.
  rewrite (for_each_total suit_of suit_char_of IndexError has_suit)
    by auto using suit_of_Some, suit_of_None.
  split_and!.
  - intros Hshort.
    destruct (bool_decide (Forall has_rank cards)); [|done].
    rewrite mbind_Ok, (bool_decide_eq_false_2 (Forall has_suit _)); [done|].
    intros Hs. apply Exists_exists in Hshort as (c & Hc & Hsh).
    rewrite Forall_forall in Hs. by apply (has_suit_length c); [apply Hs|].
  - intros [Hr Hs]%not_short_has Hbad.
    rewrite (bool_decide_eq_true_2 _ Hr), mbind_Ok.
    rewrite (bool_decide_eq_true_2 _ Hs), mbind_Ok. unfold classify.
    rewrite (for_each_total rank_value value_of KeyError has_value)
      by auto using rank_value_Some, rank_value_None.
    rewrite (bool_decide_eq_false_2 (Forall has_value _)); [done|].
    intros Hv. apply Exists_exists in Hbad as (c & Hc & Hnr).
    rewrite Forall_forall in Hv. rewrite Forall_forall in Hr. apply Hnr.
    apply first_is_rank_value; [by apply Hr|].
    apply Hv, elem_of_remove_dups, list_elem_of_fmap. by exists c.
  - intros [Hr Hs]%not_short_has Hgood.
    rewrite (bool_decide_eq_true_2 _ Hr), mbind_Ok.
    rewrite (bool_decide_eq_true_2 _ Hs), mbind_Ok.
    apply classify_label; [done..|].
    apply Forall_fmap. rewrite Forall_forall in Hgood.
    rewrite Forall_forall in Hr. apply Forall_forall.
    intros c Hc. cbn. apply first_is_rank_value; auto.
Qed.

Lemma analyze_hand_outcome_witness :
  analyze_hand ["As"; "K"; "Qs"; "Js"; "Ts"] = Raise IndexError.
Proof.
  apply (analyze_hand_outcome ["As"; "K"; "Qs"; "Js"; "Ts"]).
  - unfold len. simpl. lia.
  - apply Exists_cons_tl, Exists_cons_hd. unfold short. simpl. lia.
Defined.

(** *** Straights *)

Lemma run_in_cons (v : Z) (t : list Z) (h : Z) :
  Forall (fun b => b < v) t → h ≠ v → run_in (v :: t) h → run_in t h.
Proof.
  intros Hlt Hne Hrun k Hk.
  pose proof (Hrun 0 ltac:(lia)) as H0. rewrite Z.sub_0_r in H0.
  apply elem_of_cons in H0 as [?|H0]; [done|].
  rewrite Forall_forall in Hlt. specialize (Hlt _ H0).
  pose proof (Hrun k Hk) as Hin.
  apply elem_of_cons in Hin as [?|?]; [lia|done].
Qed.

(** On a strictly descending list the scan finds the highest run of five
    consecutive values, if there is one. *)
Lemma straight_scan_spec (l : list Z) :
  strictly_descending l →
  match straight_scan l with
  | (true, Some h) => run_in l h ∧ ∀ h', run_in l h' → h' <= h
  | (false, None) => ∀ h, ¬ run_in l h
  | _ => False
  end.
Proof.
  induction 1 as [|v t Hs IH Hlt].
  - intros h Hrun. specialize (Hrun 0 ltac:(lia)). by apply elem_of_nil in Hrun.
  - cbn [straight_scan].
    assert (∀ h, run_in (v :: t) h → h <= v) as Hmax.
    { intros h Hrun. specialize (Hrun 0 ltac:(lia)). rewrite Z.sub_0_r in Hrun.
      apply elem_of_cons in Hrun as [-> |Hin]; [lia|].
      rewrite Forall_forall in Hlt. specialize (Hlt _ Hin). lia. }
    destruct t as [|a [|b [|c [|w rest]]]]; cbn [lookup list_lookup].
    1-4: intros h Hrun;
      pose proof (Hrun 0 ltac:(lia)) as H0; pose proof (Hrun 1 ltac:(lia)) as H1;
      pose proof (Hrun 2 ltac:(lia)) as H2; pose proof (Hrun 3 ltac:(lia)) as H3;
      pose proof (Hrun 4 ltac:(lia)) as H4;
      rewrite ?elem_of_cons, ?elem_of_nil in H0, H1, H2, H3, H4; lia.
    pose proof Hs as Hs'. pose proof Hlt as Hlt'.
    rewrite !StronglySorted_cons, !Forall_cons in Hs'.
    rewrite !Forall_cons in Hlt'. cbn beta in Hs', Hlt'.
    destruct Hs' as ((Hba & Hca & Hwa & _) & (Hcb & Hwb & _) & (Hwc & _)
                     & Hrest & _).
    destruct Hlt' as (Hav & _).
    assert (∀ x, x ∈ a :: b :: c :: w :: rest →
              x = a ∨ x = b ∨ x = c ∨ x = w ∨ x < w) as Hcase.
    { intros x Hx. rewrite !elem_of_cons in Hx.
      destruct Hx as [?|[?|[?|[?|Hx]]]]; auto.
      do 4 right. rewrite Forall_forall in Hrest. by apply Hrest. }
    destruct (Z.eqb_spec (v - w) 4) as [Heq|Hne].
    + split; [|done]. intros k Hk.
      assert (k = 0 ∨ k = 1 ∨ k = 2 ∨ k = 3 ∨ k = 4) as Hk' by lia.
      rewrite !elem_of_cons.
      destruct Hk' as [-> |[-> |[-> |[-> | ->]]]]; [left|right; left|
        right; right; left|right; right; right; left|
        right; right; right; right; left]; lia.
    + assert (∀ h, run_in (v :: a :: b :: c :: w :: rest) h →
                run_in (a :: b :: c :: w :: rest) h) as Hdown.
      { intros h Hrun. apply (run_in_cons v); [done| |done].
        intros ->.
        assert (∀ k, 1 <= k <= 4 → v - k ∈ a :: b :: c :: w :: rest) as Hin.
        { intros k Hk. pose proof (Hrun k ltac:(lia)) as Hx.
          apply elem_of_cons in Hx as [?|?]; [lia|done]. }
        pose proof (Hcase _ (Hin 1 ltac:(lia))).
        pose proof (Hcase _ (Hin 2 ltac:(lia))).
        pose proof (Hcase _ (Hin 3 ltac:(lia))).
        pose proof (Hcase _ (Hin 4 ltac:(lia))). lia. }
      assert (∀ h, run_in (a :: b :: c :: w :: rest) h →
                run_in (v :: a :: b :: c :: w :: rest) h) as Hup.
      { intros h Hrun k Hk. right. by apply Hrun. }
      destruct (straight_scan (a :: b :: c :: w :: rest)) as [[] [h|]];
        try done.
      * destruct IH as [Hrun Hbest]. split; [by apply Hup|].
        intros h' Hh'. by apply Hbest, Hdown.
      * intros h Hrun. by apply (IH h), Hdown.
Qed.

Lemma value_of_range (r : ascii) : has_value r → 2 <= value_of r <= 14.
Proof.
  intros [v Hv]. unfold value_of. rewrite Hv. cbn. revert Hv.
  ascii_cases r; vm_compute; intros [= <-]; split; discriminate.
Qed.

Lemma strict_of_descending (l : list Z) :
  StronglySorted descending l → NoDup l → strictly_descending l.
Proof.
  unfold strictly_descending.
  induction 1 as [|x l Hs IH Hx]; intros Hn; [constructor|].
  apply NoDup_cons in Hn as [Hx' Hn]. constructor; [by apply IH|].
  rewrite Forall_forall in Hx |- *. intros y Hy.
  specialize (Hx y Hy). unfold descending in Hx.
  assert (y ≠ x) by (by intros ->). lia.
Qed.

Lemma has_wheel_spec (l : list ascii) :
  has_wheel l = true ↔ Forall (fun r => r ∈ l) (list_ascii_of_string "A2345").
Proof.
  unfold has_wheel. rewrite forallb_forall, Forall_forall.
  split; intros H r Hr.
  - apply list_elem_of_In in Hr. specialize (H r Hr).
    by apply bool_decide_eq_true in H.
  - apply bool_decide_eq_true, H. by apply list_elem_of_In.
Qed.

Lemma straight_values_elem (l : list ascii) (v : Z) :
  Forall has_value l → v ∈ straight_values l ↔ present l v.
Proof.
  intros Hl.
  assert (v ∈ sorted_reverse (remove_dups (value_of <$> l))
          ↔ ∃ r, r ∈ l ∧ RANK_TO_VALUE !! r = Some v) as Hval.
  { rewrite sorted_reverse_Permutation, elem_of_remove_dups, list_elem_of_fmap.
    rewrite Forall_forall in Hl. split.
    - intros (r & -> & Hr). exists r. split; [done|].
      destruct (Hl r Hr) as [x Hx]. unfold value_of. by rewrite Hx.
    - intros (r & Hr & Hx). exists r. split; [|done].
      unfold value_of. by rewrite Hx. }
  assert (v ∈ sorted_reverse (remove_dups (value_of <$> l)) → 2 <= v) as Hge.
  { rewrite sorted_reverse_Permutation, elem_of_remove_dups, list_elem_of_fmap.
    intros (r & -> & Hr). rewrite Forall_forall in Hl.
    apply value_of_range. by apply Hl. }
  unfold straight_values, present. rewrite <-has_wheel_spec.
  destruct (has_wheel l).
  - rewrite elem_of_app, list_elem_of_singleton, Hval. split.
    + intros [?|?]; [by left|by right].
    + intros [?|[? _]]; [by left|by right].
  - rewrite Hval. split; [by left|]. by intros [?|[_ ?]].
Qed.

Lemma straight_values_descending (l : list ascii) :
  Forall has_value l → strictly_descending (straight_values l).
Proof.
  intros Hl.
  assert (strictly_descending (sorted_reverse (remove_dups (value_of <$> l))))
    as Hs.
  { apply strict_of_descending.
    - apply Sorted_StronglySorted; [apply _|apply sorted_reverse_Sorted].
    - rewrite sorted_reverse_Permutation. apply NoDup_remove_dups. }
  unfold straight_values. destruct (has_wheel l); [|done].
  unfold strictly_descending.
  apply StronglySorted_app_2; [|exact Hs|repeat constructor].
  - intros x y Hx ->%list_elem_of_singleton.
    rewrite sorted_reverse_Permutation, elem_of_remove_dups,
      list_elem_of_fmap in Hx.
    destruct Hx as (r & -> & Hr). rewrite Forall_forall in Hl.
    pose proof (value_of_range r (Hl r Hr)). lia.
Qed.

Lemma get_straight_runs (ranks_list : list ascii) :
  Forall has_value ranks_list →
  (∀ h, get_straight ranks_list = Ok (true, Some h)
        ↔ run_from ranks_list h ∧ ∀ h', run_from ranks_list h' → h' <= h) ∧
  (get_straight ranks_list = Ok (false, None)
   ↔ ∀ h, ¬ run_from ranks_list h).
Proof.
  intros Hl. rewrite get_straight_valid by done.
  assert (∀ h, run_in (straight_values ranks_list) h ↔ run_from ranks_list h)
    as Hrun.
  { intros h. unfold run_in, run_from. split; intros H k Hk.
    - by apply straight_values_elem, H.
    - by apply straight_values_elem, H. }
  pose proof (straight_scan_spec _ (straight_values_descending _ Hl)) as Hscan.
  destruct (straight_scan (straight_values ranks_list)) as [[] [h0|]];
    try done.
  - destruct Hscan as [Hr Hbest]. split.
    + intros h. split.
      * intros [= <-]. split; [by apply Hrun|].
        intros h' Hh'. by apply Hbest, Hrun.
      * intros [Hh Hmax]. do 3 f_equal. apply Z.le_antisymm.
        -- by apply Hmax, Hrun.
        -- by apply Hbest, Hrun.
    + split; [done|]. intros Hno. destruct (Hno h0). by apply Hrun.
  - split.
    + intros h. split; [done|]. intros [Hh _]. destruct (Hscan h). by apply Hrun.
    + split; [|done]. intros _ h Hh. destruct (Hscan h). by apply Hrun.
Qed.

(** X2: for ranks that are keys of [RANK_TO_VALUE], [get_straight] answers
    [(True, h)] exactly when [h] is the highest value from which five
    consecutive values down are present, the ace counting as 14 and, when
    two to five are present too, as 1; it answers [(False, None)] exactly
    when there is no such run. *)
Theorem get_straight_correct (ranks_list : list ascii) :
  Forall has_value ranks_list →
  (∀ h, get_straight ranks_list = Ok (true, Some h)
        ↔ run_from ranks_list h ∧ ∀ h', run_from ranks_list h' → h' <= h) ∧
  (get_straight ranks_list = Ok (false, None)
   ↔ ∀ h, ¬ run_from ranks_list h).
Proof. apply get_straight_runs. Qed.

Lemma get_straight_correct_witness :
  get_straight (list_ascii_of_string "A2345K") = Ok (true, Some 5)
  ↔ run_from (list_ascii_of_string "A2345K") 5 ∧
    ∀ h', run_from (list_ascii_of_string "A2345K") h' → h' <= 5.
Proof.
  apply (get_straight_correct (list_ascii_of_string "A2345K")).
  apply (bool_decide_unpack _). vm_compute. reflexivity.
Defined.

(** *** What the labels mean *)

Lemma values_elem {K} `{EqDecision K} (l : list K) (n : Z) :
  n ∈ values (Counter l) ↔ ∃ k, k ∈ l ∧ count k l = n.
Proof.
  rewrite Counter_values, list_elem_of_fmap.
  destruct (Counter_keys l) as [_ Hk].
  split; intros (k & ? & ?); exists k; [split; [by apply Hk|done]|].
  split; [done|by apply Hk].
Qed.

Lemma length_filter_fmap {A B} (f : A → B) (P : B → Prop)
    `{∀ y, Decision (P y)} (l : list A) :
  length (filter P (f <$> l)) = length (filter (fun x => P (f x)) l).
Proof.
  induction l as [|x l IH]; [done|].
  rewrite fmap_cons, !filter_cons. destruct (decide (P (f x))); simpl; lia.
Qed.

Lemma two_pairs {K} `{EqDecision K} (l : list K) :
  2 <= len (filter (fun n : Z => n = 2) (values (Counter l))) →
  ∃ k1 k2, k1 ≠ k2 ∧ k1 ∈ l ∧ k2 ∈ l ∧ count k1 l = 2 ∧ count k2 l = 2.
Proof.
  unfold len. rewrite Counter_values, length_filter_fmap.
  destruct (Counter_keys l) as [Hn Hk]. intros Hlen.
  pose proof (NoDup_filter (fun x => count x l = 2) _ Hn) as Hnf.
  destruct (filter (fun x => count x l = 2) (Counter l).*1)
    as [|k1 [|k2 rest]] eqn:E; simpl in Hlen; [lia..|].
  assert (k1 ∈ filter (fun x => count x l = 2) (Counter l).*1) as H1
    by (rewrite E; left).
  assert (k2 ∈ filter (fun x => count x l = 2) (Counter l).*1) as H2
    by (rewrite E; right; left).
  apply list_elem_of_filter in H1 as [? ?%Hk], H2 as [? ?%Hk].
  exists k1, k2. split_and!; try done.
  apply NoDup_cons in Hnf as [Hnot _]. intros ->. apply Hnot. by left.
Qed.

Lemma count_elem {K} `{EqDecision K} (l : list K) (k : K) :
  0 < count k l → k ∈ l.
Proof.
  unfold count. intros H.
  destruct (filter (fun x => x = k) l) as [|x t] eqn:E; [simpl in H; lia|].
  assert (x ∈ filter (fun x => x = k) l) as Hx by (rewrite E; left).
  by apply list_elem_of_filter in Hx as [-> ?].
Qed.

Lemma flush_suit_present (cards : list string) :
  Forall has_suit cards →
  is_Some (find_flush_suit (Counter (suit_char_of <$> cards)))
  ↔ flush_present cards.
Proof.
  intros Hs. unfold flush_present. split.
  - intros [u Hu]. apply find_flush_suit_Some in Hu as [_ Hu].
    exists u. by rewrite <-count_suits.
  - intros [u Hu]. rewrite <-count_suits in Hu by done.
    destruct (find_flush_suit (Counter (suit_char_of <$> cards))) eqn:E;
      [by eexists|].
    pose proof (find_flush_suit_None _ u E) as Hlt.
    assert (u ∈ suit_char_of <$> cards) by (apply count_elem; lia).
    specialize (Hlt ltac:(done)). lia.
Qed.

Lemma rank_test (cards : list string) (n : Z) :
  n ∈ values (Counter (rank_char_of <$> cards)) ↔ rank_occurs cards n.
Proof. apply values_elem. Qed.

Lemma analyze_hand_Ok_inv (cards : list string) (label : string) :
  5 <= len cards → analyze_hand cards = Ok label →
  Forall has_rank cards ∧ Forall has_suit cards ∧
  Forall has_value (rank_char_of <$> cards) ∧
  classify cards (rank_char_of <$> cards) (suit_char_of <$> cards) = Ok label.
Proof.
  intros Hlen. rewrite analyze_hand_classify.
  destruct (Z.ltb_spec (len cards) 5) as [?|_]; [lia|].
  rewrite (for_each_total rank_of rank_char_of IndexError has_rank)
    by auto using rank_of_Some, rank_of_None.
  rewrite (for_each_total suit_of suit_char_of IndexError has_suit)
    by auto using suit_of_Some, suit_of_None.
  destruct (bool_decide (Forall has_rank cards)) eqn:Hr; [|done].
  destruct (bool_decide (Forall has_suit cards)) eqn:Hs; [|done].
  apply bool_decide_eq_true in Hr, Hs. rewrite !mbind_Ok. intros H.
  split_and!; [done..| |done].
  unfold classify in H.
  rewrite (for_each_total rank_value value_of KeyError has_value) in H
    by auto using rank_value_Some, rank_value_None.
  destruct (bool_decide (Forall has_value (remove_dups _))) eqn:Hv; [|done].
  apply bool_decide_eq_true in Hv.
  rewrite Forall_forall in Hv. apply Forall_forall. intros r Hr'.
  by apply Hv, elem_of_remove_dups.
Qed.

Ltac other_label := let H := fresh in intros H; discriminate H.

(** What a label says about the cards. *)
Lemma classify_sound (cards : list string) (label : string) :
  Forall has_rank cards → Forall has_suit cards →
  Forall has_value (rank_char_of <$> cards) →
  classify cards (rank_char_of <$> cards) (suit_char_of <$> cards) = Ok label →
  (label = "Royal Flush" ∨ label = "Straight Flush" →
   ∃ fs h, 5 <= suit_count fs cards ∧
     run_from (rank_char_of <$> filter (fun c => String.get 1 c = Some fs) cards) h ∧
     (label = "Royal Flush" ↔ h = 14)) ∧
  (label = "Four of a Kind" → rank_occurs cards 4) ∧
  (label = "Full House" → rank_occurs cards 3 ∧ rank_occurs cards 2) ∧
  (label = "Flush" → flush_present cards) ∧
  (label = "Straight" → straight_present cards) ∧
  (label = "Three of a Kind" → rank_occurs cards 3) ∧
  (label = "Two Pair" →
   ∃ r1 r2, r1 ≠ r2 ∧ count r1 (rank_char_of <$> cards) = 2
            ∧ count r2 (rank_char_of <$> cards) = 2) ∧
  (label = "Pair" → rank_occurs cards 2) ∧
  (label ∉ CATEGORY_LABELS →
   ¬ rank_occurs cards 4 ∧ ¬ rank_occurs cards 3 ∧ ¬ rank_occurs cards 2 ∧
   ¬ flush_present cards ∧ ¬ straight_present cards).
Proof.
  intros Hrank Hsuit Hval. unfold classify.
  rewrite for_each_rank_value.
  2:{ rewrite Forall_forall in Hval |- *. intros r Hr.
      by apply Hval, elem_of_remove_dups. }
  rewrite mbind_Ok. cbv beta zeta.
  pose proof (flush_suit_present cards Hsuit) as Hflush.
  pose proof (fun fs => find_flush_suit_Some (suit_char_of <$> cards) fs) as Hfs.
  destruct (find_flush_suit (Counter (suit_char_of <$> cards))) as [fs|].
  - (* a flush suit *)
    set (flush_cards := filter (fun c => String.get 1 c = Some fs) cards).
    assert (Forall has_rank flush_cards) as Hfr
      by (by apply Forall_filter_keep).
    assert (Forall has_value (rank_char_of <$> flush_cards)) as Hfv.
    { apply Forall_fmap, Forall_filter_keep. by apply Forall_fmap. }
    rewrite (for_each_rank_of flush_cards) by done.
    rewrite mbind_Ok. cbv beta.
    destruct (Hfs fs eq_refl) as [_ Hcount]. rewrite count_suits in Hcount by done.
    assert (flush_present cards) as Hfp by (by exists fs).
    destruct (get_straight_runs _ Hfv) as [Htrue Hfalse].
    rewrite (get_straight_valid _ Hfv) in Htrue, Hfalse |- *.
    destruct (bool_decide (is_Some (Some fs)) && (5 <=? len _)).
    + rewrite mbind_Ok.
      destruct (straight_scan_shape (straight_values (rank_char_of <$> flush_cards)))
        as [-> |[h Hh]].
      * destruct (bool_decide (4 ∈ _)) eqn:H4.
        { intros [= <-]. apply bool_decide_eq_true, rank_test in H4.
          split_and!; try other_label; try done.
          - by intros [?|?].
          - intros Hn. destruct Hn. apply (bool_decide_unpack _). by vm_compute. }
        destruct (bool_decide (3 ∈ _) && bool_decide (2 ∈ _)) eqn:H32.
        { intros [= <-]. apply andb_true_iff in H32 as [H3 H2].
          apply bool_decide_eq_true, rank_test in H3, H2.
          split_and!; try other_label; try done.
          - by intros [?|?].
          - intros Hn. destruct Hn. apply (bool_decide_unpack _). by vm_compute. }
        rewrite bool_decide_eq_true_2 by (by eexists).
        intros [= <-]. split_and!; try other_label; try done.
        -- by intros [?|?].
        -- intros Hn. destruct Hn. apply (bool_decide_unpack _). by vm_compute.
      * rewrite Hh. pose proof (proj1 (Htrue h) (f_equal Ok Hh)) as [Hrun _].
        destruct (bool_decide (Some h = Some 14)) eqn:E14.
        -- apply bool_decide_eq_true in E14 as [= ->].
           intros [= <-]. split_and!; try other_label.
           ++ intros _. exists fs, 14. done.
           ++ intros Hn. destruct Hn. apply (bool_decide_unpack _). by vm_compute.
        -- apply bool_decide_eq_false in E14.
           intros [= <-]. split_and!; try other_label.
           ++ intros _. exists fs, h. split_and!; [done..|].
              split; [done|]. intros ->. done.
           ++ intros Hn. destruct Hn. apply (bool_decide_unpack _). by vm_compute.
    + rewrite mbind_Ok.
      destruct (bool_decide (4 ∈ _)) eqn:H4.
      { intros [= <-]. apply bool_decide_eq_true, rank_test in H4.
        split_and!; try other_label; try done.
        - by intros [?|?].
        - intros Hn. destruct Hn. apply (bool_decide_unpack _). by vm_compute. }
      destruct (bool_decide (3 ∈ _) && bool_decide (2 ∈ _)) eqn:H32.
      { intros [= <-]. apply andb_true_iff in H32 as [H3 H2].
        apply bool_decide_eq_true, rank_test in H3, H2.
        split_and!; try other_label; try done.
        - by intros [?|?].
        - intros Hn. destruct Hn. apply (bool_decide_unpack _). by vm_compute. }
      rewrite bool_decide_eq_true_2 by (by eexists).
      intros [= <-]. split_and!; try other_label; try done.
      -- by intros [?|?].
      -- intros Hn. destruct Hn. apply (bool_decide_unpack _). by vm_compute.
  - (* no flush suit *)
    assert (¬ flush_present cards) as Hnf.
    { intros Hp. apply Hflush in Hp. by destruct Hp. }
    cbn [for_each andb bool_decide]. rewrite !mbind_Ok.
    rewrite (bool_decide_eq_false_2 (is_Some None)) by (by intros [? ?]).
    cbn [andb]. rewrite mbind_Ok.
    destruct (get_straight_runs _ Hval) as [Htrue Hfalse].
    rewrite (get_straight_valid _ Hval) in Htrue, Hfalse |- *.
    destruct (bool_decide (4 ∈ _)) eqn:H4.
    { intros [= <-]. apply bool_decide_eq_true, rank_test in H4.
      split_and!; try other_label; try done.
      - by intros [?|?].
      - intros Hn. destruct Hn. apply (bool_decide_unpack _). by vm_compute. }
    apply bool_decide_eq_false in H4. rewrite rank_test in H4.
    destruct (bool_decide (3 ∈ _) && bool_decide (2 ∈ _)) eqn:H32.
    { intros [= <-]. apply andb_true_iff in H32 as [H3 H2].
      apply bool_decide_eq_true, rank_test in H3, H2.
      split_and!; try other_label; try done.
      - by intros [?|?].
      - intros Hn. destruct Hn. apply (bool_decide_unpack _). by vm_compute. }
    rewrite mbind_Ok.
    destruct (straight_scan_shape (straight_values (rank_char_of <$> cards)))
      as [Hst|[h Hh]].
    + rewrite Hst. cbn [fst].
      assert (¬ straight_present cards) as Hns.
      { intros [h Hh]. by apply (proj1 Hfalse (f_equal Ok Hst) h). }
      destruct (bool_decide (3 ∈ _)) eqn:H3.
      { intros [= <-]. apply bool_decide_eq_true, rank_test in H3.
        split_and!; try other_label; try done.
        - by intros [?|?].
        - intros Hn. destruct Hn. apply (bool_decide_unpack _). by vm_compute. }
      apply bool_decide_eq_false in H3. rewrite rank_test in H3.
      destruct (2 <=? len _) eqn:Htp.
      { intros [= <-]. apply Z.leb_le, two_pairs in Htp
          as (r1 & r2 & ? & _ & _ & ? & ?).
        split_and!; try other_label; try done.
        - by intros [?|?].
        - intros _. by exists r1, r2.
        - intros Hn. destruct Hn. apply (bool_decide_unpack _). by vm_compute. }
      destruct (bool_decide (2 ∈ _)) eqn:H2.
      { intros [= <-]. apply bool_decide_eq_true, rank_test in H2.
        split_and!; try other_label; try done.
        - by intros [?|?].
        - intros Hn. destruct Hn. apply (bool_decide_unpack _). by vm_compute. }
      apply bool_decide_eq_false in H2. rewrite rank_test in H2.
      destruct (max_by _ _) as [r|e]; [|done]. rewrite mbind_Ok.
      intros [= <-]. split_and!; try other_label; try done.
      by intros [?|?].
    + rewrite Hh. cbn [fst]. intros [= <-].
      split_and!; try other_label; try done.
      * by intros [?|?].
      * intros _. exists h. by apply (proj1 (Htrue h) (f_equal Ok Hh)).
      * intros Hn. destruct Hn. apply (bool_decide_unpack _). by vm_compute.
Qed.

(** X3: a label returned for five cards or more tells the pattern it
    names: a rank that occurs four times for "Four of a Kind", ranks that
    occur three times and twice for "Full House", a suit with five cards
    for "Flush", five consecutive values for "Straight", and so on; a
    straight or royal flush comes with five cards of one suit whose ranks
    hold a run, royal exactly when the run ends at the ace; and a
    "High Card" label tells that no rank occurs two, three or four times,
    no suit has five cards and there is no run. *)
Theorem analyze_hand_sound (cards : list string) (label : string) :
  5 <= len cards → analyze_hand cards = Ok label →
  (label = "Royal Flush" ∨ label = "Straight Flush" →
   ∃ fs h, 5 <= suit_count fs cards ∧
     run_from (rank_char_of <$> filter (fun c => String.get 1 c = Some fs) cards) h ∧
     (label = "Royal Flush" ↔ h = 14)) ∧
  (label = "Four of a Kind" → rank_occurs cards 4) ∧
  (label = "Full House" → rank_occurs cards 3 ∧ rank_occurs cards 2) ∧
  (label = "Flush" → flush_present cards) ∧
  (label = "Straight" → straight_present cards) ∧
  (label = "Three of a Kind" → rank_occurs cards 3) ∧
  (label = "Two Pair" →
   ∃ r1 r2, r1 ≠ r2 ∧ count r1 (rank_char_of <$> cards) = 2
            ∧ count r2 (rank_char_of <$> cards) = 2) ∧
  (label = "Pair" → rank_occurs cards 2) ∧
  (label ∉ CATEGORY_LABELS →
   ¬ rank_occurs cards 4 ∧ ¬ rank_occurs cards 3 ∧ ¬ rank_occurs cards 2 ∧
   ¬ flush_present cards ∧ ¬ straight_present cards).
Proof.
  intros Hlen H.
  destruct (analyze_hand_Ok_inv _ _ Hlen H) as (Hr & Hs & Hv & Hc).
  by apply classify_sound.
Qed.

Lemma analyze_hand_sound_witness :
  rank_occurs ["As"; "Ad"; "Ah"; "Ks"; "Kd"; "2c"] 3 ∧
  rank_occurs ["As"; "Ad"; "Ah"; "Ks"; "Kd"; "2c"] 2.
Proof.
  assert (5 <= len ["As"; "Ad"; "Ah"; "Ks"; "Kd"; "2c"]) as Hlen
    by (unfold len; simpl; lia).
  assert (analyze_hand ["As"; "Ad"; "Ah"; "Ks"; "Kd"; "2c"] = Ok "Full House")
    as H by (vm_compute; reflexivity).
  destruct (analyze_hand_sound _ _ Hlen H) as (_ & _ & Hfh & _).
  by apply Hfh.
Defined.

(** *** What the classifier reads of a card *)

Lemma for_each_Forall2 {A B} (f : A → result B) (l l' : list A) :
  Forall2 (fun x y => f x = f y) l l' → for_each f l = for_each f l'.
Proof.
  induction 1 as [|x y l l' Hxy _ IH]; [done|]. cbn. by rewrite Hxy, IH.
Qed.

Lemma suit_of_get (c c' : string) :
  String.get 1 c = String.get 1 c' → suit_of c = suit_of c'.
Proof. unfold suit_of, index. by intros ->. Qed.

Lemma flush_ranks_same (fs : ascii) (l l' : list string) :
  Forall2 same_reading l l' →
  for_each rank_of (filter (fun c => String.get 1 c = Some fs) l)
  = for_each rank_of (filter (fun c => String.get 1 c = Some fs) l').
Proof.
  induction 1 as [|c c' l l' [Hr Hs] _ IH]; [done|].
  rewrite !filter_cons, <-Hs.
  destruct (decide (String.get 1 c = Some fs)); [|done].
  cbn. by rewrite Hr, IH.
Qed.

(** X4: [analyze_hand] reads of each card only its first character, up to
    case, and its second character: two lists of cards that agree on these
    get the same result. *)
Theorem analyze_hand_reads_two_characters (cards cards' : list string) :
  Forall2 same_reading cards cards' →
  analyze_hand cards = analyze_hand cards'.
Proof.
  intros H. rewrite !analyze_hand_classify.
  replace (len cards') with (len cards)
    by (unfold len; by rewrite (Forall2_length _ _ _ H)).
  destruct (len cards <? 5); [done|].
  rewrite <-(for_each_Forall2 rank_of cards cards')
    by (eapply Forall2_impl; [done|]; by intros ?? [? _]).
  rewrite <-(for_each_Forall2 suit_of cards cards')
    by (eapply Forall2_impl; [done|]; intros ?? [_ ?]; by apply suit_of_get).
  destruct (for_each rank_of cards) as [ranks|]; [|done].
  destruct (for_each suit_of cards) as [suits|]; [|done].
  rewrite !mbind_Ok. unfold classify. cbv zeta.
  destruct (find_flush_suit (Counter suits)) as [fs|]; [|done].
  by rewrite (flush_ranks_same fs cards cards' H).
Qed.

Lemma analyze_hand_reads_two_characters_witness :
  analyze_hand ["As"; "Ks"; "Qs"; "Js"; "Ts"]
  = analyze_hand ["as (ace)"; "ks"; "qs"; "js"; "ts"].
Proof.
  apply analyze_hand_reads_two_characters.
  repeat (constructor; [by split|]). constructor.
Defined.

Lemma lower_char_idemp (c : ascii) : lower_char (lower_char c) = lower_char c.
Proof. ascii_cases c; by vm_compute. Qed.

Lemma run_from_nonempty (l : list ascii) (h : Z) : run_from l h → l ≠ [].
Proof.
  intros Hrun ->. destruct (Hrun 0 ltac:(lia)) as [(r & Hr & _)|[_ Hw]].
  - by apply elem_of_nil in Hr.
  - apply Forall_cons in Hw as [Hr _]. by apply elem_of_nil in Hr.
Qed.

(** X5: the suit with five cards is found among the suit characters in
    lower case, but its cards are then selected by their suit character
    as written.  So when no card has its suit character in lower case, no
    hand is labelled "Straight Flush" or "Royal Flush". *)
Theorem analyze_hand_upper_case_suits (cards : list string) :
  Forall suit_not_lower cards →
  analyze_hand cards ≠ Ok "Royal Flush" ∧
  analyze_hand cards ≠ Ok "Straight Flush".
Proof.
  intros Hup.
  assert (∀ label, label = "Royal Flush" ∨ label = "Straight Flush" →
            analyze_hand cards ≠ Ok label) as Hno.
  { intros label Hl H.
    destruct (Z.ltb_spec (len cards) 5) as [Hlt|Hge].
    { rewrite analyze_hand_classify in H.
      destruct (Z.ltb_spec (len cards) 5) as [_|?]; [|lia].
      destruct Hl as [-> | ->]; discriminate H. }
    destruct (analyze_hand_Ok_inv _ _ Hge H) as (Hr & Hs & Hv & Hc).
    destruct (classify_sound _ _ Hr Hs Hv Hc) as [Hsf _].
    destruct (Hsf Hl) as (fs & h & Hcount & Hrun & _).
    apply run_from_nonempty in Hrun.
    destruct (filter (fun c => String.get 1 c = Some fs) cards) as [|c t] eqn:E;
      [done|].
    assert (c ∈ filter (fun c => String.get 1 c = Some fs) cards) as Hc'
      by (rewrite E; left).
    apply list_elem_of_filter in Hc' as [Hget Hin].
    unfold suit_count, len in Hcount.
    destruct (filter (fun c => suit_of c = Ok fs) cards) as [|c2 t2] eqn:E2;
      [simpl in Hcount; lia|].
    assert (c2 ∈ filter (fun c => suit_of c = Ok fs) cards) as Hc2
      by (rewrite E2; left).
    apply list_elem_of_filter in Hc2 as [Hsuit _].
    unfold suit_of, index in Hsuit.
    destruct (String.get 1 c2) as [u|]; [|done]. cbn in Hsuit.
    injection Hsuit as <-.
    rewrite Forall_forall in Hup. apply (Hup c Hin _ Hget).
    apply lower_char_idemp. }
  split; apply Hno; auto.
Qed.

Lemma analyze_hand_upper_case_suits_witness :
  analyze_hand ["AS"; "KS"; "QS"; "JS"; "TS"] ≠ Ok "Royal Flush" ∧
  analyze_hand ["AS"; "KS"; "QS"; "JS"; "TS"] ≠ Ok "Straight Flush".
Proof.
  apply analyze_hand_upper_case_suits.
  repeat (constructor; [intros u [= <-]; by vm_compute|]). constructor.
Defined.

(** *** Conversion to the library's cards *)

Lemma rank_lookup_fails (r : ascii) :
  bool_decide (rank_char r) = false →
  getitem CHAR_RANK_TO_INT_RANK (upper_char r) = Raise KeyError.
Proof. ascii_cases r; intros H; first [discriminate H | by vm_compute]. Qed.

Lemma suit_lookup_fails (u : ascii) :
  bool_decide (suit_char u) = false →
  getitem CHAR_SUIT_TO_INT_SUIT (lower_char u) = Raise KeyError.
Proof. ascii_cases u; intros H; first [discriminate H | by vm_compute]. Qed.

Lemma getitem_raise {K V} `{Countable K} (m : gmap K V) (k : K) e :
  getitem m k = Raise e → e = KeyError.
Proof. unfold getitem. destruct (m !! k); congruence. Qed.

Lemma to_deuces_chars :
  Forall (fun r => Forall (fun u =>
     Card_new (String (upper_char r) (String (lower_char u) EmptyString))
     = Ok (card_of (String (upper_char r) (String (lower_char u) EmptyString)))
     ∧ card_of (String (upper_char r) (String (lower_char u) EmptyString))
       ∈ FULL_DECK
     ∧ String (upper_char r) (String (lower_char u) EmptyString) ∈ CARD_CODES)
     (list_ascii_of_string "shdcSHDC"))
     (list_ascii_of_string "23456789TJQKAtjqka").
Proof. apply (bool_decide_unpack _). by vm_compute. Qed.

Lemma to_deuces_unfold (r u : ascii) (rest : string) :
  to_deuces (String r (String u rest))
  = Card_new (String (upper_char r) (String (lower_char u) EmptyString)).
Proof. reflexivity. Qed.

Lemma to_deuces_valid (c : string) :
  starts_with_card c →
  to_deuces c = Ok (card_of (menu_code c)) ∧
  card_of (menu_code c) ∈ FULL_DECK ∧ menu_code c ∈ CARD_CODES.
Proof.
  intros (r & u & rest & -> & Hr & Hu). rewrite to_deuces_unfold.
  unfold menu_code. cbn [String.get default].
  pose proof to_deuces_chars as H.
  rewrite Forall_forall in H. specialize (H r Hr).
  rewrite Forall_forall in H. exact (H u Hu).
Qed.

Lemma to_deuces_invalid (r u : ascii) (rest : string) :
  ¬ (rank_char r ∧ suit_char u) →
  to_deuces (String r (String u rest)) = Raise KeyError.
Proof.
  intros Hno. rewrite to_deuces_unfold. unfold Card_new. cbn [index String.get].
  rewrite !mbind_Ok.
  destruct (bool_decide (rank_char r)) eqn:Hr.
  - destruct (bool_decide (suit_char u)) eqn:Hu.
    { apply bool_decide_eq_true in Hr, Hu. by destruct Hno. }
    rewrite (suit_lookup_fails u Hu).
    destruct (getitem CHAR_RANK_TO_INT_RANK (upper_char r)) as [ri|e] eqn:E;
      [done|]. by rewrite (getitem_raise _ _ _ E).
  - by rewrite (rank_lookup_fails r Hr).
Qed.

(** X6: [to_deuces] raises [IndexError] on a string of fewer than two
    characters, [KeyError] when the first two characters are not a rank
    and a suit (in either case), and otherwise returns a card of the full
    deck, the one of the menu code with the same rank and suit; the
    characters after the second are ignored. *)
Theorem to_deuces_outcome (c : string) :
  (short c → to_deuces c = Raise IndexError) ∧
  (¬ short c → ¬ starts_with_card c → to_deuces c = Raise KeyError) ∧
  (starts_with_card c →
   to_deuces c = Ok (card_of (menu_code c)) ∧
   card_of (menu_code c) ∈ FULL_DECK ∧ menu_code c ∈ CARD_CODES ∧
   to_deuces (menu_code c) = to_deuces c).
Proof.
  split_and!.
  - unfold short. destruct c as [|r [|u rest]]; simpl; [done|done|lia].
  - unfold short. destruct c as [|r [|u rest]]; simpl; [lia|lia|].
    intros _ Hno. apply to_deuces_invalid. intros [Hr Hu].
    apply Hno. by exists r, u, rest.
  - intros Hc. destruct (to_deuces_valid c Hc) as (Ht & Hin & Hm).
    split_and!; [done..|]. rewrite Ht.
    destruct Hc as (r & u & rest & -> & Hr & Hu).
    pose proof to_deuces_chars as H.
    rewrite Forall_forall in H. specialize (H r Hr).
    rewrite Forall_forall in H. destruct (H u Hu) as (_ & _ & Hmenu).
    unfold menu_code. cbn [String.get default].
    exact (proj1 (to_deuces_menu _ Hmenu)).
Qed.

Lemma parse_result_starts_with_card (s c : string) :
  parse_card s = Some c → starts_with_card c ∧ menu_code c ∈ CARD_CODES.
Proof.
  intros [(r & u & Hs & Hr & Hu) ->]%parse_card_iff. rewrite Hs. cbn [lower].
  assert (rank_char (lower_char r)) as Hr'.
  { apply (bool_decide_unpack _). revert Hr.
    rewrite <-(bool_decide_spec (rank_char r)).
    ascii_cases r; intros H; first [discriminate H | by vm_compute]. }
  assert (suit_char (lower_char u)) as Hu'.
  { apply (bool_decide_unpack _). revert Hu.
    rewrite <-(bool_decide_spec (suit_char u)).
    ascii_cases u; intros H; first [discriminate H | by vm_compute]. }
  assert (starts_with_card (String (lower_char r) (String (lower_char u) "")))
    as Hc by (by eexists _, _, _).
  split; [done|]. by apply to_deuces_valid.
Qed.

Lemma lower_menu_code_canonical :
  Forall (fun c => lower (menu_code c) = c) CANONICAL_CARDS.
Proof. apply (bool_decide_unpack _). by vm_compute. Qed.

(** X7: on texts over the code points 0 to 255, which are the strings of
    this development, the cards that [parse_card] returns and the cards
    of the full deck correspond one to one under [to_deuces]: every parse
    result converts to a card of the full deck, two parse results that
    convert to the same card are equal, and every card of the full deck is
    the conversion of a parse result.  (Beyond U+00FF the pattern of
    [parse_card] also matches U+017F for the suit s, which [to_deuces]
    does not convert.) *)
Theorem parse_then_to_deuces :
  (∀ s c, parse_card s = Some c →
          ∃ k, to_deuces c = Ok k ∧ k ∈ FULL_DECK) ∧
  (∀ s1 s2 c1 c2 k,
     parse_card s1 = Some c1 → parse_card s2 = Some c2 →
     to_deuces c1 = Ok k → to_deuces c2 = Ok k → c1 = c2) ∧
  (∀ k, k ∈ FULL_DECK →
        ∃ c, parse_card c = Some c ∧ to_deuces c = Ok k).
Proof.
  split_and!.
  - intros s c [Hc _]%parse_result_starts_with_card.
    destruct (to_deuces_valid c Hc) as (? & ? & _). by eexists.
  - intros s1 s2 c1 c2 k H1 H2 E1 E2.
    assert (c1 ∈ CANONICAL_CARDS ∧ c2 ∈ CANONICAL_CARDS) as [Hc1 Hc2].
    { split.
      - apply parse_card_iff in H1 as [(r & u & -> & Hr & Hu) ->].
        pose proof canonical_of_chars as H.
        rewrite Forall_forall in H. specialize (H r Hr).
        rewrite Forall_forall in H. by apply H.
      - apply parse_card_iff in H2 as [(r & u & -> & Hr & Hu) ->].
        pose proof canonical_of_chars as H.
        rewrite Forall_forall in H. specialize (H r Hr).
        rewrite Forall_forall in H. by apply H. }
    apply parse_result_starts_with_card in H1 as [S1 M1], H2 as [S2 M2].
    destruct (to_deuces_valid c1 S1) as (T1 & _).
    destruct (to_deuces_valid c2 S2) as (T2 & _).
    assert (menu_code c1 = menu_code c2) as Hm.
    { apply (NoDup_fmap_inj_on card_of CARD_CODES);
        [apply card_of_menu_NoDup|done..|congruence]. }
    pose proof lower_menu_code_canonical as Hl. rewrite Forall_forall in Hl.
    rewrite <-(Hl c1 Hc1), <-(Hl c2 Hc2). by rewrite Hm.
  - intros k Hk.
    assert (Forall (fun k => k ∈ card_of <$> CANONICAL_CARDS) FULL_DECK) as Hall
      by (apply (bool_decide_unpack _); by vm_compute).
    assert (Forall (fun c => to_deuces c = Ok (card_of c)) CANONICAL_CARDS)
      as Hconv by (apply (bool_decide_unpack _); by vm_compute).
    rewrite Forall_forall in Hall. rewrite Forall_forall in Hconv.
    apply Hall, list_elem_of_fmap in Hk as (c & -> & Hc).
    exists c. split; [|by apply Hconv].
    pose proof canonical_fixed as Hfix. rewrite Forall_forall in Hfix.
    by apply Hfix.
Qed.

(** *** The strength label of the library *)

Lemma for_each_to_deuces (l : list string) :
  Forall starts_with_card l → for_each to_deuces l = Ok (deuces_card <$> l).
Proof.
  intros H. apply for_each_fmap. eapply Forall_impl; [done|].
  intros c Hc. by destruct (to_deuces_valid c Hc) as [-> _].
Qed.

Lemma class_to_string_names :
  Forall (fun k => ∃ name, class_to_string k = Ok name ∧ name ∈ HAND_CLASS_NAMES)
         (seqZ 1 9).
Proof.
  repeat (constructor;
          [eexists; split; [by vm_compute|
                            apply (bool_decide_unpack _); by vm_compute]|]).
  constructor.
Qed.

Lemma class_to_string_ok (k : Z) :
  1 <= k <= 9 →
  ∃ name, class_to_string k = Ok name ∧ name ∈ HAND_CLASS_NAMES.
Proof.
  intros Hk. pose proof class_to_string_names as H.
  rewrite Forall_forall in H. apply H, elem_of_seqZ. lia.
Qed.

(** X8: on cards that start with a rank and a suit,
    [deuces_hand_strength] raises [KeyError] unless hand and board hold
    five to seven cards together; with five to seven cards it names the
    rank class of the evaluated rank, one of the nine category names, when
    the rank lies in the library's range, and raises [Exception] when the
    rank is above it. *)
Theorem deuces_hand_strength_outcome
    ev (hand_cards board_cards : list string) :
  Forall starts_with_card (hand_cards ++ board_cards) →
  (¬ (5 <= len board_cards + len hand_cards <= 7) →
   deuces_hand_strength ev hand_cards board_cards = Raise KeyError) ∧
  (5 <= len board_cards + len hand_cards <= 7 →
   ∀ rank,
     rank = ev ((deuces_card <$> board_cards) ++ (deuces_card <$> hand_cards))%list →
     (0 <= rank <= MAX_HIGH_CARD →
      ∃ k name, get_rank_class rank = Ok k ∧ class_to_string k = Ok name ∧
                deuces_hand_strength ev hand_cards board_cards = Ok name ∧
                name ∈ HAND_CLASS_NAMES) ∧
     (MAX_HIGH_CARD < rank →
      deuces_hand_strength ev hand_cards board_cards = Raise Exception)).
Proof.
  intros [Hh Hb]%Forall_app. unfold deuces_hand_strength.
  rewrite !for_each_to_deuces by done. rewrite !mbind_Ok.
  assert (len ((deuces_card <$> board_cards) ++ (deuces_card <$> hand_cards))
          = len board_cards + len hand_cards) as Hlen
    by (unfold len; rewrite length_app, !length_fmap; lia).
  unfold evaluate. rewrite Hlen. split.
  - intros Hno.
    destruct (Z.leb_spec 5 (len board_cards + len hand_cards)),
             (Z.leb_spec (len board_cards + len hand_cards) 7);
      try done; lia.
  - intros Hsize rank ->.
    destruct (Z.leb_spec 5 (len board_cards + len hand_cards)); [|lia].
    destruct (Z.leb_spec (len board_cards + len hand_cards) 7); [|lia].
    cbn [andb]. rewrite mbind_Ok. split.
    + intros Hr. destruct (get_rank_class_range _ Hr) as (k & Hk & Hk9).
      destruct (class_to_string_ok k Hk9) as (name & Hn & Hin).
      exists k, name. rewrite Hk, mbind_Ok. done.
    + intros Hr. unfold get_rank_class, MAX_HIGH_CARD, MAX_PAIR, MAX_TWO_PAIR,
        MAX_THREE_OF_A_KIND, MAX_STRAIGHT, MAX_FLUSH, MAX_FULL_HOUSE,
        MAX_FOUR_OF_A_KIND, MAX_STRAIGHT_FLUSH in *.
      repeat (case_match; [lia|]). done.
Qed.

Lemma deuces_hand_strength_outcome_witness :
  deuces_hand_strength sum_evaluator ["As"; "Kd"] ["2c"; "3c"] = Raise KeyError.
Proof.
  apply (deuces_hand_strength_outcome sum_evaluator ["As"; "Kd"] ["2c"; "3c"]).
  - repeat (constructor;
            [eexists _, _, _; split; [reflexivity|];
             split; apply (bool_decide_unpack _); vm_compute; reflexivity|]).
    constructor.
  - unfold len. simpl. lia.
Defined.

(** *** The tallies of the distributions *)

Lemma sum_values_incr (counts : gmap Z Z) (k n : Z) :
  counts !! k = Some n →
  sum_values (<[k := n + 1]> counts) = sum_values counts + 1.
Proof.
  intros Hk. unfold sum_values.
  rewrite (map_fold_delete_L _ _ k n counts); [|intros; lia|done].
  rewrite <-(insert_delete_eq counts).
  rewrite map_fold_insert_L; [lia|intros; lia|apply lookup_delete_eq].
Qed.

Lemma zero_counts_tally : tally_ok zero_counts ∧ sum_values zero_counts = 0.
Proof.
  split; [split|by vm_compute].
  - intros k. split.
    + intros [n Hn]. unfold zero_counts in Hn.
      apply elem_of_list_to_map_2, list_elem_of_fmap in Hn
        as (i & [= -> _] & Hi).
      apply elem_of_seqZ in Hi. lia.
    + intros Hk. assert (k ∈ seqZ 1 9) as Hin by (apply elem_of_seqZ; lia).
      revert k Hin Hk.
      refine (proj1 (Forall_forall
                       (fun k => 1 <= k <= 9 → is_Some (zero_counts !! k))
                       (seqZ 1 9)) _).
      repeat (constructor; [intros _; eexists; by vm_compute|]). constructor.
  - intros k n Hn. unfold zero_counts in Hn.
    apply elem_of_list_to_map_2, list_elem_of_fmap in Hn as (i & [= _ ->] & _).
    done.
Qed.

Lemma incr_tally (counts : gmap Z Z) (k : Z) :
  tally_ok counts → 1 <= k <= 9 →
  ∃ counts', incr counts k = Ok counts' ∧ tally_ok counts' ∧
             sum_values counts' = sum_values counts + 1.
Proof.
  intros [Hkeys Hpos] Hk. unfold incr, getitem.
  destruct (proj2 (Hkeys k) Hk) as [n Hn]. rewrite Hn, mbind_Ok.
  eexists. split; [done|]. split; [split|by apply sum_values_incr].
  - intros j. destruct (decide (k = j)) as [<-|?].
    + rewrite lookup_insert_eq. split; [done|by eexists].
    + rewrite lookup_insert_ne by done. apply Hkeys.
  - intros j m. destruct (decide (k = j)) as [<-|?].
    + rewrite lookup_insert_eq. intros [= <-]. specialize (Hpos _ _ Hn). lia.
    + rewrite lookup_insert_ne by done. apply Hpos.
Qed.

Lemma distribution_trial_ok ev hand_cards board_cards deck :
  deal_ok hand_cards board_cards → ranks_in_range ev →
  deck ≡ₚ FULL_DECK →
  ∃ k rest,
    distribution_trial ev hand_cards board_cards
      (card_of <$> hand_cards) (card_of <$> board_cards) deck = Ok (k, rest) ∧
    1 <= k <= 9.
Proof.
  intros Hok Hev Hp.
  destruct (deal_ok_sizes _ _ Hok) as (Hh & Hb & Hlen).
  destruct Hok as (_ & _ & Hc & Hn).
  destruct (deck_after_known _ _ Hc Hn Hp) as (d1 & Hr & Hl1).
  pose proof (complete_board_ok (card_of <$> board_cards) d1) as Hcb.
  rewrite length_fmap in Hcb.
  destruct Hcb as (sim_board & Hcb & Hsb); [done|lia|].
  destruct (get_rank_class_range _ (Hev (sim_board ++ (card_of <$> hand_cards))%list))
    as (k & Hk & Hk9).
  exists k, (drop (5 - length board_cards) d1). split; [|done].
  unfold distribution_trial, bindD. rewrite Hr, Hcb. unfold lift.
  rewrite evaluate_ok by (rewrite length_fmap; lia). by rewrite Hk.
Qed.

Lemma hand_distribution_tally
    ev (hand_cards board_cards : list string) (num_trials : Z)
    (shuffle : nat → list card) :
  deal_ok hand_cards board_cards → ranks_in_range ev → 0 <= num_trials →
  (∀ i, shuffle i ≡ₚ FULL_DECK) →
  ∃ counts,
    monte_carlo_hand_distribution ev hand_cards board_cards num_trials shuffle
    = Ok counts ∧
    tally_ok counts ∧ sum_values counts = num_trials.
Proof.
  intros Hok Hev Hnt Hsh.
  pose proof Hok as (_ & _ & Hc & Hn).
  apply Forall_app in Hc as [Hch Hcb].
  apply NoDup_app in Hn as (Hnh & _ & Hnb).
  destruct (known_cards _ Hch Hnh) as (Hhand & _).
  destruct (known_cards _ Hcb Hnb) as (Hboard & _).
  unfold monte_carlo_hand_distribution. rewrite Hhand, mbind_Ok, Hboard, mbind_Ok.
  destruct (for_range_invariant
              (fun j counts => tally_ok counts ∧ sum_values counts = Z.of_nat j)
              (fun i hand_type_counts =>
                 r ← distribution_trial ev hand_cards board_cards
                       (card_of <$> hand_cards) (card_of <$> board_cards)
                       (shuffle i);
                 incr hand_type_counts r.1)
              (Z.to_nat num_trials) 0 zero_counts)
    as (counts & Hloop & Ht & Hsum).
  - apply zero_counts_tally.
  - intros j counts [Ht Hsum].
    destruct (distribution_trial_ok ev hand_cards board_cards (shuffle j))
      as (k & rest & -> & Hk); [done..|].
    rewrite mbind_Ok. cbn [fst].
    destruct (incr_tally counts k Ht Hk) as (counts' & -> & Ht' & Hs').
    exists counts'. split_and!; [done..|lia].
  - exists counts. split_and!; [done..|lia].
Qed.

(** X9: for a valid deal, an evaluator with ranks in the library's range
    and shuffled full decks, [monte_carlo_hand_distribution] returns a
    tally with exactly the keys 1 to 9, no negative count, and counts that
    add up to the number of trials. *)
Theorem hand_distribution_totals
    ev (hand_cards board_cards : list string) (num_trials : Z)
    (shuffle : nat → list card) :
  deal_ok hand_cards board_cards → ranks_in_range ev → 0 <= num_trials →
  (∀ i, shuffle i ≡ₚ FULL_DECK) →
  ∃ counts,
    monte_carlo_hand_distribution ev hand_cards board_cards num_trials shuffle
    = Ok counts ∧
    tally_ok counts ∧ sum_values counts = num_trials.
Proof. apply hand_distribution_tally. Qed.

Lemma hand_distribution_totals_witness :
  ∃ counts,
    monte_carlo_hand_distribution worst_evaluator ["As"; "Kd"]
      ["2c"; "3c"; "4c"] 3 (fun i => rotate i FULL_DECK) = Ok counts ∧
    sum_values counts = 3.
Proof.
  assert (deal_ok ["As"; "Kd"] ["2c"; "3c"; "4c"]) as Hok
    by (apply (bool_decide_unpack _); vm_compute; reflexivity).
  assert (ranks_in_range worst_evaluator) as Hev
    by (intros l; unfold worst_evaluator, MAX_HIGH_CARD; lia).
  assert (0 <= 3) as Hnt by lia.
  destruct (hand_distribution_totals worst_evaluator ["As"; "Kd"]
              ["2c"; "3c"; "4c"] 3 (fun i => rotate i FULL_DECK) Hok Hev Hnt
              (fun i => rotate_shuffle i FULL_DECK))
    as (counts & Hc & _ & Hs).
  exists counts. split; [exact Hc|exact Hs].
Defined.

(** *** The tallies of the pre-flop table *)

Lemma bindD_Ok {A B} (m : DeckM A) (k : A → DeckM B) d a d' :
  m d = Ok (a, d') → bindD m k d = k a d'.
Proof. intros Hm. unfold bindD. by rewrite Hm. Qed.

Lemma bindD_lift_Ok {A B} (r : result A) (k : A → DeckM B) d a :
  r = Ok a → bindD (lift r) k d = k a d.
Proof. by intros ->. Qed.

Lemma preflop_trial_ok ev hand_cards num_players e deck (n : Z) :
  deal_ok hand_cards [] → 2 <= num_players <= 23 → deck ≡ₚ FULL_DECK →
  ranks_in_range ev → entry_ok n e →
  ∃ e' rest,
    preflop_trial ev hand_cards (card_of <$> hand_cards) num_players e deck
    = Ok (e', rest) ∧ entry_ok (n + 1) e'.
Proof.
  intros Hok Hnp Hp Hrange ((Hf & Hfs) & (Ht & Hts) & (Hr & Hrs) & Hw & Hti & Hwt).
  destruct (deal_ok_sizes _ _ Hok) as (Hh & _ & _).
  destruct Hok as (_ & _ & Hc & Hn). rewrite app_nil_r in Hc, Hn.
  destruct (deck_after_known _ _ Hc Hn Hp) as (d1 & Hrem & Hl1).
  destruct d1 as [|c1 [|c2 [|c3 [|c4 [|c5 d2]]]]]; simpl in Hl1; try lia.
  destruct (deal_opponents_ok num_players d2) as (opps & Hdo & Hlo & Hfo);
    [lia|].
  assert (Hev : ∀ cards, (3 ≤ length cards ≤ 5)%nat →
            evaluate ev cards (card_of <$> hand_cards)
            = Ok (ev (cards ++ (card_of <$> hand_cards))%list)).
  { intros cards ?. apply evaluate_ok. rewrite length_fmap. lia. }
  assert (Hstep : ∀ cards counts m,
            tally_ok counts → sum_values counts = m →
            ∃ k counts',
              get_rank_class (ev (cards ++ (card_of <$> hand_cards))%list) = Ok k ∧
              incr counts k = Ok counts' ∧ tally_ok counts' ∧
              sum_values counts' = m + 1).
  { intros cards counts m Hc' <-.
    destruct (get_rank_class_range _ (Hrange (cards ++ (card_of <$> hand_cards))%list))
      as (k & Hk & Hk9).
    destruct (incr_tally counts k Hc' Hk9) as (counts' & ? & ? & ?).
    by exists k, counts'. }
  unfold preflop_trial.
  rewrite (bindD_Ok _ _ _ _ _ Hrem).
  erewrite bindD_Ok; [|reflexivity].
  erewrite bindD_lift_Ok; [|apply Hev; simpl; lia].
  destruct (Hstep [c1; c2; c3] _ _ Hf Hfs) as (k1 & fc & Hk1 & Hfc & Hf' & Hfs').
  erewrite bindD_lift_Ok; [|exact Hk1].
  erewrite bindD_lift_Ok; [|exact Hfc].
  erewrite bindD_Ok; [|reflexivity].
  erewrite bindD_lift_Ok; [|apply Hev; simpl; lia].
  destruct (Hstep ([c1; c2; c3] ++ [c4])%list _ _ Ht Hts)
    as (k2 & tc & Hk2 & Htc & Ht' & Hts').
  erewrite bindD_lift_Ok; [|exact Hk2].
  erewrite bindD_lift_Ok; [|exact Htc].
  erewrite bindD_Ok; [|reflexivity].
  erewrite bindD_lift_Ok; [|apply Hev; simpl; lia].
  destruct (Hstep (([c1; c2; c3] ++ [c4]) ++ [c5])%list _ _ Hr Hrs)
    as (k3 & rc & Hk3 & Hrc & Hr' & Hrs').
  erewrite bindD_lift_Ok; [|exact Hk3].
  erewrite bindD_lift_Ok; [|exact Hrc].
  erewrite bindD_Ok; [|exact Hdo].
  set (river := (([c1; c2; c3] ++ [c4]) ++ [c5])%list).
  erewrite bindD_lift_Ok.
  2:{ apply (for_each_fmap _ (fun opp => ev (river ++ opp)%list)).
      eapply Forall_impl; [done|]. intros h Hh2. cbn in Hh2.
      apply evaluate_ok. simpl. lia. }
  destruct (min_list_spec ((fun opp => ev (river ++ opp)%list) <$> opps))
    as (m & Hm & _).
  { intros E. apply (f_equal length) in E.
    rewrite length_fmap in E. simpl in E. lia. }
  erewrite bindD_lift_Ok; [|exact Hm].
  unfold ret. eexists _, _. split; [reflexivity|].
  unfold entry_ok.
  destruct (compare_scores _ m); cbn; split_and!; (done || lia).
Qed.

Lemma preflop_distribution_tally
    ev (hand_cards : list string) (num_players num_trials : Z)
    (shuffle : nat → list card) :
  deal_ok hand_cards [] → 2 <= num_players <= 23 → ranks_in_range ev →
  0 <= num_trials → (∀ i, shuffle i ≡ₚ FULL_DECK) →
  ∃ e,
    monte_carlo_preflop_distributions ev hand_cards num_players num_trials shuffle
    = Ok e ∧
    tally_ok (flop_counts e) ∧ sum_values (flop_counts e) = num_trials ∧
    tally_ok (turn_counts e) ∧ sum_values (turn_counts e) = num_trials ∧
    tally_ok (river_counts e) ∧ sum_values (river_counts e) = num_trials ∧
    0 <= win e ∧ 0 <= tie e ∧ win e + tie e <= num_trials.
Proof.
  intros Hok Hnp Hev Hnt Hsh.
  pose proof Hok as (_ & _ & Hc & Hn). rewrite app_nil_r in Hc, Hn.
  destruct (known_cards _ Hc Hn) as (Hhand & _).
  unfold monte_carlo_preflop_distributions. rewrite Hhand, mbind_Ok.
  destruct (for_range_invariant
              (fun j e => entry_ok (Z.of_nat j) e)
              (fun i e =>
                 r ← preflop_trial ev hand_cards (card_of <$> hand_cards)
                       num_players e (shuffle i);
                 Ok r.1)
              (Z.to_nat num_trials) 0
              (Entry zero_counts zero_counts zero_counts 0 0))
    as (e & Hloop & He).
  - pose proof zero_counts_tally as [? ?]. unfold entry_ok. cbn.
    split_and!; (done || lia).
  - intros j e He.
    destruct (preflop_trial_ok ev hand_cards num_players e (shuffle j)
                (Z.of_nat j) Hok Hnp (Hsh j) Hev He) as (e' & rest & -> & He').
    rewrite mbind_Ok. exists e'. split; [done|].
    by replace (Z.of_nat (S j)) with (Z.of_nat j + 1) by lia.
  - exists e. split; [done|].
    rewrite Nat.add_0_l, Z2Nat.id in He by done.
    destruct He as ((? & ?) & (? & ?) & (? & ?) & ? & ? & ?). done.
Qed.

(** X10: for two valid hole cards, two to twenty-three players, an
    evaluator with ranks in the library's range and shuffled full decks,
    [monte_carlo_preflop_distributions] returns tallies in which the flop,
    the turn and the river each have the keys 1 to 9, no negative count
    and as many entries as there were trials, and in which wins and ties
    are not negative and together no more than the trials. *)
Theorem preflop_distribution_totals
    ev (hand_cards : list string) (num_players num_trials : Z)
    (shuffle : nat → list card) :
  deal_ok hand_cards [] → 2 <= num_players <= 23 → ranks_in_range ev →
  0 <= num_trials → (∀ i, shuffle i ≡ₚ FULL_DECK) →
  ∃ e,
    monte_carlo_preflop_distributions ev hand_cards num_players num_trials shuffle
    = Ok e ∧
    tally_ok (flop_counts e) ∧ sum_values (flop_counts e) = num_trials ∧
    tally_ok (turn_counts e) ∧ sum_values (turn_counts e) = num_trials ∧
    tally_ok (river_counts e) ∧ sum_values (river_counts e) = num_trials ∧
    0 <= win e ∧ 0 <= tie e ∧ win e + tie e <= num_trials.
Proof. apply preflop_distribution_tally. Qed.

Lemma preflop_distribution_totals_witness :
  ∃ e,
    monte_carlo_preflop_distributions worst_evaluator ["As"; "Kd"] 3 2
      (fun i => rotate i FULL_DECK) = Ok e ∧
    sum_values (river_counts e) = 2 ∧ win e + tie e <= 2.
Proof.
  assert (deal_ok ["As"; "Kd"] []) as Hok
    by (apply (bool_decide_unpack _); vm_compute; reflexivity).
  assert (2 <= 3 <= 23) as Hnp by lia.
  assert (ranks_in_range worst_evaluator) as Hev
    by (intros l; unfold worst_evaluator, MAX_HIGH_CARD; lia).
  assert (0 <= 2) as Hnt by lia.
  destruct (preflop_distribution_totals worst_evaluator ["As"; "Kd"] 3 2
              (fun i => rotate i FULL_DECK) Hok Hnp Hev Hnt
              (fun i => rotate_shuffle i FULL_DECK))
    as (e & He & _ & _ & _ & _ & _ & Hs & _ & _ & Hwt).
  exists e. split; [exact He|]. split; [exact Hs|exact Hwt].
Defined.

(** *** Calls that the simulators cannot serve *)

Lemma for_range_first_raises {St} (body : nat → St → result St)
    (n i : nat) (s : St) (e : Py.exn) :
  (0 < n)%nat → body i s = Raise e → for_range n i body s = Raise e.
Proof. intros Hn Hb. destruct n as [|n]; [lia|]. cbn. by rewrite Hb. Qed.

Lemma known_split (hand_cards board_cards : list string) :
  Forall starts_with_card (hand_cards ++ board_cards) →
  for_each to_deuces hand_cards = Ok (deuces_card <$> hand_cards) ∧
  for_each to_deuces board_cards = Ok (deuces_card <$> board_cards).
Proof. intros [? ?]%Forall_app. split; by apply for_each_to_deuces. Qed.

(** X11: without trials the loops of the simulators do not run:
    [monte_carlo_odds] counts nothing and raises [ZeroDivisionError] on
    its division when [num_trials] is 0, and returns two zero percentages
    when it is negative; the two distribution functions return tallies
    that are all zero. *)
Theorem simulators_without_trials
    ev (hand_cards board_cards : list string) (num_players num_trials : Z)
    (shuffle : nat → list card) :
  Forall starts_with_card (hand_cards ++ board_cards) → num_trials <= 0 →
  monte_carlo_counts ev hand_cards board_cards num_players num_trials shuffle
  = Ok (0, 0, 0) ∧
  (num_trials = 0 →
   monte_carlo_odds ev hand_cards board_cards num_players num_trials shuffle
   = Raise ZeroDivisionError) ∧
  (num_trials < 0 →
   ∃ win_pct tie_pct,
     monte_carlo_odds ev hand_cards board_cards num_players num_trials shuffle
     = Ok (win_pct, tie_pct) ∧ (win_pct == 0)%Q ∧ (tie_pct == 0)%Q) ∧
  monte_carlo_hand_distribution ev hand_cards board_cards num_trials shuffle
  = Ok zero_counts ∧
  monte_carlo_preflop_distributions ev hand_cards num_players num_trials shuffle
  = Ok (Entry zero_counts zero_counts zero_counts 0 0).
Proof.
  intros Hk Hnt. destruct (known_split _ _ Hk) as [Hh Hb].
  assert (Z.to_nat num_trials = 0%nat) as Hz by lia.
  assert (Hcounts :
    monte_carlo_counts ev hand_cards board_cards num_players num_trials shuffle
    = Ok (0, 0, 0)).
  { unfold monte_carlo_counts. by rewrite Hh, mbind_Ok, Hb, mbind_Ok, Hz. }
  split_and!.
  - done.
  - intros ->. unfold monte_carlo_odds. by rewrite Hcounts.
  - intros Hneg. unfold monte_carlo_odds. rewrite Hcounts, mbind_Ok.
    unfold percent. destruct (Z.eqb_spec num_trials 0) as [?|_]; [lia|].
    rewrite !mbind_Ok. eexists _, _. split; [done|].
    change (inject_Z (100 * 0)) with 0%Q. unfold Qdiv.
    by rewrite Qmult_0_l.
  - unfold monte_carlo_hand_distribution.
    by rewrite Hh, mbind_Ok, Hb, mbind_Ok, Hz.
  - unfold monte_carlo_preflop_distributions. by rewrite Hh, mbind_Ok, Hz.
Qed.

Lemma simulators_without_trials_witness :
  monte_carlo_odds sum_evaluator ["As"; "Kd"] [] 2 0 (fun _ => FULL_DECK)
  = Raise ZeroDivisionError.
Proof.
  refine (proj1 (proj2 (simulators_without_trials sum_evaluator ["As"; "Kd"] []
                          2 0 (fun _ => FULL_DECK) _ _)) eq_refl).
  - repeat (constructor;
            [eexists _, _, _; split; [reflexivity|];
             split; apply (bool_decide_unpack _); vm_compute; reflexivity|]).
    constructor.
  - lia.
Defined.

(** X12: with fewer than two players no opponent is dealt, the list of
    opponent scores is empty and [min] raises [ValueError] in the first
    trial: [monte_carlo_odds] raises it, and so does
    [monte_carlo_preflop_distributions] once its three tallies of the
    trial are made. *)
Theorem simulators_need_an_opponent
    ev (hand_cards board_cards : list string) (num_players num_trials : Z)
    (shuffle : nat → list card) :
  deal_ok hand_cards board_cards → num_players <= 1 → 1 <= num_trials →
  shuffle 0%nat ≡ₚ FULL_DECK →
  monte_carlo_odds ev hand_cards board_cards num_players num_trials shuffle
  = Raise ValueError ∧
  (board_cards = [] → ranks_in_range ev →
   monte_carlo_preflop_distributions ev hand_cards num_players num_trials shuffle
   = Raise ValueError).
Proof.
  intros Hok Hnp Hnt Hp.
  destruct (deal_ok_sizes _ _ Hok) as (Hh & Hb & Hlen).
  pose proof Hok as (_ & _ & Hc & Hn).
  assert (Z.to_nat (num_players - 1) = 0%nat) as Hz by lia.
  split.
  - destruct (deck_after_known _ _ Hc Hn Hp) as (d1 & Hr & Hl1).
    pose proof (complete_board_ok (card_of <$> board_cards) d1) as Hcb.
    rewrite length_fmap in Hcb.
    destruct Hcb as (sim_board & Hcb & Hsb); [done|lia|].
    apply Forall_app in Hc as [Hch Hcb'].
    apply NoDup_app in Hn as (Hnh & _ & Hnb).
    destruct (known_cards _ Hch Hnh) as (Hhand & _).
    destruct (known_cards _ Hcb' Hnb) as (Hboard & _).
    unfold monte_carlo_odds, monte_carlo_counts.
    rewrite Hhand, mbind_Ok, Hboard, mbind_Ok.
    rewrite (for_range_first_raises _ _ _ _ ValueError); [done|lia|].
    unfold odds_trial.
    rewrite (bindD_Ok _ _ _ _ _ Hr), (bindD_Ok _ _ _ _ _ Hcb).
    unfold deal_opponents. rewrite Hz. cbn [replicateD].
    erewrite bindD_Ok; [|reflexivity].
    unfold lift, showdown.
    rewrite evaluate_ok by (rewrite length_fmap; lia). done.
  - intros -> Hev. rewrite app_nil_r in Hc, Hn.
    destruct (known_cards _ Hc Hn) as (Hhand & _).
    unfold monte_carlo_preflop_distributions. rewrite Hhand, mbind_Ok.
    rewrite (for_range_first_raises _ _ _ _ ValueError); [done|lia|].
    destruct (deck_after_known _ _ Hc Hn Hp) as (d1 & Hr & Hl1).
    destruct d1 as [|c1 [|c2 [|c3 [|c4 [|c5 d2]]]]]; simpl in Hl1; try lia.
    assert (Hev' : ∀ cards, (3 ≤ length cards ≤ 5)%nat →
              evaluate ev cards (card_of <$> hand_cards)
              = Ok (ev (cards ++ (card_of <$> hand_cards))%list)).
    { intros cards ?. apply evaluate_ok. rewrite length_fmap. lia. }
    assert (Hstep : ∀ cards,
              ∃ k counts',
                get_rank_class (ev (cards ++ (card_of <$> hand_cards))%list) = Ok k ∧
                incr zero_counts k = Ok counts').
    { intros cards.
      destruct (get_rank_class_range _ (Hev (cards ++ (card_of <$> hand_cards))%list))
        as (k & Hk & Hk9).
      destruct (incr_tally zero_counts k (proj1 zero_counts_tally) Hk9)
        as (counts' & ? & _).
      by exists k, counts'. }
    unfold preflop_trial. cbn [flop_counts turn_counts river_counts].
    rewrite (bindD_Ok _ _ _ _ _ Hr).
    erewrite bindD_Ok; [|reflexivity].
    erewrite bindD_lift_Ok; [|apply Hev'; simpl; lia].
    destruct (Hstep [c1; c2; c3]) as (k1 & fc & Hk1 & Hfc).
    erewrite bindD_lift_Ok; [|exact Hk1].
    erewrite bindD_lift_Ok; [|exact Hfc].
    erewrite bindD_Ok; [|reflexivity].
    erewrite bindD_lift_Ok; [|apply Hev'; simpl; lia].
    destruct (Hstep ([c1; c2; c3] ++ [c4])%list) as (k2 & tc & Hk2 & Htc).
    erewrite bindD_lift_Ok; [|exact Hk2].
    erewrite bindD_lift_Ok; [|exact Htc].
    erewrite bindD_Ok; [|reflexivity].
    erewrite bindD_lift_Ok; [|apply Hev'; simpl; lia].
    destruct (Hstep (([c1; c2; c3] ++ [c4]) ++ [c5])%list)
      as (k3 & rc & Hk3 & Hrc).
    erewrite bindD_lift_Ok; [|exact Hk3].
    erewrite bindD_lift_Ok; [|exact Hrc].
    unfold deal_opponents. rewrite Hz. cbn [replicateD].
    erewrite bindD_Ok; [|reflexivity].
    done.
Qed.

Lemma simulators_need_an_opponent_witness :
  monte_carlo_odds sum_evaluator ["As"; "Kd"] ["2c"; "3c"; "4c"] 1 5
                   (fun _ => FULL_DECK) = Raise ValueError.
Proof.
  refine (proj1 (simulators_need_an_opponent sum_evaluator ["As"; "Kd"]
                   ["2c"; "3c"; "4c"] 1 5 (fun _ => FULL_DECK) _ _ _ _)).
  - apply (bool_decide_unpack _). vm_compute. reflexivity.
  - lia.
  - lia.
  - reflexivity.
Defined.

Lemma list_remove_missing (x : card) (d : list card) :
  x ∉ d → list_remove x d = Raise ValueError.
Proof.
  induction d as [|y d IH]; [done|].
  rewrite not_elem_of_cons. intros [Hne Hx]. simpl.
  destruct (decide (x = y)); [done|]. by rewrite IH.
Qed.

Lemma list_remove_total (x : card) (d : list card) :
  ((x ∉ d) ∧ list_remove x d = Raise ValueError) ∨
  (∃ d', list_remove x d = Ok d' ∧ d ≡ₚ x :: d').
Proof.
  destruct (decide (x ∈ d)) as [Hin|Hout].
  - right. by apply list_remove_elem.
  - left. split; [done|]. by apply list_remove_missing.
Qed.

(** A known card that is not in the deck stops the removal. *)
Lemma remove_known_missing (g : string → card) (codes : list string)
    (d : list card) :
  Forall (fun c => to_deuces c = Ok (g c)) codes →
  Exists (fun c => g c ∉ d) codes →
  remove_known codes d = Raise ValueError.
Proof.
  unfold remove_known. revert d.
  induction codes as [|c codes IH]; intros d Hc Hex; [by inversion Hex|].
  apply Forall_cons in Hc as [Hc Hcs]. cbn [forD].
  unfold bindD at 1. unfold bindD at 1. unfold lift at 1. rewrite Hc.
  unfold remove.
  destruct (list_remove_total (g c) d) as [[_ ->]|(d1 & -> & Hp)]; [done|].
  apply IH; [done|].
  apply Exists_cons in Hex as [Hhd|Htl].
  - destruct Hhd. rewrite Hp. by left.
  - eapply Exists_impl; [done|]. intros x Hx Hin. apply Hx.
    rewrite Hp. by right.
Qed.

(** A known card that occurs twice cannot be removed twice from a deck
    without repetition. *)
Lemma remove_known_repeated (g : string → card) (codes : list string)
    (d : list card) :
  Forall (fun c => to_deuces c = Ok (g c)) codes →
  NoDup d → ¬ NoDup (g <$> codes) →
  remove_known codes d = Raise ValueError.
Proof.
  revert d. induction codes as [|c codes IH]; intros d Hc Hd Hrep.
  - destruct Hrep. constructor.
  - pose proof Hc as [Hc1 Hcs]%Forall_cons.
    destruct (decide (g c ∈ d)) as [Hin|Hout].
    2:{ apply (remove_known_missing g); [done|]. by left. }
    destruct (list_remove_elem _ _ Hin) as (d1 & Hr & Hp).
    rewrite Hp in Hd. apply NoDup_cons in Hd as [Hnot Hd1].
    unfold remove_known. cbn [forD].
    unfold bindD at 1. unfold bindD at 1. unfold lift at 1. rewrite Hc1.
    unfold remove. rewrite Hr.
    destruct (decide (g c ∈ g <$> codes)) as [Hdup|Hfresh].
    + apply (remove_known_missing g); [done|].
      apply list_elem_of_fmap in Hdup as (c' & Heq & Hc').
      apply Exists_exists. exists c'. split; [done|]. by rewrite <-Heq.
    + apply IH; [done..|]. intros Hn. apply Hrep.
      rewrite fmap_cons. by apply NoDup_cons.
Qed.

Lemma FULL_DECK_NoDup : NoDup FULL_DECK.
Proof. apply (bool_decide_unpack _). by vm_compute. Qed.

(** X13: when the hole and board cards name one card twice (in whatever
    letter case), the second removal from the fresh deck of the first
    trial raises [ValueError], and each of the three simulators raises it
    with one trial or more. *)
Theorem simulators_reject_repeated_cards
    ev (hand_cards board_cards : list string) (num_players num_trials : Z)
    (shuffle : nat → list card) :
  Forall starts_with_card (hand_cards ++ board_cards) →
  ¬ NoDup (deuces_card <$> (hand_cards ++ board_cards)%list) →
  1 <= num_trials → shuffle 0%nat ≡ₚ FULL_DECK →
  monte_carlo_odds ev hand_cards board_cards num_players num_trials shuffle
  = Raise ValueError ∧
  monte_carlo_hand_distribution ev hand_cards board_cards num_trials shuffle
  = Raise ValueError ∧
  (board_cards = [] →
   monte_carlo_preflop_distributions ev hand_cards num_players num_trials shuffle
   = Raise ValueError).
Proof.
  intros Hk Hrep Hnt Hp. destruct (known_split _ _ Hk) as [Hh Hb].
  assert (Hrem : remove_known (hand_cards ++ board_cards) (shuffle 0%nat)
                 = Raise ValueError).
  { apply (remove_known_repeated deuces_card); [|by rewrite Hp; apply FULL_DECK_NoDup|done].
    eapply Forall_impl; [done|]. intros c Hc.
    by destruct (to_deuces_valid c Hc) as [-> _]. }
  split_and!.
  - unfold monte_carlo_odds, monte_carlo_counts.
    rewrite Hh, mbind_Ok, Hb, mbind_Ok.
    rewrite (for_range_first_raises _ _ _ _ ValueError); [done|lia|].
    unfold odds_trial. unfold bindD at 1. by rewrite Hrem.
  - unfold monte_carlo_hand_distribution.
    rewrite Hh, mbind_Ok, Hb, mbind_Ok.
    rewrite (for_range_first_raises _ _ _ _ ValueError); [done|lia|].
    unfold distribution_trial. unfold bindD at 1. by rewrite Hrem.
  - intros ->. rewrite app_nil_r in Hrem.
    unfold monte_carlo_preflop_distributions. rewrite Hh, mbind_Ok.
    rewrite (for_range_first_raises _ _ _ _ ValueError); [done|lia|].
    unfold preflop_trial. unfold bindD at 1. by rewrite Hrem.
Qed.

Lemma simulators_reject_repeated_cards_witness :
  monte_carlo_odds sum_evaluator ["As"; "aS"] ["2c"; "3c"; "4c"] 2 5
                   (fun _ => FULL_DECK) = Raise ValueError.
Proof.
  refine (proj1 (simulators_reject_repeated_cards sum_evaluator ["As"; "aS"]
                   ["2c"; "3c"; "4c"] 2 5 (fun _ => FULL_DECK) _ _ _ _)).
  - repeat (constructor;
            [eexists _, _, _; split; [reflexivity|];
             split; apply (bool_decide_unpack _); vm_compute; reflexivity|]).
    constructor.
  - apply (bool_decide_unpack _). vm_compute. reflexivity.
  - lia.
  - reflexivity.
Defined.

(** *** The cards of a trial *)

Lemma complete_board_eq (board d : list card) :
  (length board ≤ 5)%nat → (5 - length board ≤ length d)%nat →
  complete_board board d
  = Ok ((board ++ take (5 - length board) d)%list, drop (5 - length board) d).
Proof.
  intros Hb Hd. unfold complete_board, len.
  destruct (Z.ltb_spec 0 (5 - Z.of_nat (length board))) as [Hpos|Hneg].
  - replace (Z.to_nat (5 - Z.of_nat (length board)))
      with (5 - length board)%nat by lia.
    unfold bindD. by rewrite replicateD_draw.
  - replace (5 - length board)%nat with 0%nat by lia.
    cbn. by rewrite app_nil_r.
Qed.

Lemma deal_opponents_deals (num_players : Z) (d : list card) :
  (2 * Z.to_nat (num_players - 1) ≤ length d)%nat →
  ∃ opp_hands,
    deal_opponents num_players d
    = Ok (opp_hands, drop (2 * Z.to_nat (num_players - 1)) d) ∧
    concat opp_hands = take (2 * Z.to_nat (num_players - 1)) d ∧
    length opp_hands = Z.to_nat (num_players - 1) ∧
    Forall (fun h => length h = 2%nat) opp_hands.
Proof.
  unfold deal_opponents. generalize (Z.to_nat (num_players - 1)) as n.
  set (two := bindD draw (fun a => bindD draw (fun b => ret [a; b]))).
  intros n. revert d. induction n as [|n IH]; intros d Hn.
  - exists []. by rewrite Nat.mul_0_r.
  - destruct d as [|a [|b d]]; simpl in Hn; [lia..|].
    destruct (IH d) as (hs & Hd & Hc & Hl & Hf); [lia|].
    exists ([a; b] :: hs).
    replace (2 * S n)%nat with (S (S (2 * n))) by lia. split_and!.
    + rewrite replicateD_S.
      assert (two (a :: b :: d) = Ok ([a; b], d)) as -> by done.
      by rewrite Hd.
    + cbn. by rewrite Hc.
    + simpl. by rewrite Hl.
    + by constructor.
Qed.

(** X14: in a trial of [monte_carlo_odds] on a valid deal with 2 to 23
    players every card of the shuffled deck goes to one place: the deck is
    a rearrangement of the hero's hand, the known board, the cards drawn
    to complete the board to five, the two cards of each opponent and the
    cards left over.  So the cards on the table are all different, and
    the outcome is the showdown of exactly these hands. *)
Theorem odds_trial_deals_each_card_once
    ev (hand_cards board_cards : list string) (num_players : Z)
    (deck : list card) :
  deal_ok hand_cards board_cards → 2 <= num_players <= 23 →
  deck ≡ₚ FULL_DECK →
  ∃ drawn opp_hands rest o,
    odds_trial ev hand_cards board_cards
               (card_of <$> hand_cards) (card_of <$> board_cards)
               num_players deck = Ok (o, rest) ∧
    showdown ev ((card_of <$> board_cards) ++ drawn)%list
             (card_of <$> hand_cards) opp_hands = Ok o ∧
    len board_cards + len drawn = 5 ∧
    len opp_hands = num_players - 1 ∧
    Forall (fun h => length h = 2%nat) opp_hands ∧
    deck ≡ₚ ((card_of <$> hand_cards) ++ (card_of <$> board_cards) ++ drawn
             ++ concat opp_hands ++ rest)%list ∧
    NoDup ((card_of <$> hand_cards) ++ (card_of <$> board_cards) ++ drawn
           ++ concat opp_hands)%list.
Proof.
  intros Hok Hnp Hp.
  destruct (deal_ok_sizes _ _ Hok) as (Hh & Hb & Hlen).
  destruct Hok as (_ & _ & Hc & Hn).
  destruct (known_cards _ Hc Hn) as (_ & Hnd & Hin).
  destruct (remove_known_ok (hand_cards ++ board_cards) deck)
    as (d1 & Hr & Hpd); [|done| |].
  { eapply Forall_impl; [done|]. intros c ?. by apply to_deuces_menu. }
  { eapply Forall_impl; [done|]. intros k ?. by rewrite Hp. }
  assert (length d1 + length (hand_cards ++ board_cards) = 52)%nat as Hl1.
  { pose proof (Permutation_length Hpd) as E1.
    pose proof (Permutation_length Hp) as E2.
    rewrite length_app, length_fmap in E1.
    change (length FULL_DECK) with 52%nat in E2. lia. }
  pose proof (complete_board_eq (card_of <$> board_cards) d1) as Hcb.
  rewrite length_fmap in Hcb. specialize (Hcb Hb ltac:(lia)).
  set (k := (5 - length board_cards)%nat) in *.
  set (d2 := drop k d1) in *.
  assert (length d2 = 45%nat) as Hl2
    by (unfold d2, k; rewrite length_drop; lia).
  destruct (deal_opponents_deals num_players d2)
    as (opps & Hdo & Hcc & Hlo & Hfo); [lia|].
  set (n := (2 * Z.to_nat (num_players - 1))%nat) in *.
  assert (showdown_ok :
    ∃ o, showdown ev ((card_of <$> board_cards) ++ take k d1)%list
                  (card_of <$> hand_cards) opps = Ok o).
  { unfold showdown.
    rewrite evaluate_ok
      by (rewrite length_app, !length_fmap, length_take_le; unfold k; lia).
    rewrite mbind_Ok.
    rewrite (for_each_fmap _
               (fun opp => ev (((card_of <$> board_cards) ++ take k d1) ++ opp)%list)).
    2:{ eapply Forall_impl; [done|]. intros h Hh2. cbn in Hh2.
        apply evaluate_ok.
        rewrite length_app, !length_fmap, length_take_le; unfold k; lia. }
    rewrite mbind_Ok.
    match goal with
    | |- context [min_list ?L] => destruct (min_list_spec L) as (m & Hm & _)
    end.
    { intros E. apply (f_equal length) in E.
      rewrite length_fmap in E. simpl in E. lia. }
    rewrite Hm, mbind_Ok. by eexists. }
  destruct showdown_ok as (o & Ho).
  assert (Hdeck :
    deck ≡ₚ ((card_of <$> hand_cards) ++ (card_of <$> board_cards) ++ take k d1
             ++ concat opps ++ drop n d2)%list).
  { rewrite Hpd, fmap_app, <-!(assoc_L (++)).
    do 2 apply Permutation_app_head.
    rewrite Hcc, take_drop. unfold d2. by rewrite take_drop. }
  exists (take k d1), opps, (drop n d2), o. split_and!.
  - unfold odds_trial.
    rewrite (bindD_Ok _ _ _ _ _ Hr), (bindD_Ok _ _ _ _ _ Hcb).
    rewrite (bindD_Ok _ _ _ _ _ Hdo). unfold lift. by rewrite Ho.
  - done.
  - unfold len. rewrite length_take_le by lia. unfold k. lia.
  - unfold len. lia.
  - done.
  - done.
  - assert (NoDup deck) as Hnodup by (rewrite Hp; apply FULL_DECK_NoDup).
    rewrite Hdeck in Hnodup.
    rewrite !(assoc_L (++)) in Hnodup. apply NoDup_app in Hnodup as [Hnodup _].
    by rewrite <-!(assoc_L (++)) in Hnodup.
Qed.

Lemma odds_trial_deals_each_card_once_witness :
  ∃ (drawn : list card) (opp_hands : list (list card)) rest o,
    odds_trial sum_evaluator ["As"; "Kd"] ["2c"; "3c"; "4c"]
               (card_of <$> ["As"; "Kd"]) (card_of <$> ["2c"; "3c"; "4c"])
               3 FULL_DECK = Ok (o, rest) ∧
    len drawn = 2 ∧ len opp_hands = 2.
Proof.
  assert (deal_ok ["As"; "Kd"] ["2c"; "3c"; "4c"]) as Hok
    by (apply (bool_decide_unpack _); vm_compute; reflexivity).
  assert (2 <= 3 <= 23) as Hnp by lia.
  destruct (odds_trial_deals_each_card_once sum_evaluator ["As"; "Kd"]
              ["2c"; "3c"; "4c"] 3 FULL_DECK Hok Hnp (Permutation_refl _))
    as (drawn & opps & rest & o & Ht & _ & Hd & Ho & _).
  exists drawn, opps, rest, o. split; [exact Ht|].
  split; [|exact Ho]. unfold len in Hd |- *. simpl in Hd. lia.
Defined.

(** *** The cache of the pre-flop table *)

(** X15: a pre-flop query that returns keeps every stored entry: the
    cache after it extends the cache before it, holds the returned tallies
    under the key of the query and is the same under every other key; when
    the key was stored, the stored tallies are returned and the cache is
    not changed; when it was not, the tallies are those of the simulation
    and the cache is the old one with them under the key. *)
Theorem preflop_lookup_extends_cache
    (ev : list card → Z) (fs : storage)
    (cache : gmap (list string * Z) entry)
    (hand : list string) (players n : Z) (shuffle : nat → list card)
    (e : entry) (cache1 : gmap (list string * Z) entry) :
  preflop_lookup ev fs cache hand players n shuffle = Ok (e, cache1) →
  cache ⊆ cache1 ∧
  cache1 !! cache_key hand players = Some e ∧
  (∀ k, k ≠ cache_key hand players → cache1 !! k = cache !! k) ∧
  (∀ e0, cache !! cache_key hand players = Some e0 → e = e0 ∧ cache1 = cache) ∧
  (cache !! cache_key hand players = None →
   monte_carlo_preflop_distributions ev hand players n shuffle = Ok e ∧
   cache1 = <[cache_key hand players := e]> cache).
Proof.
  unfold preflop_lookup.
  destruct (cache !! cache_key hand players) as [e0|] eqn:E.
  - intros [= <- <-]. split_and!; [done..| |done]. by intros ? [= <-].
  - destruct (monte_carlo_preflop_distributions _ _ _ _ _) as [e1|]; [|done].
    rewrite mbind_Ok. cbv zeta.
    destruct (save_preflop_cache _ _); [|done].
    rewrite mbind_Ok. intros [= <- <-]. split_and!.
    + by apply insert_subseteq.
    + apply lookup_insert_eq.
    + intros k Hk. by rewrite lookup_insert_ne.
    + done.
    + done.
Qed.

Lemma preflop_lookup_extends_cache_witness :
  ∃ e cache1,
    preflop_lookup sum_evaluator (Storage false (Ok (PyDict ∅)) (fun _ => Ok tt)) ∅
                   ["As"; "Kh"] 2 2 (fun i => rotate i FULL_DECK)
    = Ok (e, cache1) ∧
    cache1 !! cache_key ["As"; "Kh"] 2 = Some e.
Proof.
  eexists _, _. split; [reflexivity|].
  refine (proj1 (proj2 (preflop_lookup_extends_cache sum_evaluator
            (Storage false (Ok (PyDict ∅)) (fun _ => Ok tt)) ∅ ["As"; "Kh"] 2 2
            (fun i => rotate i FULL_DECK) _ _ _))).
  reflexivity.
Defined.

(** *** The label of a card *)

Lemma suit_html_lookup (u : ascii) :
  if bool_decide (suit_char u)
  then is_Some (SUIT_HTML !! lower_char u)
  else SUIT_HTML !! lower_char u = None.
Proof. ascii_cases u; first [by vm_compute | vm_compute; by eexists]. Qed.

(** [upper_char] and Python's [upper] agree as keys of the tables of
    ranks: either [upper_char c] is the one character that [c.upper()]
    is, or neither of the two is a rank. *)
Lemma upper_char_as_key (c : ascii) :
  upper_codes c = [code (upper_char c)] ∨
  (Forall (fun r => upper_codes c ≠ [code r]) (list_ascii_of_string RANKS) ∧
   upper_char c ∉ list_ascii_of_string RANKS).
Proof.
  ascii_cases c;
    first [left; by vm_compute
          |right; split; apply (bool_decide_unpack _); by vm_compute].
Qed.

Lemma upper_codes_rank (r : ascii) :
  rank_char r →
  upper_codes r = [code (upper_char r)] ∧
  upper_char r ∈ list_ascii_of_string RANKS.
Proof.
  intros Hr. apply (bool_decide_unpack _). revert Hr.
  rewrite <-(bool_decide_spec (rank_char r)).
  ascii_cases r; intros H; first [discriminate H | by vm_compute].
Qed.

(** X16: [card_label_html] returns the empty string on the empty string,
    raises [IndexError] on a single character, and on two characters or
    more looks only at the second: it raises [KeyError] when that is not a
    suit letter (in either case), and otherwise returns the upper-casing
    of the first character, whatever it is (two letters for U+00DF, a
    character beyond U+00FF for U+00B5 and U+00FF), followed by the markup
    of the suit.  So it labels every card that starts with a rank and a
    suit, and the label of such a card starts with the rank as a capital
    letter or digit of [RANKS]. *)
Theorem card_label_html_outcome (card : string) :
  (card = EmptyString → card_label_html card = Ok []) ∧
  (String.length card = 1%nat → card_label_html card = Raise IndexError) ∧
  (∀ r u rest, card = String r (String u rest) →
     (¬ suit_char u → card_label_html card = Raise KeyError) ∧
     (suit_char u →
      ∃ html, SUIT_HTML !! lower_char u = Some html ∧
              card_label_html card
              = Ok (upper_codes r ++ text_of html)%list)) ∧
  (∀ r u rest, card = String r (String u rest) → rank_char r → suit_char u →
     ∃ html, SUIT_HTML !! lower_char u = Some html ∧
             upper_char r ∈ list_ascii_of_string RANKS ∧
             card_label_html card
             = Ok (code (upper_char r) :: text_of html)).
Proof.
  assert (Hlong : ∀ r u rest, card = String r (String u rest) →
     (¬ suit_char u → card_label_html card = Raise KeyError) ∧
     (suit_char u →
      ∃ html, SUIT_HTML !! lower_char u = Some html ∧
              card_label_html card
              = Ok (upper_codes r ++ text_of html)%list)).
  { intros r u rest ->. unfold card_label_html.
    rewrite bool_decide_eq_false_2 by done.
    cbn [index String.get]. rewrite !mbind_Ok. unfold getitem.
    pose proof (suit_html_lookup u) as Hu.
    destruct (bool_decide (suit_char u)) eqn:E.
    - apply bool_decide_eq_true_1 in E. destruct Hu as [html Hhtml].
      split; [done|]. intros _. exists html. by rewrite Hhtml.
    - apply bool_decide_eq_false_1 in E. split; [|done]. intros _.
      by rewrite Hu. }
  split_and!.
  - by intros ->.
  - destruct card as [|r [|u rest]]; simpl; [done| |lia]. done.
  - exact Hlong.
  - intros r u rest Hc Hr Hu.
    destruct (proj2 (Hlong r u rest Hc) Hu) as (html & Hh & ->).
    destruct (upper_codes_rank r Hr) as [-> Hin]. by exists html.
Qed.

(** *** The validation of the inputs *)

Lemma parse_inputs_spec (l parsed_cards errors : list string) :
  parse_inputs l parsed_cards errors
  = ((parsed_cards ++ parsed_cards_of l)%list,
     (errors ++ (invalid_card_message <$> invalid_inputs l))%list).
Proof.
  revert parsed_cards errors.
  induction l as [|c l IH]; intros parsed_cards errors.
  - cbn. by rewrite !app_nil_r.
  - cbn [parse_inputs]. unfold parsed_cards_of, invalid_inputs.
    cbn [omap list_omap]. rewrite filter_cons.
    destruct (decide (strip c = EmptyString)) as [Hb|Hb].
    + rewrite (bool_decide_eq_true_2 _ Hb), IH.
      rewrite decide_False by (by intros [? _]). done.
    + rewrite (bool_decide_eq_false_2 _ Hb).
      destruct (parse_card c) as [parsed|] eqn:E.
      * rewrite IH, decide_False by (by intros [_ ?]).
        by rewrite <-(assoc_L (++)).
      * rewrite IH, decide_True by done.
        by rewrite fmap_cons, <-(assoc_L (++)).
Qed.

Lemma length_remove_dups_le {A} `{EqDecision A} (l : list A) :
  (length (remove_dups l) ≤ length l)%nat.
Proof.
  induction l as [|x l IH]; [done|]. cbn.
  destruct (decide_rel elem_of x l); simpl; lia.
Qed.

Lemma length_remove_dups_NoDup {A} `{EqDecision A} (l : list A) :
  length l = length (remove_dups l) ↔ NoDup l.
Proof.
  induction l as [|x l IH]; [by split; [constructor|]|].
  pose proof (length_remove_dups_le l) as Hle. cbn.
  destruct (decide_rel elem_of x l) as [Hin|Hout]; simpl.
  - split; [lia|]. intros [? _]%NoDup_cons. done.
  - rewrite NoDup_cons. split.
    + intros [= E]. split; [done|]. by apply IH.
    + intros [_ Hn]. f_equal. by apply IH.
Qed.

Lemma menu_codes_facts :
  Forall (fun c => strip c ≠ EmptyString ∧ parse_card c = Some (lower c) ∧
                   menu_code c = c ∧ String.length c = 2%nat ∧
                   rank_char (default "000"%char (String.get 0 c)) ∧
                   suit_char (default "000"%char (String.get 1 c)))
         CARD_CODES.
Proof. apply (bool_decide_unpack _). by vm_compute. Qed.

Lemma menu_code_facts (c : string) :
  c ∈ CARD_CODES →
  strip c ≠ EmptyString ∧ parse_card c = Some (lower c) ∧ menu_code c = c ∧
  c ≠ EmptyString ∧ starts_with_card c.
Proof.
  intros Hc. pose proof menu_codes_facts as H. rewrite Forall_forall in H.
  destruct (H c Hc) as (Hs & Hp & Hm & Hl & Hr & Hu).
  destruct c as [|r [|u [|? ?]]]; simpl in Hl; try lia.
  split_and!; [done..|]. by exists r, u, EmptyString.
Qed.

Lemma canonical_NoDup : NoDup (lower <$> CARD_CODES).
Proof. apply (bool_decide_unpack _). by vm_compute. Qed.

Lemma chosen_menu (l : list string) :
  Forall menu_input l → Forall (fun c => c ∈ CARD_CODES) (chosen l).
Proof.
  intros H. apply Forall_forall. intros c [Hne Hin]%list_elem_of_filter.
  rewrite Forall_forall in H. by destruct (H c Hin).
Qed.

Lemma menu_inputs_parsed (l : list string) :
  Forall menu_input l →
  invalid_inputs l = [] ∧ parsed_cards_of l = lower <$> chosen l.
Proof.
  unfold invalid_inputs, parsed_cards_of, chosen.
  induction 1 as [|c l Hc _ [IH1 IH2]]; [done|].
  cbn [omap list_omap]. rewrite !filter_cons.
  destruct Hc as [->|Hc].
  - rewrite decide_False by (by intros [? _]).
    rewrite decide_False by (intros Hne; by apply Hne).
    change (strip EmptyString) with EmptyString.
    rewrite bool_decide_eq_true_2 by done. done.
  - destruct (menu_code_facts c Hc) as (Hs & Hp & _ & Hne & _).
    rewrite decide_False by (intros [_ E]; by rewrite Hp in E).
    rewrite decide_True by done.
    rewrite (bool_decide_eq_false_2 _ Hs), Hp, fmap_cons, IH2. done.
Qed.

Lemma NoDup_lower_menu (l : list string) :
  Forall (fun c => c ∈ CARD_CODES) l → NoDup (lower <$> l) ↔ NoDup l.
Proof.
  intros Hl. split; [apply NoDup_fmap_1|].
  intros Hn. apply NoDup_fmap_2_strong; [|done].
  rewrite Forall_forall in Hl. intros x y Hx Hy.
  apply (NoDup_fmap_inj_on _ CARD_CODES); auto. apply canonical_NoDup.
Qed.

Lemma validate_unfold (l : list string) :
  validate l
  = ((invalid_card_message <$> invalid_inputs l)
     ++ (if bool_decide (NoDup (parsed_cards_of l)) then []
         else [DUPLICATE_MESSAGE]))%list.
Proof.
  unfold validate. rewrite parse_inputs_spec. cbn [app].
  destruct (decide (NoDup (parsed_cards_of l))) as [Hn|Hn].
  - rewrite (bool_decide_eq_true_2 _ Hn), bool_decide_eq_false_2.
    + by rewrite app_nil_r.
    + intros Hne. by apply Hne, length_remove_dups_NoDup.
  - rewrite (bool_decide_eq_false_2 _ Hn), bool_decide_eq_true_2; [done|].
    intros E. by apply Hn, length_remove_dups_NoDup.
Qed.

Lemma validate_menu (l : list string) :
  Forall menu_input l →
  validate l = if bool_decide (NoDup (chosen l)) then [] else [DUPLICATE_MESSAGE].
Proof.
  intros Hm. rewrite validate_unfold.
  destruct (menu_inputs_parsed l Hm) as [-> ->].
  pose proof (NoDup_lower_menu (chosen l) (chosen_menu l Hm)) as Hiff.
  cbn [fmap list_fmap app].
  destruct (decide (NoDup (chosen l))) as [Hn|Hn].
  - rewrite (bool_decide_eq_true_2 _ Hn), bool_decide_eq_true_2; [done|].
    by apply Hiff.
  - rewrite (bool_decide_eq_false_2 _ Hn), bool_decide_eq_false_2; [done|].
    by rewrite Hiff.
Qed.

(** X17: the list of errors that [calculate_odds] builds has one message
    for each input that is neither blank nor a card, in the order of the
    inputs, followed by the duplicate message exactly when two inputs that
    are not blank parse to the same card.  It is empty exactly when every
    input is blank or a card and the parsed cards are all different.  For
    the entries of the card menus the only possible error is the duplicate
    message, given exactly when one code is chosen twice. *)
Theorem validate_spec (l : list string) :
  validate l
  = ((invalid_card_message <$> invalid_inputs l)
     ++ (if bool_decide (NoDup (parsed_cards_of l)) then []
         else [DUPLICATE_MESSAGE]))%list ∧
  (validate l = [] ↔
   Forall (fun c => strip c = EmptyString ∨ is_Some (parse_card c)) l ∧
   NoDup (parsed_cards_of l)) ∧
  (Forall menu_input l →
   validate l = if bool_decide (NoDup (chosen l)) then []
                else [DUPLICATE_MESSAGE]).
Proof.
  split_and!; [apply validate_unfold| |apply validate_menu].
  rewrite validate_unfold.
  assert (invalid_inputs l = [] ↔
          Forall (fun c => strip c = EmptyString ∨ is_Some (parse_card c)) l)
    as Hinv.
  { unfold invalid_inputs. induction l as [|c l IH]; [by split; [constructor|]|].
    rewrite filter_cons, Forall_cons.
    destruct (decide (strip c ≠ EmptyString ∧ parse_card c = None))
      as [[Hs Hp]|Hno].
    - split; [done|]. intros [[?|[? Hsome]] _]; [done|]. congruence.
    - rewrite IH. split; [|by intros [_ ?]]. intros Hl. split; [|done].
      destruct (decide (strip c = EmptyString)) as [?|Hs]; [by left|].
      right. destruct (parse_card c) eqn:E; [by eexists|].
      by destruct Hno. }
  destruct (decide (NoDup (parsed_cards_of l))) as [Hn|Hn].
  - rewrite (bool_decide_eq_true_2 _ Hn), app_nil_r.
    rewrite <-Hinv. split.
    + intros E. split; [|done]. by apply fmap_nil_inv in E.
    + by intros [-> _].
  - rewrite (bool_decide_eq_false_2 _ Hn). split.
    + intros E. by apply app_nil in E as [_ ?].
    + by intros [_ ?].
Qed.

(** *** The calculation behind the button *)

Lemma for_each_returns {A B} (f : A → result B) (l : list A) :
  Forall (fun x => ∃ y, f x = Ok y) l →
  ∃ ys, for_each f l = Ok ys ∧ length ys = length l.
Proof.
  induction 1 as [|x l [y Hy] _ (ys & IH & Hl)]; [by exists []|].
  exists (y :: ys). split; [|simpl; by rewrite Hl].
  cbn. by rewrite Hy, IH.
Qed.

Lemma analyze_hand_menu (cards : list string) :
  Forall (fun c => c ∈ CARD_CODES) cards →
  ∃ label, analyze_hand cards = Ok label ∧
           (len cards < 5 → label = NOT_ENOUGH) ∧
           (5 <= len cards → hand_label label).
Proof.
  intros Hm. rewrite analyze_hand_classify.
  destruct (Z.ltb_spec (len cards) 5) as [Hlt|Hge].
  { exists NOT_ENOUGH. split_and!; [done|done|lia]. }
  assert (cards ≠ []) as Hne
    by (intros ->; unfold len in Hge; simpl in Hge; lia).
  assert (Forall starts_with_card cards) as Hs.
  { eapply Forall_impl; [done|]. intros c Hc. by apply menu_code_facts. }
  assert (Forall has_rank cards ∧ Forall has_suit cards) as [Hr Hsu].
  { apply not_short_has. eapply Forall_impl; [exact Hs|].
    intros c (r & u & rest & -> & _). unfold short. simpl. lia. }
  rewrite (for_each_total rank_of rank_char_of IndexError has_rank)
    by auto using rank_of_Some, rank_of_None.
  rewrite (for_each_total suit_of suit_char_of IndexError has_suit)
    by auto using suit_of_Some, suit_of_None.
  rewrite (bool_decide_eq_true_2 _ Hr), mbind_Ok.
  rewrite (bool_decide_eq_true_2 _ Hsu), mbind_Ok.
  destruct (classify_label cards (suit_char_of <$> cards) Hne Hr)
    as (label & Hl & Hhl).
  { apply Forall_fmap. rewrite Forall_forall in Hs.
    rewrite Forall_forall in Hr. apply Forall_forall.
    intros c Hc. cbn. apply first_is_rank_value; [by apply Hr|].
    destruct (Hs c Hc) as (r & u & rest & -> & Hrc & _).
    by exists r, (String u rest). }
  exists label. split_and!; [done|lia|done].
Qed.

Lemma deuces_hand_strength_returns ev (hand_cards board_cards : list string) :
  Forall starts_with_card (hand_cards ++ board_cards) →
  5 <= len board_cards + len hand_cards <= 7 → ranks_in_range ev →
  ∃ name, deuces_hand_strength ev hand_cards board_cards = Ok name ∧
          name ∈ HAND_CLASS_NAMES.
Proof.
  intros [Hh Hb]%Forall_app Hsize Hev. unfold deuces_hand_strength.
  rewrite !for_each_to_deuces by done. rewrite !mbind_Ok.
  rewrite evaluate_ok by (unfold len in Hsize; rewrite !length_fmap; lia).
  rewrite mbind_Ok.
  destruct (get_rank_class_range _ (Hev ((deuces_card <$> board_cards)
                                         ++ (deuces_card <$> hand_cards))%list))
    as (k & Hk & Hk9).
  destruct (class_to_string_ok k Hk9) as (name & Hn & Hin).
  exists name. by rewrite Hk, mbind_Ok.
Qed.

Lemma monte_carlo_odds_returns
    ev (hand_cards board_cards : list string) (num_players num_trials : Z)
    (shuffle : nat → list card) :
  deal_ok hand_cards board_cards → 2 <= num_players <= 23 →
  1 <= num_trials → (∀ i, shuffle i ≡ₚ FULL_DECK) →
  ∃ win_pct tie_pct,
    monte_carlo_odds ev hand_cards board_cards num_players num_trials shuffle
    = Ok (win_pct, tie_pct) ∧
    (0 <= win_pct <= 100)%Q ∧ (0 <= tie_pct <= 100)%Q ∧
    (win_pct + tie_pct <= 100)%Q.
Proof.
  intros Hok Hnp Hnt Hsh.
  assert (Htrial := fun i =>
    odds_trial_ok ev hand_cards board_cards num_players (shuffle i)
                  Hok Hnp (Hsh i)).
  destruct Hok as (Hh & Hb & Hc & Hn).
  apply Forall_app in Hc as [Hch Hcb].
  apply NoDup_app in Hn as (Hnh & _ & Hnb).
  destruct (known_cards _ Hch Hnh) as (Hhand & _).
  destruct (known_cards _ Hcb Hnb) as (Hboard & _).
  set (body := fun (i : nat) (c : Z * Z * Z) =>
    r ← odds_trial ev hand_cards board_cards (card_of <$> hand_cards)
          (card_of <$> board_cards) num_players (shuffle i);
    Ok (tally r.1 c)).
  destruct (for_range_invariant
              (fun j '(w, t, l) =>
                 0 <= w ∧ 0 <= t ∧ 0 <= l ∧ w + t + l = Z.of_nat j)
              body (Z.to_nat num_trials) 0 (0, 0, 0))
    as ([[w t] l] & Hloop & Hw & Ht & Hl & Hsum); [lia| |].
  { intros j [[w t] l] (Hw & Ht & Hl & Hsum). unfold body.
    destruct (Htrial j) as (sb & opps & m & rest & -> & _). cbn.
    destruct (compare_scores _ m); eexists; (split; [done|]); cbn; lia. }
  assert (Hcounts :
    monte_carlo_counts ev hand_cards board_cards num_players num_trials
                       shuffle = Ok (w, t, l)).
  { unfold monte_carlo_counts. rewrite Hhand. cbn. rewrite Hboard. cbn.
    exact Hloop. }
  exists (inject_Z (100 * w) / inject_Z num_trials)%Q,
         (inject_Z (100 * t) / inject_Z num_trials)%Q.
  split_and!; try (apply percent_bounds; lia).
  - unfold monte_carlo_odds. rewrite Hcounts. cbn.
    rewrite !percent_ok by done. done.
  - assert (inject_Z (100 * w) / inject_Z num_trials
            + inject_Z (100 * t) / inject_Z num_trials
            == inject_Z (100 * (w + t)) / inject_Z num_trials)%Q as ->.
    { assert (¬ inject_Z num_trials == 0)%Q as Hne.
      { change 0%Q with (inject_Z 0). rewrite inject_Z_injective. lia. }
      rewrite !inject_Z_mult, !inject_Z_plus. field. done. }
    apply percent_bounds; lia.
Qed.

Lemma card_label_html_card (c : string) :
  starts_with_card c → ∃ label, card_label_html c = Ok label.
Proof.
  intros (r & u & rest & -> & _ & Hu). unfold card_label_html.
  rewrite bool_decide_eq_false_2 by done.
  cbn [index String.get]. rewrite !mbind_Ok. unfold getitem.
  pose proof (suit_html_lookup u) as Hl.
  rewrite (bool_decide_eq_true_2 _ Hu) in Hl. destruct Hl as [html ->].
  rewrite mbind_Ok. by eexists.
Qed.

Lemma card_labels_menu (l : list string) :
  Forall (fun c => c ∈ CARD_CODES) l →
  ∃ labels, for_each card_label_html l = Ok labels ∧ length labels = length l.
Proof.
  intros H. apply for_each_returns. eapply Forall_impl; [done|].
  intros c Hc. cbn. by apply card_label_html_card, menu_code_facts.
Qed.

Lemma render_example_ok :
  Forall (fun i => ∃ html, render_example i = Ok html) (seqZ 1 9).
Proof. repeat (constructor; [eexists; by vm_compute|]). constructor. Qed.

Lemma distribution_lines_ok (counts : gmap Z Z) (total : Z) :
  ∃ lines, for_each (distribution_line counts total) (seqZ 1 9) = Ok lines ∧
           length lines = 9%nat.
Proof.
  apply (for_each_returns (distribution_line counts total) (seqZ 1 9)).
  apply Forall_forall. intros i Hi%elem_of_seqZ. unfold distribution_line.
  destruct (class_to_string_ok i) as (name & -> & _); [lia|].
  rewrite mbind_Ok. by eexists.
Qed.

Lemma table_rows_ok (e : entry) :
  ∃ rows, for_each (table_row e) (seqZ 1 9) = Ok rows ∧ length rows = 9%nat.
Proof.
  apply (for_each_returns (table_row e) (seqZ 1 9)).
  pose proof render_example_ok as Hex. rewrite Forall_forall in Hex.
  apply Forall_forall. intros i Hi. unfold table_row.
  destruct (Hex i Hi) as (html & ->). apply elem_of_seqZ in Hi.
  destruct (class_to_string_ok i) as (name & -> & _); [lia|].
  rewrite !mbind_Ok. by eexists.
Qed.

Lemma save_preflop_cache_returns (fs : storage) c :
  write_failures_caught fs → save_preflop_cache fs c = Ok tt.
Proof.
  intros Hw. unfold save_preflop_cache, try_except.
  destruct (write_pickle fs c) as [[]|e] eqn:E; [done|].
  by rewrite (Hw _ _ E).
Qed.

Lemma preflop_lookup_returns
    (ev : list card → Z) (fs : storage) (cache : gmap (list string * Z) entry)
    (hand : list string) (players num_trials : Z) (shuffle : nat → list card) :
  deal_ok hand [] → 2 <= players <= 23 → ranks_in_range ev →
  0 <= num_trials → (∀ i, shuffle i ≡ₚ FULL_DECK) →
  write_failures_caught fs →
  ∃ e cache1,
    preflop_lookup ev fs cache hand players num_trials shuffle
    = Ok (e, cache1) ∧
    cache ⊆ cache1 ∧ cache1 !! cache_key hand players = Some e ∧
    (∀ e0, cache !! cache_key hand players = Some e0 → e = e0 ∧ cache1 = cache) ∧
    (cache !! cache_key hand players = None →
     cache1 = <[cache_key hand players := e]> cache ∧ entry_ok num_trials e).
Proof.
  intros Hok Hnp Hev Hnt Hsh Hw. unfold preflop_lookup.
  destruct (cache !! cache_key hand players) as [e0|] eqn:E.
  - exists e0, cache. split_and!; [done..| |done]. by intros ? [= <-].
  - destruct (preflop_distribution_tally ev hand players num_trials shuffle)
      as (e & -> & ? & ? & ? & ? & ? & ? & ? & ? & ?); [done..|].
    rewrite mbind_Ok. cbv zeta. rewrite save_preflop_cache_returns by done.
    rewrite mbind_Ok. exists e, (<[cache_key hand players := e]> cache).
    split_and!; [done|by apply insert_subseteq|apply lookup_insert_eq|done|].
    intros _. split; [done|]. unfold entry_ok. done.
Qed.

Lemma forallb_chosen (l : list string) :
  forallb (fun c => bool_decide (c = EmptyString)) (chosen l)
  = bool_decide (chosen l = []).
Proof.
  assert (Forall (fun c => c ≠ EmptyString) (chosen l)) as H.
  { apply Forall_forall. by intros c [? _]%list_elem_of_filter. }
  destruct (chosen l) as [|c t]; [done|].
  apply Forall_cons in H as [Hc _]. cbn.
  by rewrite (bool_decide_eq_false_2 _ Hc).
Qed.

Lemma chosen_inputs (ui : inputs) :
  chosen (card_inputs ui) = (hole_cards ui ++ community_cards ui)%list.
Proof.
  unfold hole_cards, community_cards, chosen.
  by rewrite <-filter_app.
Qed.

Lemma chosen_length (l : list string) : (length (chosen l) ≤ length l)%nat.
Proof. apply length_filter. Qed.

(** X18: what the button does when the seven inputs are entries of the
    card menus, the spin box holds 2 to 10, the evaluator's ranks are in
    the library's range, the decks are shuffled full decks and a failing
    cache write raises an [Exception].  When a card is chosen twice the
    only thing shown is the duplicate message and the cache is untouched.
    Otherwise the calculation never raises and never drops a cache entry,
    and it shows the pre-flop table exactly when both hole cards are
    chosen and no community card is: the table has nine rows, its
    tallies are stored under the key of the query, and they come from the
    cache when the key was there and from a simulation whose tallies add
    up to the 500000 trials when it was not.  In every other case it
    shows the result view with the cards, the label of [analyze_hand] and
    an unchanged cache; with both hole cards and at least three community
    cards the view has a category name of the library, percentages to win
    and to tie between 0 and 100 that together are at most 100, and nine
    lines of distribution; with fewer cards it has none of the three. *)
Theorem calculate_odds_on_menu_inputs
    (ev : list card → Z) (ui : inputs) (fs : storage) (rng : randomness)
    (cache : gmap (list string * Z) entry) :
  Forall menu_input (card_inputs ui) → 2 <= players_spin ui <= 10 →
  ranks_in_range ev → decks_shuffled rng → write_failures_caught fs →
  (¬ NoDup (hole_cards ui ++ community_cards ui) →
   calculate_odds ev ui fs rng cache
   = Ok (ErrorText [DUPLICATE_MESSAGE], cache)) ∧
  (NoDup (hole_cards ui ++ community_cards ui) →
   ∃ v cache1,
     calculate_odds ev ui fs rng cache = Ok (v, cache1) ∧ cache ⊆ cache1 ∧
     match v with
     | ErrorText _ => False
     | PreflopHtml hand_html players win_pct tie_pct rows =>
         len (hole_cards ui) = 2 ∧ community_cards ui = [] ∧
         players = players_spin ui ∧ len hand_html = 2 ∧ len rows = 9 ∧
         ∃ e,
           cache1 !! cache_key (hole_cards ui) players = Some e ∧
           (∀ e0, cache !! cache_key (hole_cards ui) players = Some e0 →
                  e = e0 ∧ cache1 = cache) ∧
           (cache !! cache_key (hole_cards ui) players = None →
            cache1 = <[cache_key (hole_cards ui) players := e]> cache ∧
            entry_ok PREFLOP_TRIALS e) ∧
           win_pct = (inject_Z (100 * win e) / inject_Z PREFLOP_TRIALS)%Q ∧
           tie_pct = (inject_Z (100 * tie e) / inject_Z PREFLOP_TRIALS)%Q
     | ResultHtml hand_html board_html players hand_analysis deuces_strength
                  odds hand_dist =>
         ¬ (len (hole_cards ui) = 2 ∧ community_cards ui = []) ∧
         cache1 = cache ∧ players = players_spin ui ∧
         analyze_hand (hole_cards ui ++ community_cards ui) = Ok hand_analysis ∧
         len hand_html = len (hole_cards ui) ∧
         len board_html = len (community_cards ui) ∧
         if bool_decide (len (hole_cards ui) = 2 ∧ 3 <= len (community_cards ui))
         then deuces_strength ∈ HAND_CLASS_NAMES ∧
              (∃ win_pct tie_pct,
                 odds = Some (win_pct, tie_pct) ∧
                 (0 <= win_pct <= 100)%Q ∧ (0 <= tie_pct <= 100)%Q ∧
                 (win_pct + tie_pct <= 100)%Q) ∧
              len hand_dist = 9
         else deuces_strength = NO_DEUCES ∧ odds = None ∧ hand_dist = []
     end).
Proof.
  intros Hmenu Hplayers Hev (Hd1 & Hd2 & Hd3) Hw.
  pose proof (validate_menu _ Hmenu) as Hval.
  rewrite chosen_inputs in Hval.
  pose proof (chosen_menu _ Hmenu) as Hcodes. rewrite chosen_inputs in Hcodes.
  pose proof (chosen_length [hand1_input ui; hand2_input ui]) as Hlh.
  pose proof (chosen_length [flop1_input ui; flop2_input ui; flop3_input ui;
                             turn_input ui; river_input ui]) as Hlb.
  pose proof (forallb_chosen [flop1_input ui; flop2_input ui; flop3_input ui;
                              turn_input ui; river_input ui]) as Hall.
  unfold calculate_odds. cbv zeta.
  change ([hand1_input ui; hand2_input ui]
          ++ [flop1_input ui; flop2_input ui; flop3_input ui;
              turn_input ui; river_input ui])%list with (card_inputs ui).
  change (chosen [hand1_input ui; hand2_input ui]) with (hole_cards ui) in *.
  change (chosen [flop1_input ui; flop2_input ui; flop3_input ui;
                  turn_input ui; river_input ui])
    with (community_cards ui) in *.
  simpl in Hlh, Hlb.
  set (hand := hole_cards ui) in *. set (board := community_cards ui) in *.
  clearbody hand board.
  split.
  { intros Hdup. rewrite (bool_decide_eq_false_2 _ Hdup) in Hval.
    rewrite Hval. by rewrite bool_decide_eq_true_2. }
  intros Hnodup. rewrite (bool_decide_eq_true_2 _ Hnodup) in Hval.
  rewrite Hval, (bool_decide_eq_false_2 ([] ≠ [])) by (intros H; by apply H).
  pose proof Hcodes as [Hch Hcb]%Forall_app.
  destruct (analyze_hand_menu (hand ++ board) Hcodes) as (an & Han & _).
  rewrite Han, mbind_Ok.
  destruct (card_labels_menu hand Hch) as (hh & Hhh & Hlhh).
  destruct (card_labels_menu board Hcb) as (bh & Hbh & Hlbh).
  rewrite Hall.
  assert (len (hand ++ board) = len hand + len board) as Hlen
    by (unfold len; rewrite length_app; lia).
  assert (len hh = len hand ∧ len bh = len board) as [Hlhh' Hlbh']
    by (unfold len; by rewrite Hlhh, Hlbh).
  destruct (decide (len hand = 2)) as [H2|H2].
  - rewrite (bool_decide_eq_true_2 _ H2). cbn [andb].
    destruct (Z.leb_spec 5 (len (hand ++ board))) as [H5|H5]; cbv iota.
    + assert (deal_ok hand board) as Hok.
      { split_and!; [unfold len in H2; lia| |done..].
        unfold len in *. set_unfold. lia. }
      destruct (deuces_hand_strength_returns ev hand board)
        as (name & Hname & Hin); [|unfold len in *; lia|done|].
      { eapply Forall_impl; [exact Hcodes|]. intros c Hc.
        by apply menu_code_facts. }
      rewrite Hname, mbind_Ok.
      destruct (monte_carlo_odds_returns ev hand board (players_spin ui)
                  ODDS_TRIALS (odds_decks rng))
        as (w & t & Hodds & Hwb & Htb & Hwt);
        [done|lia|unfold ODDS_TRIALS; lia|done|].
      rewrite Hodds, mbind_Ok.
      destruct (hand_distribution_tally ev hand board ODDS_TRIALS
                  (distribution_decks rng))
        as (counts & Hcounts & _); [done|done|unfold ODDS_TRIALS; lia|done|].
      rewrite Hcounts, mbind_Ok.
      destruct (distribution_lines_ok counts (sum_values counts))
        as (lines & Hlines & Hll).
      rewrite Hlines, !mbind_Ok.
      rewrite (bool_decide_eq_false_2 (board = []))
        by (intros ->; unfold len in *; simpl in *; lia).
      rewrite Hhh, mbind_Ok, Hbh, mbind_Ok.
      eexists _, _. split; [reflexivity|]. split; [done|]. cbn [fst snd].
      rewrite bool_decide_eq_true_2 by (unfold len in *; lia).
      split_and!; try done.
      * intros [_ ->]. unfold len in *. simpl in *. lia.
      * by exists w, t.
      * unfold len. by rewrite Hll.
    + rewrite !mbind_Ok.
      destruct board as [|c board].
      * rewrite (bool_decide_eq_true_2 ([] = [])) by done.
        destruct (preflop_lookup_returns ev fs cache hand (players_spin ui)
                    PREFLOP_TRIALS (preflop_decks rng))
          as (e & cache1 & Hlk & Hsub & Hget & Hhit & Hmiss);
          [|lia|done|unfold PREFLOP_TRIALS; lia|done|done|].
        { split_and!; [unfold len in H2; lia|set_unfold; lia|done..]. }
        rewrite Hlk, mbind_Ok. cbn [fst snd].
        destruct (table_rows_ok e) as (rows & Hrows & Hlr).
        rewrite Hrows, mbind_Ok, Hhh, mbind_Ok.
        eexists _, _. split; [reflexivity|]. split; [done|].
        split_and!; try done; [unfold len in *; lia|unfold len; by rewrite Hlr|].
        by exists e.
      * rewrite (bool_decide_eq_false_2 (c :: board = [])) by done.
        rewrite Hhh, mbind_Ok, Hbh, mbind_Ok.
        eexists _, _. split; [reflexivity|]. split; [done|]. cbn [fst snd].
        rewrite bool_decide_eq_false_2 by (unfold len in *; simpl in *; lia).
        split_and!; try done. by intros [_ ?].
  - rewrite (bool_decide_eq_false_2 _ H2). cbn [andb]. cbv iota.
    rewrite !mbind_Ok, Hhh, mbind_Ok, Hbh, mbind_Ok.
    eexists _, _. split; [reflexivity|]. split; [done|]. cbn [fst snd].
    rewrite bool_decide_eq_false_2 by (by intros [? _]).
    split_and!; try done. by intros [? _].
Qed.

Lemma calculate_odds_on_menu_inputs_witness :
  ∃ v cache1,
    calculate_odds worst_evaluator
      (Inputs "As" "Kd" "2c" "3c" "4c" EmptyString EmptyString 3)
      (Storage false (Ok (PyDict ∅)) (fun _ => Raise OSError))
      (Randomness (fun i => rotate i FULL_DECK) (fun i => rotate i FULL_DECK)
                  (fun i => rotate i FULL_DECK))
      ∅ = Ok (v, cache1) ∧ cache1 = ∅.
Proof.
  assert (Forall menu_input
            (card_inputs (Inputs "As" "Kd" "2c" "3c" "4c" EmptyString
                                 EmptyString 3))) as Hmenu.
  { repeat (constructor;
            [first [by left
                   |right; apply (bool_decide_unpack _); vm_compute; reflexivity]|]).
    constructor. }
  assert (2 <= 3 <= 10) as Hp by lia.
  assert (ranks_in_range worst_evaluator) as Hev
    by (intros l; unfold worst_evaluator, MAX_HIGH_CARD; lia).
  assert (decks_shuffled
            (Randomness (fun i => rotate i FULL_DECK)
                        (fun i => rotate i FULL_DECK)
                        (fun i => rotate i FULL_DECK))) as Hd
    by (split_and!; intros i; apply rotate_shuffle).
  assert (write_failures_caught (Storage false (Ok (PyDict ∅)) (fun _ => Raise OSError)))
    as Hw by (intros c e [= <-]; reflexivity).
  assert (NoDup (hole_cards (Inputs "As" "Kd" "2c" "3c" "4c" EmptyString
                                    EmptyString 3)
                 ++ community_cards (Inputs "As" "Kd" "2c" "3c" "4c" EmptyString
                                            EmptyString 3))) as Hn
    by (apply (bool_decide_unpack _); vm_compute; reflexivity).
  destruct (proj2 (calculate_odds_on_menu_inputs worst_evaluator _ _ _ ∅
                     Hmenu Hp Hev Hd Hw) Hn) as (v & cache1 & Hc & _ & Hv).
  exists v, cache1. split; [exact Hc|].
  destruct v as [errors|? ? ? ? ?|? ? ? ? ? ? ?].
  - destruct Hv.
  - destruct Hv as (_ & Hb & _). vm_compute in Hb. discriminate Hb.
  - destruct Hv as (_ & Hcache & _). exact Hcache.
Defined.

(** *** The percentages of a tally *)

Lemma sum_values_keys (m : gmap Z Z) (l : list Z) :
  NoDup l → (∀ k, is_Some (m !! k) ↔ k ∈ l) →
  sum_values m = foldr Z.add 0 ((fun k => default 0 (m !! k)) <$> l).
Proof.
  revert m. induction l as [|k l IH]; intros m Hn Hk.
  - assert (m = ∅) as ->; [|done].
    apply map_empty. intros i. apply eq_None_not_Some. rewrite Hk.
    apply not_elem_of_nil.
  - apply NoDup_cons in Hn as [Hkl Hn].
    destruct (proj2 (Hk k)) as [x Hx]; [by left|].
    unfold sum_values. rewrite (map_fold_delete_L _ _ k x m); [|intros; lia|done].
    rewrite fmap_cons. cbn [foldr]. rewrite Hx. cbn [default]. f_equal.
    fold (sum_values (delete k m)). rewrite (IH (delete k m) Hn).
    + f_equal. apply list_fmap_ext. intros i j Hj.
      rewrite lookup_delete_ne; [done|]. intros ->.
      apply Hkl. by eapply list_elem_of_lookup_2.
    + intros j. destruct (decide (k = j)) as [<-|Hne].
      * rewrite lookup_delete_eq. split; [by intros [? ?]|done].
      * rewrite lookup_delete_ne by done. rewrite Hk, elem_of_cons.
        split; [by intros [?|?]|by right].
Qed.

Lemma foldr_add_bounds (l : list Z) :
  Forall (fun c => 0 <= c) l →
  0 <= foldr Z.add 0 l ∧ Forall (fun c => c <= foldr Z.add 0 l) l.
Proof.
  induction 1 as [|c l Hc _ [IH1 IH2]]; [by split; [|constructor]|].
  cbn [foldr]. split; [lia|]. constructor; [lia|].
  eapply Forall_impl; [exact IH2|]. intros y Hy. cbn in Hy. lia.
Qed.

Lemma sum_Q_percent (l : list Z) (total : Z) :
  total ≠ 0 →
  (sum_Q ((fun c => inject_Z (100 * c) / inject_Z total) <$> l)
   == inject_Z (100 * foldr Z.add 0%Z l) / inject_Z total)%Q.
Proof.
  intros Hne.
  assert (¬ inject_Z total == 0)%Q as HneQ.
  { change 0%Q with (inject_Z 0). by rewrite inject_Z_injective. }
  induction l as [|c l IH].
  - cbn. unfold Qdiv. by rewrite Qmult_0_l.
  - rewrite fmap_cons. cbn [sum_Q foldr]. fold (sum_Q
      ((fun c => inject_Z (100 * c) / inject_Z total)%Q <$> l)).
    rewrite IH. rewrite !inject_Z_mult, !inject_Z_plus. field. done.
Qed.

(** X19: for a tally with the keys 1 to 9 and no negative count, the nine
    counts that the views divide by the total add up to the total.  The
    nine percentages are all 0 when the total is 0 (the guard of the
    division), and otherwise lie between 0 and 100; as exact rationals
    they add up to 100 (the floats that Python computes for them are the
    nearest floats, and add up to 100 only within rounding). *)
Theorem shares_add_up (counts : gmap Z Z) :
  tally_ok counts →
  sum_values counts
  = foldr Z.add 0 ((fun i => default 0 (counts !! i)) <$> seqZ 1 9) ∧
  (sum_values counts = 0 → Forall (fun q => q = 0%Q) (shares counts)) ∧
  (sum_values counts ≠ 0 →
   (sum_Q (shares counts) == 100)%Q ∧
   Forall (fun q => (0 <= q <= 100)%Q) (shares counts)).
Proof.
  intros [Hkeys Hpos].
  pose proof (sum_values_keys counts (seqZ 1 9) (NoDup_seqZ _ _)) as Hsum.
  specialize (Hsum ltac:(intros k; rewrite Hkeys, elem_of_seqZ; lia)).
  split; [exact Hsum|].
  unfold shares. rewrite Hsum.
  set (l := (fun k => default 0 (counts !! k)) <$> seqZ 1 9) in *.
  assert (Forall (fun c => 0 <= c) l) as Hl.
  { apply Forall_fmap, Forall_forall. intros k _. cbn.
    destruct (counts !! k) as [n|] eqn:E; [|done]. by apply (Hpos k). }
  destruct (foldr_add_bounds l Hl) as [Htot Hle].
  assert (Hshares : ∀ total, total ≠ 0 →
            (fun i => share counts i total) <$> seqZ 1 9
            = (fun c => inject_Z (100 * c) / inject_Z total)%Q <$> l).
  { intros total Hne. unfold l. rewrite <-list_fmap_compose.
    apply list_fmap_ext. intros _ i _. cbn. unfold share.
    by destruct (Z.eqb_spec total 0). }
  split.
  - intros ->. apply Forall_fmap, Forall_forall. intros i _. cbn.
    unfold share. done.
  - intros Hne. rewrite (Hshares _ Hne). split.
    + rewrite (sum_Q_percent l _ Hne).
      assert (¬ inject_Z (foldr Z.add 0%Z l) == 0)%Q as HneQ.
      { change 0%Q with (inject_Z 0). by rewrite inject_Z_injective. }
      rewrite inject_Z_mult. field. done.
    + rewrite Forall_forall in Hl. rewrite Forall_forall in Hle.
      apply Forall_fmap, Forall_forall. intros c Hc. cbn.
      specialize (Hl c Hc). specialize (Hle c Hc). cbn in Hl, Hle.
      apply percent_bounds; lia.
Qed.

Lemma shares_add_up_witness :
  (sum_Q (shares (<[3%Z := 2%Z]> (<[7%Z := 1%Z]> zero_counts))) == 100)%Q.
Proof.
  refine (proj1 (proj2 (proj2 (shares_add_up
                                 (<[3 := 2]> (<[7 := 1]> zero_counts)) _)) _)).
  - split.
    + intros k. rewrite !lookup_insert_is_Some.
      rewrite (proj1 (proj1 zero_counts_tally) k). lia.
    + intros k n. rewrite !lookup_insert_Some.
      intros [[_ <-]|[_ [[_ <-]|[_ H]]]]; [lia|lia|].
      by apply (proj2 (proj1 zero_counts_tally) k).
  - by vm_compute.
Defined.

(** *** The order of the known cards *)

Lemma list_remove_comm (x y : card) (d : list card) :
  (d1 ← list_remove x d; list_remove y d1)
  = (d1 ← list_remove y d; list_remove x d1).
Proof.
  induction d as [|z t IH]; [done|].
  cbn [list_remove].
  destruct (decide (x = z)) as [->|Hx], (decide (y = z)) as [->|Hy].
  - done.
  - rewrite mbind_Ok.
    destruct (list_remove y t) as [t'|e]; [|done].
    rewrite mbind_Ok. cbn [list_remove]. by rewrite decide_True.
  - rewrite mbind_Ok.
    destruct (list_remove x t) as [t'|e]; [|done].
    rewrite mbind_Ok. cbn [list_remove]. by rewrite decide_True.
  - destruct (list_remove x t) as [t1|e1] eqn:E1.
    + rewrite mbind_Ok in IH |- *. cbn [list_remove].
      rewrite decide_False by done. rewrite IH.
      destruct (list_remove y t) as [t2|e2]; [|done].
      rewrite !mbind_Ok. cbn [list_remove]. by rewrite decide_False.
    + destruct (list_remove y t) as [t2|e2]; [|done].
      rewrite mbind_Ok in IH |- *. cbn [list_remove].
      rewrite decide_False by done. by rewrite <-IH.
Qed.

Lemma remove_known_cons (g : string → card) (c : string) (codes : list string)
    (d : list card) :
  to_deuces c = Ok (g c) →
  remove_known (c :: codes) d
  = match list_remove (g c) d with
    | Ok d' => remove_known codes d'
    | Raise e => Raise e
    end.
Proof.
  intros Hc. unfold remove_known. cbn [forD].
  unfold bindD at 1. unfold bindD at 1. unfold lift at 1. rewrite Hc.
  unfold remove. by destruct (list_remove (g c) d).
Qed.

Lemma remove_known_Permutation (g : string → card) (codes codes' : list string) :
  codes ≡ₚ codes' → Forall (fun c => to_deuces c = Ok (g c)) codes →
  ∀ d, remove_known codes d = remove_known codes' d.
Proof.
  induction 1 as [|c l l' Hp IH|x y l|l l' l'' Hp1 IH1 Hp2 IH2]; intros Hv d.
  - done.
  - apply Forall_cons in Hv as [Hc Hl].
    rewrite !(remove_known_cons g) by done.
    destruct (list_remove (g c) d); [by apply IH|done].
  - apply Forall_cons in Hv as [Hy [Hx Hl]%Forall_cons].
    rewrite !(remove_known_cons g) by done.
    pose proof (list_remove_comm (g x) (g y) d) as Hcomm.
    destruct (list_remove (g y) d) as [d1|e1] eqn:E1.
    + rewrite (remove_known_cons g) by done.
      rewrite mbind_Ok in Hcomm. rewrite <-Hcomm.
      destruct (list_remove (g x) d) as [d2|e2]; [|done].
      rewrite mbind_Ok. by rewrite (remove_known_cons g).
    + destruct (list_remove (g x) d) as [d2|e2]; [|by simplify_eq].
      rewrite mbind_Ok in Hcomm. rewrite (remove_known_cons g) by done.
      by rewrite Hcomm.
  - rewrite IH1 by done. apply IH2. by rewrite <-Hp1.
Qed.

Lemma bindD_ext {A B} (m m' : DeckM A) (k k' : A → DeckM B) (d : list card) :
  m d = m' d → (∀ a d', k a d' = k' a d') → bindD m k d = bindD m' k' d.
Proof.
  intros Hm Hk. unfold bindD. rewrite Hm.
  by destruct (m' d) as [[a d']|e].
Qed.

Lemma evaluate_Permutation ev (cards cards' board board' : list card) :
  order_blind ev → cards ≡ₚ cards' → board ≡ₚ board' →
  evaluate ev cards board = evaluate ev cards' board'.
Proof.
  intros Hev Hc Hb. unfold evaluate, len.
  assert ((cards ++ board)%list ≡ₚ (cards' ++ board')%list) as Hp
    by (by rewrite Hc, Hb).
  by rewrite (Permutation_length Hp), (Hev _ _ Hp).
Qed.

Lemma for_each_ext {A B} (f g : A → result B) (l : list A) :
  (∀ x, f x = g x) → for_each f l = for_each g l.
Proof. intros H. induction l as [|x l IH]; [done|]. cbn. by rewrite H, IH. Qed.

Lemma for_range_ext {St} (body body' : nat → St → result St) (n i : nat) (s : St) :
  (∀ j t, body j t = body' j t) → for_range n i body s = for_range n i body' s.
Proof.
  intros H. revert i s. induction n as [|n IH]; intros i s; [done|].
  cbn. rewrite H. destruct (body' i s); [apply IH|done].
Qed.

Lemma showdown_Permutation ev (sim_board sim_board' hand hand' : list card)
    (opp_hands : list (list card)) :
  order_blind ev → sim_board ≡ₚ sim_board' → hand ≡ₚ hand' →
  showdown ev sim_board hand opp_hands = showdown ev sim_board' hand' opp_hands.
Proof.
  intros Hev Hs Hh. unfold showdown.
  rewrite (evaluate_Permutation ev sim_board sim_board' hand hand') by done.
  by rewrite (for_each_ext (fun opp => evaluate ev sim_board opp)
                           (fun opp => evaluate ev sim_board' opp))
    by (intros opp; by apply evaluate_Permutation).
Qed.

Lemma complete_board_unfold (board d : list card) :
  complete_board board d
  = match replicateD (Z.to_nat (5 - len board)) draw d with
    | Ok (drawn, rest) => Ok ((board ++ drawn)%list, rest)
    | Raise e => Raise e
    end.
Proof.
  unfold complete_board.
  destruct (Z.ltb_spec 0 (5 - len board)) as [Hpos|Hneg]; [done|].
  replace (Z.to_nat (5 - len board)) with 0%nat by lia.
  cbn. by rewrite app_nil_r.
Qed.

Lemma odds_trial_Permutation ev (hc hc' bc bc' : list string) np (d : list card) :
  order_blind ev → Forall starts_with_card (hc ++ bc) →
  hc ≡ₚ hc' → bc ≡ₚ bc' →
  odds_trial ev hc bc (deuces_card <$> hc) (deuces_card <$> bc) np d
  = odds_trial ev hc' bc' (deuces_card <$> hc') (deuces_card <$> bc') np d.
Proof.
  intros Hev Hv Hh Hb. unfold odds_trial, bindD.
  rewrite (remove_known_Permutation deuces_card (hc ++ bc) (hc' ++ bc'));
    [|by rewrite Hh, Hb|].
  2:{ eapply Forall_impl; [done|]. intros c Hc.
      by destruct (to_deuces_valid c Hc) as [-> _]. }
  destruct (remove_known (hc' ++ bc') d) as [[[] d1]|]; [|done].
  rewrite !complete_board_unfold.
  replace (len (deuces_card <$> bc')) with (len (deuces_card <$> bc))
    by (unfold len; by rewrite !length_fmap, (Permutation_length Hb)).
  destruct (replicateD _ draw d1) as [[drawn d2]|]; [|done].
  destruct (deal_opponents np d2) as [[opps d3]|]; [|done].
  unfold lift.
  by rewrite (showdown_Permutation ev _ ((deuces_card <$> bc') ++ drawn)
                _ (deuces_card <$> hc')) by (by rewrite ?Hh, ?Hb).
Qed.

Lemma distribution_trial_Permutation ev (hc hc' bc bc' : list string)
    (d : list card) :
  order_blind ev → Forall starts_with_card (hc ++ bc) →
  hc ≡ₚ hc' → bc ≡ₚ bc' →
  distribution_trial ev hc bc (deuces_card <$> hc) (deuces_card <$> bc) d
  = distribution_trial ev hc' bc' (deuces_card <$> hc') (deuces_card <$> bc') d.
Proof.
  intros Hev Hv Hh Hb. unfold distribution_trial, bindD.
  rewrite (remove_known_Permutation deuces_card (hc ++ bc) (hc' ++ bc'));
    [|by rewrite Hh, Hb|].
  2:{ eapply Forall_impl; [done|]. intros c Hc.
      by destruct (to_deuces_valid c Hc) as [-> _]. }
  destruct (remove_known (hc' ++ bc') d) as [[[] d1]|]; [|done].
  rewrite !complete_board_unfold.
  replace (len (deuces_card <$> bc')) with (len (deuces_card <$> bc))
    by (unfold len; by rewrite !length_fmap, (Permutation_length Hb)).
  destruct (replicateD _ draw d1) as [[drawn d2]|]; [|done].
  by rewrite (evaluate_Permutation ev _ ((deuces_card <$> bc') ++ drawn)
                _ (deuces_card <$> hc')) by (by rewrite ?Hh, ?Hb).
Qed.

Lemma preflop_trial_Permutation ev (hc hc' : list string) np e (d : list card) :
  order_blind ev → Forall starts_with_card hc → hc ≡ₚ hc' →
  preflop_trial ev hc (deuces_card <$> hc) np e d
  = preflop_trial ev hc' (deuces_card <$> hc') np e d.
Proof.
  intros Hev Hv Hh. unfold preflop_trial. cbv zeta.
  assert (deuces_card <$> hc ≡ₚ deuces_card <$> hc') as Hhand by (by rewrite Hh).
  apply bindD_ext.
  { apply (remove_known_Permutation deuces_card); [done|].
    eapply Forall_impl; [done|]. intros c Hc.
    by destruct (to_deuces_valid c Hc) as [-> _]. }
  intros _ d1.
  assert (Heval : ∀ cards, evaluate ev cards (deuces_card <$> hc)
                           = evaluate ev cards (deuces_card <$> hc'))
    by (intros cards; by apply evaluate_Permutation).
  repeat (apply bindD_ext; [first [done|by rewrite Heval]|intros ? ?]).
  done.
Qed.

(** X20: the simulators do not depend on the order in which the known
    cards are given.  For an evaluator that ranks a set of cards, cards
    that start with a rank and a suit, and the same decks, rearranging
    the hole cards and the board cards changes nothing in what
    [monte_carlo_odds], [monte_carlo_hand_distribution] and
    [monte_carlo_preflop_distributions] return, errors included.  So the
    tallies stored under the sorted key of the cache are those of either
    order of the hole cards. *)
Theorem simulators_ignore_card_order
    ev (hand_cards hand_cards' board_cards board_cards' : list string)
    (num_players num_trials : Z) (shuffle : nat → list card) :
  order_blind ev → Forall starts_with_card (hand_cards ++ board_cards) →
  hand_cards ≡ₚ hand_cards' → board_cards ≡ₚ board_cards' →
  monte_carlo_odds ev hand_cards board_cards num_players num_trials shuffle
  = monte_carlo_odds ev hand_cards' board_cards' num_players num_trials shuffle ∧
  monte_carlo_hand_distribution ev hand_cards board_cards num_trials shuffle
  = monte_carlo_hand_distribution ev hand_cards' board_cards' num_trials shuffle ∧
  monte_carlo_preflop_distributions ev hand_cards num_players num_trials shuffle
  = monte_carlo_preflop_distributions ev hand_cards' num_players num_trials
                                      shuffle.
Proof.
  intros Hev Hv Hh Hb.
  assert (Forall starts_with_card (hand_cards' ++ board_cards')) as Hv'
    by (by rewrite <-Hh, <-Hb).
  destruct (known_split _ _ Hv) as [Hhand Hboard].
  destruct (known_split _ _ Hv') as [Hhand' Hboard'].
  pose proof Hv as [Hvh _]%Forall_app.
  split_and!.
  - unfold monte_carlo_odds, monte_carlo_counts.
    rewrite Hhand, Hhand', !mbind_Ok, Hboard, Hboard', !mbind_Ok.
    erewrite for_range_ext; [done|]. intros j c. cbv beta.
    by rewrite (odds_trial_Permutation ev hand_cards hand_cards'
                  board_cards board_cards').
  - unfold monte_carlo_hand_distribution.
    rewrite Hhand, Hhand', !mbind_Ok, Hboard, Hboard', !mbind_Ok.
    apply for_range_ext. intros j c.
    by rewrite (distribution_trial_Permutation ev hand_cards hand_cards'
                  board_cards board_cards').
  - unfold monte_carlo_preflop_distributions.
    rewrite Hhand, Hhand', !mbind_Ok.
    apply for_range_ext. intros j c.
    by rewrite (preflop_trial_Permutation ev hand_cards hand_cards').
Qed.

Lemma simulators_ignore_card_order_witness :
  monte_carlo_preflop_distributions worst_evaluator ["As"; "Kd"] 3 2
    (fun i => rotate i FULL_DECK)
  = monte_carlo_preflop_distributions worst_evaluator ["Kd"; "As"] 3 2
      (fun i => rotate i FULL_DECK).
Proof.
  refine (proj2 (proj2 (simulators_ignore_card_order worst_evaluator
            ["As"; "Kd"] ["Kd"; "As"] [] [] 3 2 (fun i => rotate i FULL_DECK)
            _ _ _ _))).
  - intros l l' _. reflexivity.
  - repeat (constructor;
            [eexists _, _, _; split; [reflexivity|];
             split; apply (bool_decide_unpack _); vm_compute; reflexivity|]).
    constructor.
  - apply Permutation_swap.
  - reflexivity.
Defined.
